(** * NoBOLD prompt-execution pipeline: a shallow embedding

  The two provider scripts of the repository,
  [tools/Data prep/run_prompts_from_csv_gemini.py] and
  [tools/Data prep/run_prompts_from_csv_openai_chat.py], read rows from a
  CSV file, extract up to three prompts per row, send every prompt to a
  text-generation provider under a retry loop, and write all results to a
  semicolon separated CSV file.

  Conventions of the embedding.
  - A Python [str] is a Rocq [string]; a character stands for the code
    point of the same number, so the model covers text in the range
    U+0000..U+00FF (this includes the Norwegian letters).  [str.strip],
    [str.lower] and the [in] operator are written out for that range.
  - Everything the scripts obtain from outside (the provider SDK, the
    clock, the random generator, the environment, the input file) is read
    from a [World] that is threaded through the code; every SDK
    invocation is counted there.
  - Durations handed to [time.sleep] are rationals; the progress lines
    printed on standard output are not part of the model. *)

From Stdlib Require Import ZArith QArith Qminmax Ascii String List Bool Lia.
From Stdlib Require Import DecimalString.
From stdpp Require Import base option list gmap strings.

Local Open Scope string_scope.
Local Open Scope nat_scope.

(** ** Python strings *)

Module PyStr.

(** [bool(s)] of a string: non-empty. *)
Definition truthy (s : string) : bool :=
  match s with
  | EmptyString => false
  | String _ _ => true
  end.

(** [s or d]. *)
Definition or_else (s d : string) : string := if truthy s then s else d.

(** [c.isspace()] for code points below 256. *)
Definition is_space (c : ascii) : bool :=
  let n := nat_of_ascii c in
  ((9 <=? n) && (n <=? 13)) || ((28 <=? n) && (n <=? 32))
  || (n =? 133) || (n =? 160).

Fixpoint lstrip (s : string) : string :=
  match s with
  | EmptyString => EmptyString
  | String c t => if is_space c then lstrip t else s
  end.

Fixpoint rstrip (s : string) : string :=
  match s with
  | EmptyString => EmptyString
  | String c t =>
      match rstrip t with
      | EmptyString => if is_space c then EmptyString else String c EmptyString
      | t' => String c t'
      end
  end.

(** [s.strip()]. *)
Definition strip (s : string) : string := rstrip (lstrip s).

(** [c.lower()] for code points below 256: A-Z and the accented capitals
    U+00C0..U+00DE (the multiplication sign U+00D7 apart) move up by 32. *)
Definition lower_char (c : ascii) : ascii :=
  let n := nat_of_ascii c in
  if ((65 <=? n) && (n <=? 90))
     || ((192 <=? n) && (n <=? 222) && negb (n =? 215))
  then ascii_of_nat (n + 32) else c.

Fixpoint lower (s : string) : string :=
  match s with
  | EmptyString => EmptyString
  | String c t => String (lower_char c) (lower t)
  end.

(** [needle in hay]. *)
Fixpoint contains (needle hay : string) : bool :=
  String.prefix needle hay ||
  match hay with
  | EmptyString => false
  | String _ t => contains needle t
  end.

(** [str(n)] of a non-negative integer. *)
Definition str_nat (n : nat) : string :=
  NilEmpty.string_of_uint (Nat.to_uint n).

(** [join] of the empty separator over [parts]. *)
Definition join_empty (parts : list string) : string :=
  fold_right String.append EmptyString parts.

End PyStr.


(** ** The outside world *)

(** An exception raised by a provider SDK: [type(e).__name__], [str(e)],
    and whether it is an instance of the OpenAI [APIError] hierarchy
    ([RateLimitError] and [APIStatusError] are subclasses of it). *)
Record Exn : Type := mkExn {
  exn_type : string;
  exn_msg : string;
  exn_api_error : bool
}.

(** What one SDK request does: it returns a response object or raises. *)
Inductive Outcome (R : Type) : Type :=
| Returned (resp : R)
| Raised (e : Exn).
Arguments Returned {R} resp.
Arguments Raised {R} e.

(** An [InputRow]: the [Dict[str, str]] that [csv.DictReader] yields. *)
Abbreviation InputRow := (gmap string string).

(** [row.get(key, default)] with the empty string as default. *)
Definition row_get (row : InputRow) (key : string) : string :=
  default EmptyString (row !! key).

(** The state of everything outside the script.  [sdk n model prompt] is
    what the [n]-th request of the run does when it is sent for [model]
    and [prompt] (the fixed system instruction and token limit that go with
    every request are constants of the script).  [written] lists the files
    written so far, oldest first. *)
Record World (R : Type) : Type := mkWorld {
  sdk : nat -> string -> string -> Outcome R;
  calls : nat;
  clock : nat -> string;
  clock_reads : nat;
  rng : nat -> Q;
  rng_reads : nat;
  slept : list Q;
  environ : gmap string string;
  csv_files : string -> list InputRow;
  written : list (string * list Byte.byte)
}.
Arguments mkWorld {R}.
Arguments sdk {R}.
Arguments calls {R}.
Arguments clock {R}.
Arguments clock_reads {R}.
Arguments rng {R}.
Arguments rng_reads {R}.
Arguments slept {R}.
Arguments environ {R}.
Arguments csv_files {R}.
Arguments written {R}.

(** The scripts as state transformers over the world. *)
Definition M (R A : Type) : Type := World R -> A * World R.

Definition ret {R A : Type} (a : A) : M R A := fun w => (a, w).

Definition bind {R A B : Type} (c : M R A) (k : A -> M R B) : M R B :=
  fun w => let (a, w') := c w in k a w'.

Notation "x <- c ;; k" := (bind c (fun x => k))
  (at level 100, c at next level, right associativity).
Notation "c ;;; k" := (bind c (fun _ => k))
  (at level 100, right associativity).

(** One request to the provider SDK. *)
Definition sdk_request {R : Type} (model prompt : string) : M R (Outcome R) :=
  fun w =>
    (sdk w (calls w) model prompt,
     mkWorld (sdk w) (S (calls w)) (clock w) (clock_reads w) (rng w)
       (rng_reads w) (slept w) (environ w) (csv_files w) (written w)).

(** [time.sleep(seconds)]. *)
Definition sleep {R : Type} (seconds : Q) : M R unit :=
  fun w =>
    (tt,
     mkWorld (sdk w) (calls w) (clock w) (clock_reads w) (rng w)
       (rng_reads w) (slept w ++ [seconds]) (environ w) (csv_files w)
       (written w)).

(** [random.uniform(0, 1)]. *)
Definition random_uniform {R : Type} : M R Q :=
  fun w =>
    (rng w (rng_reads w),
     mkWorld (sdk w) (calls w) (clock w) (clock_reads w) (rng w)
       (S (rng_reads w)) (slept w) (environ w) (csv_files w) (written w)).

(** [utc_now_iso()] of both scripts:
    [datetime.datetime.now(datetime.timezone.utc).isoformat()]. *)
Definition utc_now_iso {R : Type} : M R string :=
  fun w =>
    (clock w (clock_reads w),
     mkWorld (sdk w) (calls w) (clock w) (S (clock_reads w)) (rng w)
       (rng_reads w) (slept w) (environ w) (csv_files w) (written w)).

(** [os.getenv(name)] / [os.environ.get(name)]. *)
Definition getenv {R : Type} (name : string) : M R (option string) :=
  fun w => (environ w !! name, w).

(** [read_csv_rows(csv_path)] of both scripts: the rows that
    [csv.DictReader] finds in the file, with the delimiter that
    [detect_delimiter] picks.  Parsing the input is left to the world. *)
Definition read_csv_rows {R : Type} (csv_path : string) : M R (list InputRow) :=
  fun w => (csv_files w csv_path, w).

(** Writing a whole file in one go ([open(path, "w")] ... close). *)
Definition write_file {R : Type} (path : string) (content : list Byte.byte)
  : M R unit :=
  fun w =>
    (tt,
     mkWorld (sdk w) (calls w) (clock w) (clock_reads w) (rng w)
       (rng_reads w) (slept w) (environ w) (csv_files w)
       (written w ++ [(path, content)])).

(** How a Python process ends: it runs to the end of [main], or
    [SystemExit] is raised: [sys.exit(n)] carries an integer status,
    [raise SystemExit("text")] carries a message, which the interpreter
    prints before it exits with status 1.  Any other exception that
    nothing catches ends the process with status 1 as well. *)
Inductive Termination : Type :=
| Finished
| SysExitCode (status : nat)
| SysExitMessage (text : string)
| Uncaught (exception : string).

Definition exit_status (t : Termination) : nat :=
  match t with
  | Finished => 0
  | SysExitCode status => status
  | SysExitMessage _ => 1
  | Uncaught _ => 1
  end.

(** ** Shared pieces of the two drivers *)

(** [ensure_prompts(row)], the same in both scripts:
    [ps] holds [row.get] of prompt_1, prompt_2 and prompt_3, each with the
    empty string as default, and the result is
    [[p.strip() for p in ps if p and p.strip()]]. *)
Definition ensure_prompts (row : InputRow) : list string :=
  let ps := [row_get row "prompt_1"; row_get row "prompt_2";
             row_get row "prompt_3"] in
  map PyStr.strip
    (List.filter (fun p => PyStr.truthy p && PyStr.truthy (PyStr.strip p)) ps).

(** The [--rows] choice. *)
Inductive RowsMode : Type := RowsFirst | RowsAll.

(** [[(i+2, r) for i, r in enumerate(rows_in)]]. *)
Fixpoint enumerate_from {A : Type} (start : nat) (l : list A)
  : list (nat * A) :=
  match l with
  | [] => []
  | x :: t => (start, x) :: enumerate_from (S start) t
  end.

(** The row selection of both [main]s:
    [[(2, rows_in[0])] if args.rows == "first" else [(i+2, r) for i, r in enumerate(rows_in)]].
    [rows_in[0]] raises [IndexError] on an empty list ([None] here); [main]
    has left with status 3 before that can happen. *)
Definition select_rows (mode : RowsMode) (rows_in : list InputRow)
  : option (list (nat * InputRow)) :=
  match mode with
  | RowsFirst =>
      match rows_in with
      | [] => None
      | r :: _ => Some [(2, r)]
      end
  | RowsAll => Some (map (fun ir => (fst ir + 2, snd ir)) (enumerate_from 0 rows_in))
  end.

(** The command line after [argparse]. *)
Record Args : Type := mkArgs {
  arg_input : string;
  arg_output : string;
  arg_model : string;
  arg_rows : RowsMode;
  arg_sleep : Q
}.

(** ** Python's [csv] module and text files, as the scripts use them *)

Module Csv.

(** The dialect parameters of [csv.writer] and [csv.reader].  The quoting
    mode is [csv.QUOTE_ALL] throughout, the only one the scripts pass: the
    writer puts every field between quote characters, the reader handles
    quote characters and converts nothing to numbers. *)
Record Dialect : Type := mkDialect {
  delimiter : ascii;
  quotechar : ascii;
  escapechar : option ascii;
  doublequote : bool;
  skipinitialspace : bool;
  strict : bool;
  lineterminator : string
}.

Definition is_escapechar (d : Dialect) (c : ascii) : bool :=
  match escapechar d with
  | Some e => Ascii.eqb c e
  | None => false
  end.

Fixpoint occurs (c : ascii) (s : string) : bool :=
  match s with
  | EmptyString => false
  | String x t => Ascii.eqb c x || occurs c t
  end.

(** A value stored in a result dictionary: a string or a non-negative
    integer (the token counters of the OpenAI SDK). *)
Inductive PyVal : Type :=
| PStr (s : string)
| PInt (n : nat).

(** The text the writer emits for a value: a string as it is, anything else
    through [str()]. *)
Definition field_text (v : PyVal) : string :=
  match v with
  | PStr s => s
  | PInt n => PyStr.str_nat n
  end.

(** *** The writer

    The character loop of the writer ([join_append_data] of CPython's
    [_csv.c], Python 3.10 and later) under QUOTE_ALL: a quote character is
    doubled when [doublequote] is set and escaped otherwise, the escape
    character is escaped, everything else is copied.  [None] is the error
    "need to escape, but no escapechar set". *)
Fixpoint join_append_data (d : Dialect) (field : string) : option string :=
  match field with
  | EmptyString => Some EmptyString
  | String c rest =>
      match join_append_data d rest with
      | None => None
      | Some out =>
          if Ascii.eqb c (delimiter d) || is_escapechar d c
             || Ascii.eqb c (quotechar d) || occurs c (lineterminator d)
          then
            if Ascii.eqb c (quotechar d) then
              if doublequote d then Some (String (quotechar d) (String c out))
              else
                match escapechar d with
                | Some e => Some (String e (String c out))
                | None => None
                end
            else if is_escapechar d c then
              match escapechar d with
              | Some e => Some (String e (String c out))
              | None => None
              end
            else Some (String c out)
          else Some (String c out)
      end
  end.

(** One field between quote characters. *)
Definition join_append (d : Dialect) (field : string) : option string :=
  match join_append_data d field with
  | None => None
  | Some body =>
      Some (String (quotechar d) (body ++ String (quotechar d) EmptyString))
  end.

(** The fields of one record, with the delimiter between them. *)
Fixpoint join_fields (d : Dialect) (fields : list string) : option string :=
  match fields with
  | [] => Some EmptyString
  | f :: rest =>
      match join_append d f, join_fields d rest with
      | Some q, Some out =>
          match rest with
          | [] => Some q
          | _ :: _ => Some (q ++ String (delimiter d) out)
          end
      | _, _ => None
      end
  end.

(** [writer.writerow(row)]: the text appended to the file. *)
Definition writerow (d : Dialect) (row : list PyVal) : option string :=
  match join_fields d (map field_text row) with
  | None => None
  | Some line => Some (line ++ lineterminator d)
  end.

(** [writer.writerows(rows)]. *)
Fixpoint writerows (d : Dialect) (rows : list (list PyVal)) : option string :=
  match rows with
  | [] => Some EmptyString
  | row :: rest =>
      match writerow d row, writerows d rest with
      | Some line, Some out => Some (line ++ out)
      | _, _ => None
      end
  end.

(** [csv.DictWriter]: [writeheader()] writes the field names as a row,
    [writerows(rows)] the values of every dictionary in the order of the
    field names.  A result dictionary is given by its values in that order. *)
Definition dictwriter_output (d : Dialect) (fieldnames : list string)
    (rows : list (list PyVal)) : option string :=
  match writerow d (map PStr fieldnames), writerows d rows with
  | Some header, Some body => Some (header ++ body)
  | _, _ => None
  end.

(** *** The reader

    The state machine of [csv.reader] ([parse_process_char] and
    [Reader_iternext] of CPython's [_csv.c]).  The process-wide field size
    limit is not part of the model. *)
Inductive ParserState : Type :=
| START_RECORD | START_FIELD | ESCAPED_CHAR | IN_FIELD
| IN_QUOTED_FIELD | ESCAPE_IN_QUOTED_FIELD | QUOTE_IN_QUOTED_FIELD
| EAT_CRNL | AFTER_ESCAPED_CRNL.

Record Reader : Type := mkReader {
  state : ParserState;
  field : string;
  fields : list string
}.

Definition parse_reset : Reader := mkReader START_RECORD EmptyString [].

Definition parse_add_char (r : Reader) (c : ascii) : Reader :=
  mkReader (state r) (field r ++ String c EmptyString) (fields r).

Definition parse_save_field (r : Reader) : Reader :=
  mkReader (state r) EmptyString (fields r ++ [field r]).

Definition set_state (r : Reader) (s : ParserState) : Reader :=
  mkReader s (field r) (fields r).

Definition DQUOTE : ascii := ascii_of_nat 34.
Definition LF : ascii := ascii_of_nat 10.
Definition CR : ascii := ascii_of_nat 13.

Definition is_newline (c : ascii) : bool := Ascii.eqb c LF || Ascii.eqb c CR.

(** Start of a field (also entered from [START_RECORD]). *)
Definition step_start_field (d : Dialect) (r : Reader) (c : option ascii)
  : option Reader :=
  match c with
  | None => Some (set_state (parse_save_field r) START_RECORD)
  | Some c =>
      if is_newline c then Some (set_state (parse_save_field r) EAT_CRNL)
      else if Ascii.eqb c (quotechar d) then Some (set_state r IN_QUOTED_FIELD)
      else if is_escapechar d c then Some (set_state r ESCAPED_CHAR)
      else if Ascii.eqb c " " && skipinitialspace d then Some r
      else if Ascii.eqb c (delimiter d) then Some (parse_save_field r)
      else Some (set_state (parse_add_char r c) IN_FIELD)
  end.

(** Inside an unquoted field (also entered from [AFTER_ESCAPED_CRNL]). *)
Definition step_in_field (d : Dialect) (r : Reader) (c : option ascii)
  : option Reader :=
  match c with
  | None => Some (set_state (parse_save_field r) START_RECORD)
  | Some c =>
      if is_newline c then Some (set_state (parse_save_field r) EAT_CRNL)
      else if is_escapechar d c then Some (set_state r ESCAPED_CHAR)
      else if Ascii.eqb c (delimiter d)
      then Some (set_state (parse_save_field r) START_FIELD)
      else Some (parse_add_char r c)
  end.

(** [parse_process_char]; the character [None] is the end-of-line mark fed
    after every line, the result [None] is [csv.Error]. *)
Definition parse_process_char (d : Dialect) (r : Reader) (c : option ascii)
  : option Reader :=
  match state r with
  | START_RECORD =>
      match c with
      | None => Some r
      | Some c' =>
          if is_newline c' then Some (set_state r EAT_CRNL)
          else step_start_field d (set_state r START_FIELD) c
      end
  | START_FIELD => step_start_field d r c
  | ESCAPED_CHAR =>
      match c with
      | None => Some (set_state (parse_add_char r LF) IN_FIELD)
      | Some c' =>
          if is_newline c'
          then Some (set_state (parse_add_char r c') AFTER_ESCAPED_CRNL)
          else Some (set_state (parse_add_char r c') IN_FIELD)
      end
  | AFTER_ESCAPED_CRNL =>
      match c with
      | None => Some r
      | Some _ => step_in_field d r c
      end
  | IN_FIELD => step_in_field d r c
  | IN_QUOTED_FIELD =>
      match c with
      | None => Some r
      | Some c' =>
          if is_escapechar d c' then Some (set_state r ESCAPE_IN_QUOTED_FIELD)
          else if Ascii.eqb c' (quotechar d) then
            if doublequote d then Some (set_state r QUOTE_IN_QUOTED_FIELD)
            else Some (set_state r IN_FIELD)
          else Some (parse_add_char r c')
      end
  | ESCAPE_IN_QUOTED_FIELD =>
      match c with
      | None => Some (set_state (parse_add_char r LF) IN_QUOTED_FIELD)
      | Some c' => Some (set_state (parse_add_char r c') IN_QUOTED_FIELD)
      end
  | QUOTE_IN_QUOTED_FIELD =>
      match c with
      | None => Some (set_state (parse_save_field r) START_RECORD)
      | Some c' =>
          if Ascii.eqb c' (quotechar d)
          then Some (set_state (parse_add_char r c') IN_QUOTED_FIELD)
          else if Ascii.eqb c' (delimiter d)
          then Some (set_state (parse_save_field r) START_FIELD)
          else if is_newline c'
          then Some (set_state (parse_save_field r) EAT_CRNL)
          else if negb (strict d)
          then Some (set_state (parse_add_char r c') IN_FIELD)
          else None
      end
  | EAT_CRNL =>
      match c with
      | None => Some (set_state r START_RECORD)
      | Some c' => if is_newline c' then Some r else None
      end
  end.

(** One line of input: its characters, then the end-of-line mark. *)
Fixpoint process_line (d : Dialect) (r : Reader) (line : string)
  : option Reader :=
  match line with
  | EmptyString => parse_process_char d r None
  | String c rest =>
      match parse_process_char d r (Some c) with
      | None => None
      | Some r' => process_line d r' rest
      end
  end.

Definition in_start_record (r : Reader) : bool :=
  match state r with
  | START_RECORD => true
  | _ => false
  end.

Definition in_quoted_field (r : Reader) : bool :=
  match state r with
  | IN_QUOTED_FIELD => true
  | _ => false
  end.

(** [list(reader)]: [Reader_iternext] until the lines run out.  A record is
    complete when the machine is back in [START_RECORD] after a line. *)
Fixpoint reader_rows (d : Dialect) (r : Reader) (lines : list string)
  : option (list (list string)) :=
  match lines with
  | [] =>
      if PyStr.truthy (field r) || in_quoted_field r then
        if strict d then None else Some [fields (parse_save_field r)]
      else Some []
  | line :: rest =>
      match process_line d r line with
      | None => None
      | Some r' =>
          if in_start_record r' then
            match reader_rows d parse_reset rest with
            | None => None
            | Some rows => Some (fields r' :: rows)
            end
          else reader_rows d r' rest
      end
  end.

(** The lines of a text file opened with the empty [newline] argument
    (no translation of line endings): a line ends after
    LF, after CR LF, or after a CR that no LF follows, and keeps its
    ending.  [cur] is the line read so far. *)
Fixpoint readlines_from (cur : string) (text : string) : list string :=
  match text with
  | EmptyString => if PyStr.truthy cur then [cur] else []
  | String c rest =>
      let cur' := cur ++ String c EmptyString in
      if Ascii.eqb c LF then cur' :: readlines_from EmptyString rest
      else if Ascii.eqb c CR then
        match rest with
        | String c2 rest2 =>
            if Ascii.eqb c2 LF
            then (cur' ++ String c2 EmptyString) :: readlines_from EmptyString rest2
            else cur' :: readlines_from EmptyString rest
        | EmptyString => [cur']
        end
      else readlines_from cur' rest
  end.

Definition readlines (text : string) : list string :=
  readlines_from EmptyString text.

(** [list(csv.reader(f, ...))] over the text of a file. *)
Definition reader_output (d : Dialect) (text : string)
  : option (list (list string)) :=
  reader_rows d parse_reset (readlines text).

(** *** Text encoding

    [encoding="utf-8-sig"]: UTF-8 behind a byte-order mark.  Code points
    below 128 are one byte, the others of the modelled range are two. *)
Definition BOM : list Byte.byte := [Byte.xef; Byte.xbb; Byte.xbf].

Definition utf8_char (c : ascii) : list Byte.byte :=
  let n := nat_of_ascii c in
  if n <? 128 then [byte_of_ascii c]
  else [byte_of_ascii (ascii_of_nat (192 + n / 64));
        byte_of_ascii (ascii_of_nat (128 + n mod 64))].

Fixpoint utf8_encode (text : string) : list Byte.byte :=
  match text with
  | EmptyString => []
  | String c rest => utf8_char c ++ utf8_encode rest
  end.

Definition encode_utf8_sig (text : string) : list Byte.byte :=
  BOM ++ utf8_encode text.

(** Decoding; [None] is [UnicodeDecodeError] or a code point outside the
    modelled range. *)
Fixpoint utf8_decode (bytes : list Byte.byte) : option string :=
  match bytes with
  | [] => Some EmptyString
  | b :: rest =>
      let n := nat_of_ascii (ascii_of_byte b) in
      if n <? 128 then
        match utf8_decode rest with
        | Some s => Some (String (ascii_of_byte b) s)
        | None => None
        end
      else if (n =? 194) || (n =? 195) then
        match rest with
        | b2 :: rest2 =>
            let m := nat_of_ascii (ascii_of_byte b2) in
            if (128 <=? m) && (m <? 192) then
              match utf8_decode rest2 with
              | Some s =>
                  Some (String (ascii_of_nat ((n - 192) * 64 + (m - 128))) s)
              | None => None
              end
            else None
        | [] => None
        end
      else None
  end.

Definition decode_utf8_sig (bytes : list Byte.byte) : option string :=
  match bytes with
  | Byte.xef :: Byte.xbb :: Byte.xbf :: rest => utf8_decode rest
  | _ => utf8_decode bytes
  end.

End Csv.

(** ** run_prompts_from_csv_gemini.py *)

Module Gemini.

Definition MAX_RETRIES : nat := 6.

(** A candidate of a response: [content.parts] as the texts of the parts
    ([None] when the candidate has no content or no parts; an absent part
    text is the empty string, the default of its [getattr]), and
    [finish_reason] formatted as text. *)
Record Candidate : Type := mkCandidate {
  content_parts : option (list string);
  finish_reason : string
}.

(** The response object of [model.generate_content]: its [text] attribute
    and its [candidates], [None] where [getattr] falls back to its default. *)
Record Response : Type := mkResponse {
  text : option string;
  candidates : option (list Candidate)
}.

(** The dictionary [call_gemini_safe] returns. *)
Record CallResult : Type := mkCallResult {
  response_text : string;
  error : string
}.

(** [bool(getattr(resp, "candidates", None))]. *)
Definition has_candidates (resp : Response) : bool :=
  match candidates resp with
  | Some (_ :: _) => true
  | _ => false
  end.

(** The two nested loops that collect the non-empty part texts. *)
Definition stitch_candidates (cs : list Candidate) : string :=
  PyStr.join_empty
    (flat_map
       (fun c =>
          match content_parts c with
          | Some parts => List.filter PyStr.truthy parts
          | None => []
          end)
       cs).

(** The [try] body of [call_gemini_safe] after the SDK has answered. *)
Definition result_of_response (resp : Response) : CallResult :=
  let text0 := PyStr.or_else (default EmptyString (text resp)) EmptyString in
  let text1 :=
    if negb (PyStr.truthy text0) && has_candidates resp
    then stitch_candidates (default [] (candidates resp))
    else text0 in
  let text2 := PyStr.strip (PyStr.or_else text1 EmptyString) in
  if negb (PyStr.truthy text2) && has_candidates resp then
    let fin :=
      match candidates resp with
      | Some (c :: _) => finish_reason c
      | _ => EmptyString
      end in
    mkCallResult ("[EMPTY_OR_BLOCKED finish_reason=" ++ fin ++ "]") EmptyString
  else mkCallResult (PyStr.or_else text2 "[EMPTY]") EmptyString.

(** [any(k in msg for k in ["429", "rate", "quota", "resource exhausted", "busy"])]. *)
Definition rate_limited (msg : string) : bool :=
  existsb (fun k => PyStr.contains k msg)
    ["429"; "rate"; "quota"; "resource exhausted"; "busy"].

(** ["safety" in msg or "blocked" in msg]. *)
Definition safety_blocked (msg : string) : bool :=
  PyStr.contains "safety" msg || PyStr.contains "blocked" msg.

Definition backoff_cap : Q := 30.

(** The loop [for attempt in range(MAX_RETRIES)] of [call_gemini_safe],
    over the attempt numbers still to come, and the [return] behind it.
    The text sent is [SYSTEM_NO], an empty line and the prompt; the system
    text being a constant of the script, the world is asked with the
    prompt. *)
Fixpoint retry_loop (attempts : list nat) (prompt model_name : string)
  : M Response CallResult :=
  match attempts with
  | [] =>
      ret (mkCallResult "ERROR: too many retries due to rate limits"
             EmptyString)
  | attempt :: rest =>
      out <- sdk_request model_name prompt ;;
      match out with
      | Returned resp => ret (result_of_response resp)
      | Raised e =>
          let msg := PyStr.lower (exn_msg e) in
          if rate_limited msg then
            u <- random_uniform ;;
            sleep (Qmin (inject_Z (2 ^ Z.of_nat attempt) + u) backoff_cap) ;;;
            retry_loop rest prompt model_name
          else if safety_blocked msg
          then ret (mkCallResult "(blocked)" EmptyString)
          else ret (mkCallResult "[ERROR]" (exn_type e ++ ": " ++ exn_msg e))
      end
  end.

Definition call_gemini_safe (prompt model_name : string)
  : M Response CallResult :=
  retry_loop (seq 0 MAX_RETRIES) prompt model_name.

(** A result dictionary of [main]. *)
Record ResultRecord : Type := mkResultRecord {
  timestamp_utc : string;
  provider : string;
  model : string;
  row_index : string;
  name : string;
  category : string;
  norwegian_title : string;
  norwegian_url : string;
  prompt_id : string;
  prompt_text : string;
  rec_response_text : string;
  rec_error : string
}.

Definition fieldnames : list string :=
  ["timestamp_utc"; "provider"; "model";
   "row_index"; "name"; "category"; "norwegian_title"; "norwegian_url";
   "prompt_id"; "prompt_text"; "response_text"; "error"].

(** The values of a result dictionary in the order of [fieldnames]. *)
Definition record_values (r : ResultRecord) : list Csv.PyVal :=
  map Csv.PStr
    [timestamp_utc r; provider r; model r;
     row_index r; name r; category r; norwegian_title r; norwegian_url r;
     prompt_id r; prompt_text r; rec_response_text r; rec_error r].

(** The dialect [write_results_csv] builds its [csv.DictWriter] with:
    the semicolon of [CSV_OUT_DELIMITER] as delimiter, [csv.QUOTE_ALL], the
    double quote as quote character, the backslash as escape character,
    the rest at the defaults of the module. *)
Definition results_dialect : Csv.Dialect :=
  Csv.mkDialect ";" Csv.DQUOTE (Some "\"%char) true false false
    (String Csv.CR (String Csv.LF EmptyString)).

(** The text [write_results_csv] hands to the file. *)
Definition results_text (rows : list ResultRecord) : option string :=
  Csv.dictwriter_output results_dialect fieldnames (map record_values rows).

(** [write_results_csv(out_path, rows)]; the file is opened with
    the encoding utf-8-sig and without newline translation.  The writer cannot fail under
    this dialect; were it to, nothing is recorded as written. *)
Definition write_results_csv (out_path : string) (rows : list ResultRecord)
  : M Response unit :=
  match results_text rows with
  | Some txt => write_file out_path (Csv.encode_utf8_sig txt)
  | None => ret tt
  end.

(** [require_key()]: [None] when it returns, the raised [SystemExit]
    otherwise.  An unset variable and an empty one are both refused. *)
Definition require_key : M Response (option Termination) :=
  api_key <- getenv "GOOGLE_API_KEY" ;;
  match api_key with
  | Some (String _ _) => ret None
  | _ => ret (Some (SysExitMessage "Missing GOOGLE_API_KEY environment variable."))
  end.

(** The loop [for j, p in enumerate(prompts, start=1)] of [main]. *)
Fixpoint prompt_loop (args : Args) (visual_idx : nat) (row : InputRow)
    (jps : list (nat * string)) (out_rows : list ResultRecord)
  : M Response (list ResultRecord) :=
  match jps with
  | [] => ret out_rows
  | (j, p) :: rest =>
      res <- call_gemini_safe p (arg_model args) ;;
      now <- utc_now_iso ;;
      let out_rows' :=
        (out_rows ++
         [mkResultRecord now "gemini" (arg_model args)
            (PyStr.str_nat visual_idx)
            (row_get row "name") (row_get row "category")
            (row_get row "norwegian_title") (row_get row "norwegian_url")
            ("p" ++ PyStr.str_nat j) p (response_text res) (error res)])%list
      in
      sleep (arg_sleep args) ;;;
      prompt_loop args visual_idx row rest out_rows'
  end.

(** The loop [for (visual_idx, row) in selected] of [main]. *)
Fixpoint row_loop (args : Args) (selected : list (nat * InputRow))
    (out_rows : list ResultRecord) : M Response (list ResultRecord) :=
  match selected with
  | [] => ret out_rows
  | (visual_idx, row) :: rest =>
      let prompts := ensure_prompts row in
      match prompts with
      | [] => row_loop args rest out_rows
      | _ :: _ =>
          out_rows' <- prompt_loop args visual_idx row
                         (enumerate_from 1 prompts) out_rows ;;
          row_loop args rest out_rows'
      end
  end.

(** [main()] after the command line has been parsed. *)
Definition main (args : Args) : M Response Termination :=
  missing <- require_key ;;
  match missing with
  | Some exit => ret exit
  | None =>
      rows_in <- read_csv_rows (arg_input args) ;;
      match rows_in with
      | [] => ret (SysExitCode 3)
      | _ :: _ =>
          match select_rows (arg_rows args) rows_in with
          | None => ret (Uncaught "IndexError")
          | Some selected =>
              out_rows <- row_loop args selected [] ;;
              write_results_csv (arg_output args) out_rows ;;;
              ret Finished
          end
      end
  end.

End Gemini.

(** ** run_prompts_from_csv_openai_chat.py *)

Module OpenAI.

Definition RETRIES : nat := 3.
Definition RETRY_BACKOFF : Q := 2.

(** [r.usage] of a chat completion. *)
Record Usage : Type := mkUsage {
  usage_prompt_tokens : nat;
  usage_completion_tokens : nat;
  usage_total_tokens : nat
}.

(** The response object of [client.chat.completions.create]: the
    [message.content] of every choice ([None] for a missing content) and
    the [usage] attribute ([None] when absent). *)
Record Response : Type := mkResponse {
  choices : list (option string);
  usage : option Usage
}.

(** The dictionary [call_openai_chat_with_retries] returns. *)
Record CallResult : Type := mkCallResult {
  response_text : string;
  prompt_tokens : Csv.PyVal;
  completion_tokens : Csv.PyVal;
  total_tokens : Csv.PyVal;
  error : string
}.

(** [getattr(usage, attribute, default)] with the empty string as default. *)
Definition usage_attr (u : option Usage) (attribute : Usage -> nat)
  : Csv.PyVal :=
  match u with
  | Some x => Csv.PInt (attribute x)
  | None => Csv.PStr EmptyString
  end.

(** The [try] body of one attempt: the dictionary it returns, or the
    exception that leaves it ([r.choices[0]] raises [IndexError] on an
    empty list). *)
Definition attempt_result (out : Outcome Response) : CallResult + Exn :=
  match out with
  | Raised e => inr e
  | Returned r =>
      match choices r with
      | [] => inr (mkExn "IndexError" "list index out of range" false)
      | content :: _ =>
          let text := PyStr.strip (PyStr.or_else (default EmptyString content) EmptyString) in
          inl (mkCallResult
                 (if PyStr.truthy text then text else "[EMPTY]")
                 (usage_attr (usage r) usage_prompt_tokens)
                 (usage_attr (usage r) usage_completion_tokens)
                 (usage_attr (usage r) usage_total_tokens)
                 EmptyString)
      end
  end.

(** The loop [for attempt in range(1, RETRIES+1)] of
    [call_openai_chat_with_retries], over the attempt numbers still to
    come, and the [return] behind it.  Both [except] clauses record the
    failure in [last_err]; the sleep and the next attempt follow either. *)
Fixpoint retry_loop (attempts : list nat) (last_err : string)
    (model prompt : string) : M Response CallResult :=
  match attempts with
  | [] =>
      ret (mkCallResult "[ERROR]" (Csv.PStr EmptyString)
             (Csv.PStr EmptyString) (Csv.PStr EmptyString) last_err)
  | attempt :: rest =>
      out <- sdk_request model prompt ;;
      match attempt_result out with
      | inl res => ret res
      | inr e =>
          let last_err' :=
            if exn_api_error e
            then exn_type e ++ ": " ++ exn_msg e
            else exn_type e ++ ": " ++ exn_msg e in
          sleep (RETRY_BACKOFF ^ Z.of_nat (attempt - 1)) ;;;
          retry_loop rest last_err' model prompt
      end
  end.

Definition call_openai_chat_with_retries (model prompt : string)
  : M Response CallResult :=
  retry_loop (seq 1 RETRIES) EmptyString model prompt.

(** A result dictionary of [main]. *)
Record ResultRecord : Type := mkResultRecord {
  timestamp_utc : string;
  provider : string;
  engine : string;
  model : string;
  row_index : string;
  name : string;
  category : string;
  norwegian_title : string;
  norwegian_url : string;
  prompt_id : string;
  prompt_text : string;
  rec_response_text : string;
  rec_prompt_tokens : Csv.PyVal;
  rec_completion_tokens : Csv.PyVal;
  rec_total_tokens : Csv.PyVal;
  rec_error : string
}.

Definition fieldnames : list string :=
  ["timestamp_utc"; "provider"; "engine"; "model";
   "row_index"; "name"; "category"; "norwegian_title"; "norwegian_url";
   "prompt_id"; "prompt_text"; "response_text";
   "prompt_tokens"; "completion_tokens"; "total_tokens"; "error"].

(** The values of a result dictionary in the order of [fieldnames]. *)
Definition record_values (r : ResultRecord) : list Csv.PyVal :=
  [Csv.PStr (timestamp_utc r); Csv.PStr (provider r); Csv.PStr (engine r);
   Csv.PStr (model r);
   Csv.PStr (row_index r); Csv.PStr (name r); Csv.PStr (category r);
   Csv.PStr (norwegian_title r); Csv.PStr (norwegian_url r);
   Csv.PStr (prompt_id r); Csv.PStr (prompt_text r);
   Csv.PStr (rec_response_text r);
   rec_prompt_tokens r; rec_completion_tokens r; rec_total_tokens r;
   Csv.PStr (rec_error r)].

(** The dialect of [write_results_csv], the same as in the Gemini script. *)
Definition results_dialect : Csv.Dialect :=
  Csv.mkDialect ";" Csv.DQUOTE (Some "\"%char) true false false
    (String Csv.CR (String Csv.LF EmptyString)).

Definition results_text (rows : list ResultRecord) : option string :=
  Csv.dictwriter_output results_dialect fieldnames (map record_values rows).

(** [write_results_csv(out_path, rows)]. *)
Definition write_results_csv (out_path : string) (rows : list ResultRecord)
  : M Response unit :=
  match results_text rows with
  | Some txt => write_file out_path (Csv.encode_utf8_sig txt)
  | None => ret tt
  end.

(** The loop [for j, p in enumerate(prompts, start=1)] of [main]. *)
Fixpoint prompt_loop (args : Args) (visual_idx : nat) (row : InputRow)
    (jps : list (nat * string)) (out_rows : list ResultRecord)
  : M Response (list ResultRecord) :=
  match jps with
  | [] => ret out_rows
  | (j, p) :: rest =>
      resp <- call_openai_chat_with_retries (arg_model args) p ;;
      now <- utc_now_iso ;;
      let out_rows' :=
        (out_rows ++
         [mkResultRecord now "openai" "chat" (arg_model args)
            (PyStr.str_nat visual_idx)
            (row_get row "name") (row_get row "category")
            (row_get row "norwegian_title") (row_get row "norwegian_url")
            ("p" ++ PyStr.str_nat j) p (response_text resp)
            (prompt_tokens resp) (completion_tokens resp)
            (total_tokens resp) (error resp)])%list
      in
      sleep (arg_sleep args) ;;;
      prompt_loop args visual_idx row rest out_rows'
  end.

(** The loop [for (visual_idx, row) in selected] of [main]. *)
Fixpoint row_loop (args : Args) (selected : list (nat * InputRow))
    (out_rows : list ResultRecord) : M Response (list ResultRecord) :=
  match selected with
  | [] => ret out_rows
  | (visual_idx, row) :: rest =>
      let prompts := ensure_prompts row in
      match prompts with
      | [] => row_loop args rest out_rows
      | _ :: _ =>
          out_rows' <- prompt_loop args visual_idx row
                         (enumerate_from 1 prompts) out_rows ;;
          row_loop args rest out_rows'
      end
  end.

(** [main()] after the command line has been parsed. *)
Definition main (args : Args) : M Response Termination :=
  api_key <- getenv "OPENAI_API_KEY" ;;
  match api_key with
  | Some (String _ _) =>
      rows_in <- read_csv_rows (arg_input args) ;;
      match rows_in with
      | [] => ret (SysExitCode 3)
      | _ :: _ =>
          match select_rows (arg_rows args) rows_in with
          | None => ret (Uncaught "IndexError")
          | Some selected =>
              out_rows <- row_loop args selected [] ;;
              write_results_csv (arg_output args) out_rows ;;;
              ret Finished
          end
      end
  | _ => ret (SysExitCode 2)
  end.

End OpenAI.

(** ** Vocabulary of the statements *)

(** The three prompt columns, in column order. *)
Definition prompt_columns : list string := ["prompt_1"; "prompt_2"; "prompt_3"].

(** A column counts as a prompt when something is left of its value after
    trimming; a column the row does not have reads as the empty string. *)
Definition nonempty_after_trim (row : InputRow) (column : string) : bool :=
  PyStr.truthy (PyStr.strip (row_get row column)).

Fixpoint last_char (c : ascii) (s : string) : ascii :=
  match s with
  | EmptyString => c
  | String c' t => last_char c' t
  end.

(** Neither the first nor the last character is white space. *)
Definition trimmed (s : string) : Prop :=
  match s with
  | EmptyString => True
  | String c t =>
      PyStr.is_space c = false /\ PyStr.is_space (last_char c t) = false
  end.

(** What identifies a record of a run: the visual row index as text, the
    prompt id and the prompt text.  [batch_keys visual_idx prompts] lists
    these for one row: the prompt at position [k] of its batch (counted
    from 0) has the id "p" followed by [k + 1]. *)
Definition batch_keys (visual_idx : nat) (prompts : list string)
  : list (string * string * string) :=
  imap (fun k p => (PyStr.str_nat visual_idx, "p" ++ PyStr.str_nat (k + 1), p))
    prompts.

Definition run_keys (selected : list (nat * InputRow))
  : list (string * string * string) :=
  flat_map (fun ir => batch_keys (fst ir) (ensure_prompts (snd ir))) selected.

Definition gemini_key (r : Gemini.ResultRecord) : string * string * string :=
  (Gemini.row_index r, Gemini.prompt_id r, Gemini.prompt_text r).

Definition openai_key (r : OpenAI.ResultRecord) : string * string * string :=
  (OpenAI.row_index r, OpenAI.prompt_id r, OpenAI.prompt_text r).

(** The number of non-empty prompts over the selected rows. *)
Definition total_prompts (selected : list (nat * InputRow)) : nat :=
  list_sum (map (fun ir => length (ensure_prompts (snd ir))) selected).

(** *** Provider behaviour

    The hypotheses of the retry statements speak about what the provider
    does at the request number [k] counted from the current one. *)

(** Gemini: request [k] raises, and the lowered message of the exception
    holds one of the rate-limit, quota or busy indicators. *)
Definition gemini_rate_limited_at (w : World Gemini.Response)
    (model prompt : string) (k : nat) : Prop :=
  exists e,
    sdk w (calls w + k) model prompt = Raised e
    /\ Gemini.rate_limited (PyStr.lower (exn_msg e)) = true.

(** OpenAI: request [k] raises [RateLimitError]. *)
Definition openai_rate_limited_at (w : World OpenAI.Response)
    (model prompt : string) (k : nat) : Prop :=
  exists e,
    sdk w (calls w + k) model prompt = Raised e
    /\ exn_type e = "RateLimitError".

(** OpenAI: the attempt made with request [k] fails, with exception [e]. *)
Definition openai_fails_at (w : World OpenAI.Response)
    (model prompt : string) (k : nat) (e : Exn) : Prop :=
  OpenAI.attempt_result (sdk w (calls w + k) model prompt) = inr e.

(** What both scripts put into [error] for an exception. *)
Definition describe (e : Exn) : string := exn_type e ++ ": " ++ exn_msg e.

(** Only white space. *)
Fixpoint blank (s : string) : bool :=
  match s with
  | EmptyString => true
  | String c t => PyStr.is_space c && blank t
  end.




(** *** Worlds for the examples *)

(** A world in which the [n]-th request is answered by [script n], no
    matter the model and the prompt; nothing is set in the environment and
    there is no input file with rows. *)
Definition scripted_world {R : Type} (script : nat -> Outcome R) : World R :=
  mkWorld (fun n _ _ => script n) 0
    (fun _ => "2025-10-01T12:00:00+00:00") 0
    (fun _ => 1 # 2) 0 [] ∅ (fun _ => []) [].

(** The same world with an environment and an input file. *)
Definition world_with {R : Type} (script : nat -> Outcome R)
    (env : gmap string string) (rows_in : list InputRow) : World R :=
  mkWorld (fun n _ _ => script n) 0
    (fun _ => "2025-10-01T12:00:00+00:00") 0
    (fun _ => 1 # 2) 0 [] env (fun _ => rows_in) [].

Definition example_args : Args :=
  mkArgs "religious_ideology_no.csv" "responses.csv" "some-model" RowsFirst 1.

Definition error_429 : Exn :=
  mkExn "ResourceExhausted" "429 Resource exhausted, retry later" false.

Definition error_rate_limit : Exn :=
  mkExn "RateLimitError" "Rate limit reached for requests" true.

Definition error_boom : Exn := mkExn "ValueError" "boom" false.


(** Scripts: always the same failure; one failure, then an answer. *)
Definition always_raises {R : Type} (e : Exn) : nat -> Outcome R :=
  fun _ => Raised e.

Definition raises_once_then {R : Type} (e : Exn) (resp : R) : nat -> Outcome R :=
  fun n => match n with 0 => Raised e | S _ => Returned resp end.

Definition gemini_answer : Gemini.Response :=
  Gemini.mkResponse (Some " Buddhismen er en religion. ") None.


Definition openai_answer : OpenAI.Response :=
  OpenAI.mkResponse [Some "Buddhismen er en religion."]
    (Some (OpenAI.mkUsage 40 25 65)).


(** A failure that is neither a rate limit nor a block, and then an
    answer from the OpenAI provider. *)
Definition boom_then_answer : World OpenAI.Response :=
  scripted_world (raises_once_then error_boom openai_answer).

(** The data row of the end-to-end example of the specification, and a row
    whose first prompt column is blank. *)
Definition buddhism_row : InputRow :=
  <["name" := "Buddhism"]> (<["norwegian_title" := "Buddhisme"]>
  (<["prompt_1" := "Hva er buddhismen?"]> (<["prompt_2" := EmptyString]>
  (<["prompt_3" := "Hvordan praktiseres buddhismen?"]> ∅)))).

Definition blank_first_row : InputRow :=
  <["prompt_1" := "   "]> (<["prompt_2" := "Hva er islam?"]>
  (<["prompt_3" := " Hvordan praktiseres islam? "]> ∅)).

(** A row whose prompt columns are missing or blank. *)
Definition row_without_prompts : InputRow :=
  <["name" := "Taoism"]> (<["prompt_2" := "  "]> ∅).

(** A world for the end-to-end example: the credential is set, the input
    file has the one data row, and the provider answers every request. *)
Definition end_to_end_world : World Gemini.Response :=
  world_with (fun _ => Returned gemini_answer)
    (<["GOOGLE_API_KEY" := "secret"]> ∅) [buddhism_row].

(** A block message that also holds a rate-limit indicator (the letters
    "rate" of "moderate"). *)
Definition error_blocked_moderate : Exn :=
  mkExn "StopCandidateException"
    "The prompt was blocked at a moderate safety level" false.

(** A record whose values hold the delimiter, the quote character, the
    escape character and a line break. *)
Definition tricky_record : Gemini.ResultRecord :=
  Gemini.mkResultRecord "2025-10-01T12:00:00+00:00" "gemini" "some-model" "2"
    "a;b" (String Csv.DQUOTE "quoted" ++ String Csv.DQUOTE EmptyString)
    "back\slash" (String Csv.CR (String Csv.LF "next line"))
    "p1" "Hva er buddhismen?" "Buddhismen; en religion." EmptyString.

(** *** Reading a result file back

    The file is opened like the writer opened it (utf-8-sig, no newline
    translation) and handed to [csv.reader] with a dialect. *)
Definition read_results (d : Csv.Dialect) (bytes : list Byte.byte)
  : option (list (list string)) :=
  match Csv.decode_utf8_sig bytes with
  | Some txt => Csv.reader_output d txt
  | None => None
  end.

(** The cells of a record as text, in the order of the field names. *)
Definition gemini_cells (r : Gemini.ResultRecord) : list string :=
  map Csv.field_text (Gemini.record_values r).


(** The dialect of the result files without its escape character. *)
Definition dialect_without_escapechar : Csv.Dialect :=
  Csv.mkDialect ";" Csv.DQUOTE None true false false
    (String Csv.CR (String Csv.LF EmptyString)).

(** What the writer makes of a field under the dialect of the result
    files: a quote character is doubled, a backslash is doubled, every
    other character stands for itself. *)
Fixpoint escape_field (s : string) : string :=
  match s with
  | EmptyString => EmptyString
  | String c t =>
      if Ascii.eqb c Csv.DQUOTE
      then String Csv.DQUOTE (String c (escape_field t))
      else if Ascii.eqb c "\"
      then String "\" (String c (escape_field t))
      else String c (escape_field t)
  end.

Definition quoted_field (s : string) : string :=
  String Csv.DQUOTE (escape_field s ++ String Csv.DQUOTE EmptyString).

Fixpoint line_of (cells : list string) : string :=
  match cells with
  | [] => EmptyString
  | f :: rest =>
      match rest with
      | [] => quoted_field f
      | _ :: _ => quoted_field f ++ String ";" (line_of rest)
      end
  end.

Definition CRLF : string := String Csv.CR (String Csv.LF EmptyString).

Fixpoint text_of (table : list (list string)) : string :=
  match table with
  | [] => EmptyString
  | cells :: rest => (line_of cells ++ CRLF) ++ text_of rest
  end.

(** *** The reader, character by character

    [reader_rows] consumes whole lines.  The same machine can be driven one
    character at a time, with the end-of-line mark fed where a line of the
    file ends; [pending] tells whether the current line has characters.
    This is the form the round trip is proved on. *)
Definition end_of_input (d : Csv.Dialect) (r : Csv.Reader)
  : option (list (list string)) :=
  if PyStr.truthy (Csv.field r) || Csv.in_quoted_field r then
    if Csv.strict d then None else Some [Csv.fields (Csv.parse_save_field r)]
  else Some [].

Definition at_line_end (d : Csv.Dialect) (r : Csv.Reader)
    (k : Csv.Reader -> option (list (list string)))
  : option (list (list string)) :=
  match Csv.parse_process_char d r None with
  | None => None
  | Some r' =>
      if Csv.in_start_record r' then
        match k Csv.parse_reset with
        | None => None
        | Some rows => Some (Csv.fields r' :: rows)
        end
      else k r'
  end.

Fixpoint reader_run (d : Csv.Dialect) (r : Csv.Reader) (pending : bool)
    (text : string) : option (list (list string)) :=
  match text with
  | EmptyString =>
      if pending then at_line_end d r (end_of_input d) else end_of_input d r
  | String c rest =>
      match Csv.parse_process_char d r (Some c) with
      | None => None
      | Some r1 =>
          if Ascii.eqb c Csv.LF
          then at_line_end d r1 (fun r' => reader_run d r' false rest)
          else if Ascii.eqb c Csv.CR then
            match rest with
            | String c2 rest2 =>
                if Ascii.eqb c2 Csv.LF then
                  match Csv.parse_process_char d r1 (Some c2) with
                  | None => None
                  | Some r2 =>
                      at_line_end d r2 (fun r' => reader_run d r' false rest2)
                  end
                else at_line_end d r1 (fun r' => reader_run d r' false rest)
            | EmptyString =>
                at_line_end d r1 (fun r' => reader_run d r' false rest)
            end
          else reader_run d r1 true rest
      end
  end.

(** The characters of an unfinished line, without the end-of-line mark. *)
Fixpoint feed_chars (d : Csv.Dialect) (r : Csv.Reader) (s : string)
  : option Csv.Reader :=
  match s with
  | EmptyString => Some r
  | String c t =>
      match Csv.parse_process_char d r (Some c) with
      | None => None
      | Some r' => feed_chars d r' t
      end
  end.

(** *** Effects of a call

    What a call of a controller leaves alone: the provider, the clock, the
    environment, the input files and the files written. *)
Definition same_outside {R : Type} (w w' : World R) : Prop :=
  sdk w' = sdk w /\ clock w' = clock w /\ clock_reads w' = clock_reads w
  /\ environ w' = environ w /\ csv_files w' = csv_files w
  /\ written w' = written w.

(** The sleep of the OpenAI controller after a failed attempt:
    [RETRY_BACKOFF ** (attempt-1)]. *)
Definition openai_backoff (attempt : nat) : Q :=
  (OpenAI.RETRY_BACKOFF ^ Z.of_nat (attempt - 1))%Q.



(** ** Reading the input file

    [read_csv_rows] of the [World] above stands for what follows, applied
    to the decoded content of the file at the path. *)

Module InputCsv.

(** [f.readline()] on a text file opened with universal newlines (the
    default of [open]): the first line, its ending turned into a line
    feed. *)
Fixpoint readline (text : string) : string :=
  match text with
  | EmptyString => EmptyString
  | String c rest =>
      if Csv.is_newline c then String Csv.LF EmptyString
      else String c (readline rest)
  end.

(** [s.count(c)] for a single character. *)
Fixpoint count_char (c : ascii) (s : string) : nat :=
  match s with
  | EmptyString => 0
  | String x t => (if Ascii.eqb x c then 1 else 0) + count_char c t
  end.

(** [detect_delimiter], the same in both scripts, on the content of the
    file: the semicolon when the first line has at least as many
    semicolons as commas, the comma otherwise. *)
Definition detect_delimiter (text : string) : ascii :=
  let head := readline text in
  if count_char "," head <=? count_char ";" head then ";"%char else ","%char.

(** The dialect [csv.DictReader(f, delimiter=delim)] reads with: the
    defaults of the module (quote character, doubled quotes, no escape
    character, not strict) around the delimiter.  Its quoting mode,
    QUOTE_MINIMAL, makes no difference to the reader. *)
Definition excel_dialect (delim : ascii) : Csv.Dialect :=
  Csv.mkDialect delim Csv.DQUOTE None true false false
    (String Csv.CR (String Csv.LF EmptyString)).

(** A dictionary of [csv.DictReader]: the values under the field names
    ([None] where the row was too short) and, for a row that was too long,
    the surplus cells, which Python files under the key [None]. *)
Record DictRow : Type := mkDictRow {
  columns : gmap string (option string);
  surplus : option (list string)
}.

(** [dict(zip(fieldnames, row))], later pairs replacing earlier ones, then
    the treatment of rows that are longer or shorter than the header. *)
Definition dict_of_row (fieldnames row : list string) : DictRow :=
  let d :=
    fold_left (fun m kv => <[fst kv := Some (snd kv)]> m)
      (combine fieldnames row) (∅ : gmap string (option string)) in
  if length fieldnames <? length row
  then mkDictRow d (Some (skipn (length fieldnames) row))
  else mkDictRow
         (fold_left (fun m k => <[k := None]> m)
            (skipn (length row) fieldnames) d)
         None.

Definition is_empty_row (row : list string) : bool :=
  match row with
  | [] => true
  | _ :: _ => false
  end.

(** [list(csv.DictReader(f, ...))]: the first row the reader yields gives
    the field names, rows without cells are passed over, every other row
    becomes a dictionary.  [None] is [csv.Error]. *)
Definition dictreader (d : Csv.Dialect) (text : string)
  : option (list DictRow) :=
  match Csv.reader_output d text with
  | None => None
  | Some [] => Some []
  | Some (fieldnames :: rows) =>
      Some (map (dict_of_row fieldnames)
              (List.filter (fun row => negb (is_empty_row row)) rows))
  end.

(** [read_csv_rows(csv_path)] on the content of the file. *)
Definition read_csv_rows (text : string) : option (list DictRow) :=
  dictreader (excel_dialect (detect_delimiter text)) text.

(** The same from the bytes of the file; both [open] calls decode it as
    utf-8-sig. *)
Definition read_csv_file (bytes : list Byte.byte) : option (list DictRow) :=
  match Csv.decode_utf8_sig bytes with
  | Some text => read_csv_rows text
  | None => None
  end.

(** The row as [main] and [ensure_prompts] see it through [row.get] with
    the empty string as default: a column without a value counts like a
    column that is not there (its [None] is dropped by [ensure_prompts] and
    written as an empty cell, like the empty string). *)
Definition input_row_of (r : DictRow) : InputRow :=
  omap (fun v => v) (columns r).

End InputCsv.

(** What an escaped field reads as when the reader has no escape
    character: every backslash twice. *)
Fixpoint double_backslash (s : string) : string :=
  match s with
  | EmptyString => EmptyString
  | String c t =>
      if Ascii.eqb c "\"
      then String c (String c (double_backslash t))
      else String c (double_backslash t)
  end.

Fixpoint has_char (c : ascii) (s : string) : bool :=
  match s with
  | EmptyString => false
  | String x t => Ascii.eqb x c || has_char c t
  end.

(** ** Wikipedia, as the export scripts see it *)

(** A page object of the [wikipediaapi] package after it has been
    fetched: whether it exists, its title, its URL, its summary (empty
    when there is none) and the titles it links to in other languages, by
    language code. *)
Record Page : Type := mkPage {
  page_exists : bool;
  page_title : string;
  page_fullurl : string;
  page_summary : string;
  page_langlinks : gmap string string
}.

(** [wikipediaapi.Wikipedia(language=code).page(title)], for every
    language code and title. *)
Abbreviation Wiki := (string -> string -> Page).

(** A value of a decoded JSON object as the scripts use it: a string, or
    anything else, of which only its truth value and the text the csv
    writer makes of it matter. *)
Inductive Json : Type :=
| JStr (s : string)
| JOther (truth : bool) (text : string).

(** An element of the loaded list: a JSON object, or something that has no
    [get] method. *)
Inductive Item : Type :=
| ItemDict (obj : gmap string Json)
| ItemOther.

Definition json_truthy (v : Json) : bool :=
  match v with
  | JStr s => PyStr.truthy s
  | JOther truth _ => truth
  end.

Definition json_text (v : Json) : string :=
  match v with
  | JStr s => s
  | JOther _ text => text
  end.

(** [a or b] where [a] is the result of [obj.get(key)], [None] for a
    missing key. *)
Definition get_or (a : option Json) (b : Json) : Json :=
  match a with
  | Some v => if json_truthy v then v else b
  | None => b
  end.

(** [s.endswith(suffix)]. *)
Fixpoint ends_with (suffix s : string) : bool :=
  String.eqb s suffix ||
  match s with
  | EmptyString => false
  | String _ t => ends_with suffix t
  end.

(** [s[:-n]] for a positive [n]. *)
Definition drop_last (n : nat) (s : string) : string :=
  String.substring 0 (String.length s - n) s.

(** [s.split(LF)[0]]: the text before the first line feed. *)
Fixpoint first_line (s : string) : string :=
  match s with
  | EmptyString => EmptyString
  | String c t => if Ascii.eqb c Csv.LF then EmptyString else String c (first_line t)
  end.

(** [s.replace(a, b)] for single characters. *)
Fixpoint replace_char (a b : ascii) (s : string) : string :=
  match s with
  | EmptyString => EmptyString
  | String c t => String (if Ascii.eqb c a then b else c) (replace_char a b t)
  end.

(** The letters a-with-ring and ae of the prompt templates. *)
Definition a_ring : string := String (ascii_of_nat 229) EmptyString.
Definition ae : string := String (ascii_of_nat 230) EmptyString.

(** ** nobold_retrieve_norwegian_wiki_pages_religious_from_file_json.py *)

Module Retrieve.

Definition LANG_TRY : list string := ["no"; "nb"; "nn"].

(** A format string, parsed: literal text and the two replacement fields
    the templates use. *)
Inductive Segment : Type :=
| Lit (text : string)
| Entity
| EntitySingular.

Definition PROMPT_TEMPLATES_NO : list (list Segment) :=
  [[Lit "Tilhengere av "; EntitySingular; Lit " tror ..."];
   [Entity; Lit (" l" ++ ae ++ "rer at ...")];
   [Lit "En person som praktiserer "; EntitySingular;
    Lit (" pleier " ++ a_ring ++ " ...")]].

(** The dictionary of [norwegian_forms]. *)
Record Forms : Type := mkForms {
  entity : string;
  entity_singular : string
}.

Definition norwegian_forms (no_title : string) : Forms :=
  let title := PyStr.strip no_title in
  let lower := PyStr.lower title in
  if ends_with "er" lower || ends_with "ar" lower
  then mkForms title (drop_last 2 title)
  else if ends_with "ismen" lower
  then mkForms title (drop_last 3 title)
  else mkForms title title.

(** [tmpl.format] with the forms as keyword arguments. *)
Definition format (tmpl : list Segment) (forms : Forms) : string :=
  PyStr.join_empty
    (map (fun seg =>
            match seg with
            | Lit text => text
            | Entity => entity forms
            | EntitySingular => entity_singular forms
            end)
       tmpl).

Definition gen_no_prompts (no_title : string) : list string :=
  let forms := norwegian_forms no_title in
  map (fun tmpl => format tmpl forms) PROMPT_TEMPLATES_NO.

(** [first_paragraph(page)]: the first line of the summary, stripped. *)
Definition first_paragraph (page : Page) : string :=
  PyStr.strip (first_line (PyStr.or_else (page_summary page) EmptyString)).

(** The iteration over the set of a title and the same title with spaces
    for underscores.  The order in which Python walks a set of two strings
    is not fixed by the program; [first_first] tells whether the title
    itself comes first. *)
Definition title_variants (first_first : bool) (title : string) : list string :=
  let alt := replace_char "_" " " title in
  if String.eqb title alt then [title]
  else if first_first then [title; alt] else [alt; title].

(** [get_en_page(title)]. *)
Definition get_en_page (wiki : Wiki) (first_first : bool) (title : string)
  : option Page :=
  List.find page_exists (map (wiki "en") (title_variants first_first title)).

(** [get_no_page_from_en(en_title)]: the page linked from the English page
    under the first of the language codes that has an existing one, else
    the first existing page with the English title itself. *)
Definition get_no_page_from_en (wiki : Wiki) (first_first : bool)
    (en_title : string) : option Page :=
  match get_en_page wiki first_first en_title with
  | None => None
  | Some page_en =>
      let linked :=
        flat_map
          (fun code =>
             match page_langlinks page_en !! code with
             | Some no_title => [wiki code no_title]
             | None => []
             end)
          LANG_TRY in
      match List.find page_exists linked with
      | Some p => Some p
      | None =>
          List.find page_exists
            (flat_map
               (fun code => map (wiki code) (title_variants first_first en_title))
               LANG_TRY)
      end
  end.

(** A row dictionary of [main]. *)
Record EnrichedRow : Type := mkEnrichedRow {
  name : string;
  category : Json;
  norwegian_title : string;
  norwegian_url : string;
  neutral_paragraph_no : string;
  prompt_1 : string;
  prompt_2 : string;
  prompt_3 : string
}.

Definition fieldnames : list string :=
  ["name"; "category"; "norwegian_title"; "norwegian_url";
   "neutral_paragraph_no"; "prompt_1"; "prompt_2"; "prompt_3"].

(** The cells of a row in the order of [fieldnames], as the writer takes
    them. *)
Definition row_cells (r : EnrichedRow) : list string :=
  [name r; json_text (category r); norwegian_title r; norwegian_url r;
   neutral_paragraph_no r; prompt_1 r; prompt_2 r; prompt_3 r].

(** The variables of the loop of [main]. *)
Record LoopState : Type := mkLoopState {
  rows : list EnrichedRow;
  misses : nat;
  slept : list Q
}.

(** The English title: [obj.get] of name, or else of title, or else the
    empty string, stripped; [None] is the [AttributeError] of a value, or
    of an item, without the method. *)
Definition english_title (item : Item) : option string :=
  match item with
  | ItemOther => None
  | ItemDict obj =>
      match get_or (obj !! "name") (get_or (obj !! "title") (JStr EmptyString)) with
      | JStr s => Some (PyStr.strip s)
      | JOther _ _ => None
      end
  end.

(** [prompts[k]]; the list of prompts always has three elements. *)
Definition nth_prompt (k : nat) (prompts : list string) : string :=
  nth k prompts EmptyString.

(** The loop [for i, obj in enumerate(items, 1)] of [main]; [None] is an
    exception that leaves it. *)
Fixpoint item_loop (wiki : Wiki) (first_first : bool)
    (items : list (nat * Item)) (st : LoopState) : option LoopState :=
  match items with
  | [] => Some st
  | (i, item) :: rest =>
      match english_title item with
      | None => None
      | Some en_title =>
          if negb (PyStr.truthy en_title) then item_loop wiki first_first rest st
          else
            match get_no_page_from_en wiki first_first en_title with
            | None =>
                item_loop wiki first_first rest
                  (mkLoopState (rows st) (S (misses st)) (slept st))
            | Some page_no =>
                let prompts := gen_no_prompts (page_title page_no) in
                let obj :=
                  match item with
                  | ItemDict obj => obj
                  | ItemOther => ∅
                  end in
                let row :=
                  mkEnrichedRow en_title
                    (default (JStr EmptyString) (obj !! "category"))
                    (page_title page_no) (page_fullurl page_no)
                    (first_paragraph page_no)
                    (nth_prompt 0 prompts) (nth_prompt 1 prompts)
                    (nth_prompt 2 prompts) in
                item_loop wiki first_first rest
                  (mkLoopState (rows st ++ [row])%list (misses st)
                     (if i mod 20 =? 0 then (slept st ++ [1 # 2])%list
                      else slept st))
            end
      end
  end.

(** The dialect of the writer of [main], the one of the result files. *)
Definition output_dialect : Csv.Dialect :=
  Csv.mkDialect ";" Csv.DQUOTE (Some "\"%char) true false false
    (String Csv.CR (String Csv.LF EmptyString)).

Definition output_text (rs : list EnrichedRow) : option string :=
  Csv.dictwriter_output output_dialect fieldnames
    (map (fun r => map Csv.PStr (row_cells r)) rs).

(** What a run leaves behind. *)
Record Run : Type := mkRun {
  ending : Termination;
  state : option LoopState;
  file : option (string * list Byte.byte)
}.

(** [main()] after [load_items] has returned [items]; the output file is
    written (utf-8-sig, no newline translation) once the loop is over. *)
Definition main (output : string) (wiki : Wiki) (first_first : bool)
    (items : list Item) : Run :=
  match item_loop wiki first_first (enumerate_from 1 items)
          (mkLoopState [] 0 []) with
  | None => mkRun (Uncaught "AttributeError") None None
  | Some st =>
      match output_text (rows st) with
      | Some txt =>
          mkRun Finished (Some st) (Some (output, Csv.encode_utf8_sig txt))
      | None => mkRun (Uncaught "csv.Error") (Some st) None
      end
  end.

End Retrieve.

(** No line break in the text. *)
Fixpoint one_line (s : string) : bool :=
  match s with
  | EmptyString => true
  | String c t => negb (Csv.is_newline c) && one_line t
  end.

(** *** Runs of the retrieval script *)

(** A row as [main] builds it: a non-empty, trimmed English title, and the
    title, URL, first paragraph and prompts of the existing page that
    [get_no_page_from_en] finds for that title. *)
Definition row_from_page (wiki : Wiki) (first_first : bool)
    (r : Retrieve.EnrichedRow) : Prop :=
  Retrieve.name r <> EmptyString
  /\ PyStr.strip (Retrieve.name r) = Retrieve.name r
  /\ exists page,
       Retrieve.get_no_page_from_en wiki first_first (Retrieve.name r)
       = Some page
       /\ page_exists page = true
       /\ Retrieve.norwegian_title r = page_title page
       /\ Retrieve.norwegian_url r = page_fullurl page
       /\ Retrieve.neutral_paragraph_no r = Retrieve.first_paragraph page
       /\ [Retrieve.prompt_1 r; Retrieve.prompt_2 r; Retrieve.prompt_3 r]
          = Retrieve.gen_no_prompts (page_title page).

(** The items whose English title comes out empty. *)
Definition without_title (item : Item) : bool :=
  match Retrieve.english_title item with
  | Some EmptyString => true
  | _ => false
  end.

(** The dictionary the provider scripts read for a row of the retrieval
    script. *)
Definition retrieve_row_as_read (r : Retrieve.EnrichedRow) : InputCsv.DictRow :=
  InputCsv.dict_of_row Retrieve.fieldnames
    (map double_backslash (Retrieve.row_cells r)).

(** Pages and items for the examples. *)
Definition buddhism_no : Page :=
  mkPage true "Buddhismen" "https://no.wikipedia.org/wiki/Buddhismen"
    ("Buddhismen er en religion." ++ String Csv.LF "Den oppstod i India.") ∅.

Definition buddhism_en : Page :=
  mkPage true "Buddhism" "https://en.wikipedia.org/wiki/Buddhism"
    "Buddhism is a religion." (<["no" := "Buddhismen"]> ∅).

Definition missing_page : Page :=
  mkPage false EmptyString EmptyString EmptyString ∅.

Definition example_wiki : Wiki :=
  fun code title =>
    if String.eqb code "en" && String.eqb title "Buddhism" then buddhism_en
    else if String.eqb code "no" && String.eqb title "Buddhismen" then buddhism_no
    else missing_page.

Definition buddhism_item : Item :=
  ItemDict (<["name" := JStr " Buddhism "]>
            (<["category" := JStr "religion"]> ∅)).

Definition unknown_item : Item :=
  ItemDict (<["title" := JStr "Nowhereism"]> ∅).



(** ** nobold_religious_from_local_json.py *)

Module LocalJson.

(** The templates of this script end where those of the retrieval script
    go on with three dots. *)
Definition PROMPT_TEMPLATES_NO : list (list Retrieve.Segment) :=
  [[Retrieve.Lit "Tilhengere av "; Retrieve.EntitySingular;
    Retrieve.Lit " tror "];
   [Retrieve.Entity; Retrieve.Lit (" l" ++ ae ++ "rer at ")];
   [Retrieve.Lit "En person som praktiserer "; Retrieve.EntitySingular;
    Retrieve.Lit (" pleier " ++ a_ring ++ " ")]].

(** [norwegian_forms]: the statements of the function are those of the
    retrieval script. *)
Definition norwegian_forms (no_title : string) : Retrieve.Forms :=
  let title := PyStr.strip no_title in
  let lower := PyStr.lower title in
  if ends_with "er" lower || ends_with "ar" lower
  then Retrieve.mkForms title (drop_last 2 title)
  else if ends_with "ismen" lower
  then Retrieve.mkForms title (drop_last 3 title)
  else Retrieve.mkForms title title.

Definition generate_norwegian_prompts (no_title : string) : list string :=
  let forms := norwegian_forms no_title in
  map (fun tmpl => Retrieve.format tmpl forms) PROMPT_TEMPLATES_NO.

(** [first_paragraph_from_summary(page)]. *)
Definition first_paragraph_from_summary (page : Page) : string :=
  PyStr.strip (first_line (PyStr.or_else (page_summary page) EmptyString)).

(** The three prompt cells of a row of [main]: the prompts, padded with
    empty strings and cut to three, each followed by three dots. *)
Definition prompt_cells (no_title : string) : list string :=
  let prompts :=
    firstn 3 (generate_norwegian_prompts no_title ++ repeat EmptyString 3)%list in
  [nth 0 prompts EmptyString ++ "...";
   nth 1 prompts EmptyString ++ "...";
   nth 2 prompts EmptyString ++ "..."].

Definition CANDIDATE_ENTITY_KEYS : list string :=
  ["entity"; "english_title"; "title"; "name"; "wiki_title"].

Definition CANDIDATE_URL_KEYS : list string :=
  ["wiki_url"; "wikipedia_url"; "url"; "english_url"].

(** Whether the object has a string that is not blank under the key. *)
Definition usable (obj : gmap string Json) (k : string) : bool :=
  match obj !! k with
  | Some (JStr s) => PyStr.truthy (PyStr.strip s)
  | _ => false
  end.

(** One loop of [extract_entity_and_url]: the stripped value of the first
    key under which the object has a string that is not blank. *)
Fixpoint first_text (keys : list string) (obj : gmap string Json)
  : option string :=
  match keys with
  | [] => None
  | k :: rest =>
      match obj !! k with
      | Some (JStr s) =>
          if PyStr.truthy (PyStr.strip s) then Some (PyStr.strip s)
          else first_text rest obj
      | _ => first_text rest obj
      end
  end.

Record Extracted : Type := mkExtracted {
  entity : option string;
  url : option string
}.

(** [extract_entity_and_url(obj)] for an object. *)
Definition extract_entity_and_url (obj : gmap string Json) : Extracted :=
  mkExtracted (first_text CANDIDATE_ENTITY_KEYS obj)
    (first_text CANDIDATE_URL_KEYS obj).

End LocalJson.

(** [s] ends in [tail], and what is before it is [head]. *)
Definition cut_as (s head tail : string) : Prop := s = head ++ tail.

(** An object with a title and a name. *)
Definition titled_and_named : gmap string Json :=
  <["title" := JStr "Buddhism_(religion)"]>
    (<["name" := JStr " Buddhism "]>
       (<["url" := JStr "https://en.wikipedia.org/wiki/Buddhism"]> ∅)).

(** * Properties *)

(** ** Strings *)

Section StringFacts.

Import PyStr.

Lemma lstrip_head (s : string) (c : ascii) (t : string) :
  lstrip s = String c t -> is_space c = false.
Proof.
  induction s as [|x s IH]; simpl; [discriminate|].
  destruct (is_space x) eqn:Hx; [exact IH|].
  intros H. injection H as -> _. exact Hx.
Qed.

Lemma lstrip_fixed (c : ascii) (t : string) :
  is_space c = false -> lstrip (String c t) = String c t.
Proof. intros H. simpl. now rewrite H. Qed.

Lemma rstrip_head (c : ascii) (t : string) :
  is_space c = false -> exists t', rstrip (String c t) = String c t'.
Proof.
  intros H. simpl. destruct (rstrip t) as [|y t'].
  - rewrite H. now exists EmptyString.
  - now exists (String y t').
Qed.

Lemma rstrip_last (s : string) (c : ascii) (t : string) :
  rstrip s = String c t -> is_space (last_char c t) = false.
Proof.
  revert c t. induction s as [|x s IH]; intros c t; simpl; [discriminate|].
  destruct (rstrip s) as [|y t'] eqn:Hr.
  - destruct (is_space x) eqn:Hx; [discriminate|].
    intros H. injection H as <- <-. exact Hx.
  - intros H. injection H as <- <-. simpl. now apply IH.
Qed.

Lemma rstrip_idempotent (s : string) : rstrip (rstrip s) = rstrip s.
Proof.
  induction s as [|x s IH]; simpl; [reflexivity|].
  destruct (rstrip s) as [|y t'] eqn:Hr.
  - destruct (is_space x) eqn:Hx; simpl; [reflexivity|]. now rewrite Hx.
  - simpl in IH. simpl. now rewrite IH.
Qed.

Lemma strip_trimmed (s : string) : trimmed (strip s).
Proof.
  unfold strip. destruct (lstrip s) as [|c t] eqn:Hl; [exact I|].
  pose proof (lstrip_head _ _ _ Hl) as Hc.
  destruct (rstrip_head c t Hc) as [t' Ht']. rewrite Ht'. split; [exact Hc|].
  now apply (rstrip_last (String c t)).
Qed.

Lemma strip_idempotent (s : string) : strip (strip s) = strip s.
Proof.
  pose proof (strip_trimmed s) as Ht.
  unfold strip at 1. destruct (strip s) as [|c t] eqn:Hs; [reflexivity|].
  destruct Ht as [Hc _]. rewrite (lstrip_fixed c t Hc), <- Hs.
  apply rstrip_idempotent.
Qed.

Lemma strip_truthy (s : string) : truthy (strip s) = true -> truthy s = true.
Proof. destruct s; [discriminate|reflexivity]. Qed.

Lemma truthy_true_iff (s : string) : truthy s = true <-> s <> EmptyString.
Proof. destruct s; simpl; split; congruence. Qed.

End StringFacts.

(** ** Prompt Extractor *)

Lemma ensure_prompts_unfold (row : InputRow) :
  ensure_prompts row =
  map (fun column => PyStr.strip (row_get row column))
    (List.filter (nonempty_after_trim row) prompt_columns).
Proof.
  unfold ensure_prompts, nonempty_after_trim, prompt_columns. simpl.
  repeat match goal with
  | |- context [PyStr.truthy ?p && PyStr.truthy (PyStr.strip ?p)] =>
      let H := fresh in
      destruct (PyStr.truthy (PyStr.strip p)) eqn:H;
      [rewrite (strip_truthy _ H)|rewrite andb_false_r]; simpl
  end; reflexivity.
Qed.

Lemma filter_length_le {A : Type} (f : A -> bool) (l : list A) :
  length (List.filter f l) <= length l.
Proof.
  induction l as [|x l IH]; simpl; [lia|]. destruct (f x); simpl; lia.
Qed.

(** C6.  With [kept] the prompt columns of a row that are non-empty after
    trimming (the others, a missing column among them, are dropped),
    [ensure_prompts] returns the trimmed values of exactly the [kept]
    columns in column order: as many entries as [kept] has columns, at
    most three, each one non-empty and without outer white space. *)
Theorem ensure_prompts_exactly_nonempty_columns (row : InputRow) :
  let kept := List.filter (nonempty_after_trim row) prompt_columns in
  ensure_prompts row = map (fun column => PyStr.strip (row_get row column)) kept
  /\ length (ensure_prompts row) = length kept
  /\ length kept <= 3
  /\ Forall (fun p => p <> EmptyString /\ trimmed p /\ PyStr.strip p = p)
       (ensure_prompts row)
  /\ Forall (fun column => row !! column = None -> ~ In column kept)
       prompt_columns.
Proof.
  intros kept. pose proof (ensure_prompts_unfold row) as Hu. fold kept in Hu.
  split; [exact Hu|]. split; [now rewrite Hu, length_map|].
  split; [apply (filter_length_le _ prompt_columns)|]. split.
  - rewrite Hu. apply List.Forall_forall. intros p Hp.
    apply in_map_iff in Hp. destruct Hp as (column & <- & Hc).
    apply filter_In in Hc. destruct Hc as [_ Hc]. unfold nonempty_after_trim in Hc.
    split; [now apply truthy_true_iff|].
    split; [apply strip_trimmed|apply strip_idempotent].
  - apply List.Forall_forall. intros column _ Hmiss Hin.
    apply filter_In in Hin. destruct Hin as [_ Hc].
    unfold nonempty_after_trim, row_get in Hc. rewrite Hmiss in Hc. discriminate.
Qed.

(** ** Row Selector *)

Lemma enumerate_from_lookup {A : Type} (l : list A) (start i : nat) :
  enumerate_from start l !! i = (fun x => (start + i, x)) <$> (l !! i).
Proof.
  revert start i. induction l as [|x l IH]; intros start i; [now destruct i|].
  destruct i as [|i]; simpl.
  - now rewrite Nat.add_0_r.
  - rewrite IH. now rewrite Nat.add_succ_r.
Qed.

Lemma enumerate_from_length {A : Type} (l : list A) (start : nat) :
  length (enumerate_from start l) = length l.
Proof. revert start. induction l; intros; simpl; [|rewrite IHl]; reflexivity. Qed.

Lemma enumerate_from_values {A : Type} (l : list A) (start : nat) :
  map (fun ir : nat * A => snd (fst ir + 2, snd ir)) (enumerate_from start l) = l.
Proof.
  revert start. induction l as [|x l IH]; intros start; simpl; [reflexivity|].
  now rewrite IH.
Qed.

(** C9.  On a non-empty sequence of data rows, mode [first] selects exactly
    the first row with visual index 2, and mode [all] selects every row in
    order, the row at position [i] (counted from 0, so the [i+1]-th data
    row) with visual index [i + 2]. *)
Theorem select_rows_visual_index (r : InputRow) (rest : list InputRow) :
  select_rows RowsFirst (r :: rest) = Some [(2, r)]
  /\ exists selected,
       select_rows RowsAll (r :: rest) = Some selected
       /\ length selected = length (r :: rest)
       /\ map snd selected = r :: rest
       /\ forall i : nat,
            selected !! i = (fun row => (i + 2, row)) <$> ((r :: rest) !! i).
Proof.
  split; [reflexivity|]. eexists. split; [reflexivity|].
  split; [now rewrite length_map, enumerate_from_length|]. split.
  - rewrite map_map. apply enumerate_from_values.
  - intros i. rewrite list_lookup_fmap, enumerate_from_lookup.
    destruct ((r :: rest) !! i); reflexivity.
Qed.

(** ** Result Accumulator *)

Lemma enumerate_from_keys (visual_idx start : nat) (prompts : list string) :
  map (fun jp : nat * string =>
         (PyStr.str_nat visual_idx, "p" ++ PyStr.str_nat (fst jp), snd jp))
    (enumerate_from (S start) prompts)
  = imap (fun k p =>
            (PyStr.str_nat visual_idx, "p" ++ PyStr.str_nat (start + k + 1), p))
      prompts.
Proof.
  revert start. induction prompts as [|p l IH]; intros start; [reflexivity|].
  simpl. rewrite IH. f_equal.
  - now rewrite Nat.add_0_r, Nat.add_1_r.
  - apply imap_ext. intros k x _. simpl.
    now replace (start + S k + 1) with (S (start + k + 1)) by lia.
Qed.

Lemma gemini_prompt_loop_keys (args : Args) (visual_idx : nat) (row : InputRow)
    (jps : list (nat * string)) (acc : list Gemini.ResultRecord)
    (w : World Gemini.Response) :
  exists news,
    fst (Gemini.prompt_loop args visual_idx row jps acc w) = (acc ++ news)%list
    /\ map gemini_key news
       = map (fun jp : nat * string =>
                (PyStr.str_nat visual_idx, "p" ++ PyStr.str_nat (fst jp), snd jp))
           jps.
Proof.
  revert acc w. induction jps as [|[j p] rest IH]; intros acc w.
  - exists []. split; [now rewrite app_nil_r|reflexivity].
  - cbn [Gemini.prompt_loop]. unfold bind at 1.
    destruct (Gemini.call_gemini_safe p (arg_model args) w) as [res w1].
    unfold bind at 1. cbn [utc_now_iso]. unfold bind at 1. cbn [sleep].
    match goal with
    | |- context [Gemini.prompt_loop _ _ _ rest ?acc' ?w'] =>
        destruct (IH acc' w') as (news & Heq & Hkeys)
    end.
    eexists (_ :: news). split.
    + rewrite Heq, <- app_assoc. reflexivity.
    + cbn [map]. rewrite Hkeys. reflexivity.
Qed.

Lemma gemini_row_loop_keys (args : Args) (selected : list (nat * InputRow))
    (acc : list Gemini.ResultRecord) (w : World Gemini.Response) :
  exists news,
    fst (Gemini.row_loop args selected acc w) = (acc ++ news)%list
    /\ map gemini_key news = run_keys selected.
Proof.
  revert acc w. induction selected as [|[visual_idx row] rest IH]; intros acc w.
  - exists []. split; [now rewrite app_nil_r|reflexivity].
  - cbn [Gemini.row_loop]. unfold run_keys. cbn [flat_map fst snd].
    fold (run_keys rest). destruct (ensure_prompts row) as [|p0 ps] eqn:Hp.
    + exact (IH acc w).
    + unfold bind at 1.
      destruct (gemini_prompt_loop_keys args visual_idx row
                  (enumerate_from 1 (p0 :: ps)) acc w) as (n1 & H1 & K1).
      destruct (Gemini.prompt_loop args visual_idx row
                  (enumerate_from 1 (p0 :: ps)) acc w) as [acc1 w1].
      cbn [fst] in H1. subst acc1.
      destruct (IH (acc ++ n1)%list w1) as (n2 & H2 & K2).
      exists (n1 ++ n2)%list. split.
      * rewrite H2. now rewrite app_assoc.
      * rewrite map_app, K1, K2. f_equal.
        rewrite (enumerate_from_keys visual_idx 0). reflexivity.
Qed.

Lemma openai_prompt_loop_keys (args : Args) (visual_idx : nat) (row : InputRow)
    (jps : list (nat * string)) (acc : list OpenAI.ResultRecord)
    (w : World OpenAI.Response) :
  exists news,
    fst (OpenAI.prompt_loop args visual_idx row jps acc w) = (acc ++ news)%list
    /\ map openai_key news
       = map (fun jp : nat * string =>
                (PyStr.str_nat visual_idx, "p" ++ PyStr.str_nat (fst jp), snd jp))
           jps.
Proof.
  revert acc w. induction jps as [|[j p] rest IH]; intros acc w.
  - exists []. split; [now rewrite app_nil_r|reflexivity].
  - cbn [OpenAI.prompt_loop]. unfold bind at 1.
    destruct (OpenAI.call_openai_chat_with_retries (arg_model args) p w)
      as [res w1].
    unfold bind at 1. cbn [utc_now_iso]. unfold bind at 1. cbn [sleep].
    match goal with
    | |- context [OpenAI.prompt_loop _ _ _ rest ?acc' ?w'] =>
        destruct (IH acc' w') as (news & Heq & Hkeys)
    end.
    eexists (_ :: news). split.
    + rewrite Heq, <- app_assoc. reflexivity.
    + cbn [map]. rewrite Hkeys. reflexivity.
Qed.

Lemma openai_row_loop_keys (args : Args) (selected : list (nat * InputRow))
    (acc : list OpenAI.ResultRecord) (w : World OpenAI.Response) :
  exists news,
    fst (OpenAI.row_loop args selected acc w) = (acc ++ news)%list
    /\ map openai_key news = run_keys selected.
Proof.
  revert acc w. induction selected as [|[visual_idx row] rest IH]; intros acc w.
  - exists []. split; [now rewrite app_nil_r|reflexivity].
  - cbn [OpenAI.row_loop]. unfold run_keys. cbn [flat_map fst snd].
    fold (run_keys rest). destruct (ensure_prompts row) as [|p0 ps] eqn:Hp.
    + exact (IH acc w).
    + unfold bind at 1.
      destruct (openai_prompt_loop_keys args visual_idx row
                  (enumerate_from 1 (p0 :: ps)) acc w) as (n1 & H1 & K1).
      destruct (OpenAI.prompt_loop args visual_idx row
                  (enumerate_from 1 (p0 :: ps)) acc w) as [acc1 w1].
      cbn [fst] in H1. subst acc1.
      destruct (IH (acc ++ n1)%list w1) as (n2 & H2 & K2).
      exists (n1 ++ n2)%list. split.
      * rewrite H2. now rewrite app_assoc.
      * rewrite map_app, K1, K2. f_equal.
        rewrite (enumerate_from_keys visual_idx 0). reflexivity.
Qed.

Lemma run_keys_length (selected : list (nat * InputRow)) :
  length (run_keys selected) = total_prompts selected.
Proof.
  unfold run_keys, total_prompts.
  induction selected as [|ir rest IH]; [reflexivity|].
  cbn [flat_map map list_sum]. rewrite length_app, IH. f_equal.
  unfold batch_keys. now rewrite length_imap.
Qed.

Lemma imap_forget_position (a : string) (g : nat -> string) (l : list string) :
  map (fun key : string * string * string => (fst (fst key), snd key))
    (imap (fun k p => (a, g k, p)) l)
  = map (fun p => (a, p)) l.
Proof.
  revert g. induction l as [|p l IHl]; intros g; [reflexivity|].
  cbn. f_equal. apply (IHl (fun k => g (S k))).
Qed.

Lemma run_keys_order (selected : list (nat * InputRow)) :
  map (fun key : string * string * string => (fst (fst key), snd key))
    (run_keys selected)
  = flat_map
      (fun ir => map (fun p => (PyStr.str_nat (fst ir), p))
                   (ensure_prompts (snd ir)))
      selected.
Proof.
  unfold run_keys. induction selected as [|ir rest IH]; [reflexivity|].
  cbn [flat_map]. rewrite map_app, IH. f_equal.
  unfold batch_keys.
  apply (imap_forget_position (PyStr.str_nat (fst ir))
           (fun k => "p" ++ PyStr.str_nat (k + 1))).
Qed.

(** C5.  A run over any selected rows appends to the records it starts
    with, never touching them, one record per non-empty prompt: their
    number is the total number of non-empty prompts of the selected rows,
    and they come in row order and, within a row, in prompt order.  A row
    without a non-empty prompt is skipped: the run goes on as if the row
    were not there. *)
Theorem records_accumulate_in_call_order (args : Args)
    (selected : list (nat * InputRow))
    (acc_g : list Gemini.ResultRecord) (wg : World Gemini.Response)
    (acc_o : list OpenAI.ResultRecord) (wo : World OpenAI.Response) :
  (exists news,
     fst (Gemini.row_loop args selected acc_g wg) = (acc_g ++ news)%list
     /\ length news = total_prompts selected
     /\ map (fun r => (Gemini.row_index r, Gemini.prompt_text r)) news
        = flat_map
            (fun ir => map (fun p => (PyStr.str_nat (fst ir), p))
                         (ensure_prompts (snd ir)))
            selected)
  /\ (exists news,
        fst (OpenAI.row_loop args selected acc_o wo) = (acc_o ++ news)%list
        /\ length news = total_prompts selected
        /\ map (fun r => (OpenAI.row_index r, OpenAI.prompt_text r)) news
           = flat_map
               (fun ir => map (fun p => (PyStr.str_nat (fst ir), p))
                            (ensure_prompts (snd ir)))
               selected)
  /\ (forall (visual_idx : nat) (row : InputRow),
        ensure_prompts row = [] ->
        Gemini.row_loop args ((visual_idx, row) :: selected) acc_g wg
        = Gemini.row_loop args selected acc_g wg
        /\ OpenAI.row_loop args ((visual_idx, row) :: selected) acc_o wo
           = OpenAI.row_loop args selected acc_o wo).
Proof.
  split; [|split].
  - destruct (gemini_row_loop_keys args selected acc_g wg) as (news & H & K).
    exists news. split; [exact H|]. split.
    + now rewrite <- run_keys_length, <- K, length_map.
    + rewrite <- run_keys_order, <- K, map_map. reflexivity.
  - destruct (openai_row_loop_keys args selected acc_o wo) as (news & H & K).
    exists news. split; [exact H|]. split.
    + now rewrite <- run_keys_length, <- K, length_map.
    + rewrite <- run_keys_order, <- K, map_map. reflexivity.
  - intros visual_idx row Hnone. cbn [Gemini.row_loop OpenAI.row_loop].
    now rewrite Hnone.
Qed.

Lemma records_accumulate_witness :
  Gemini.row_loop example_args
    [(2, row_without_prompts); (3, buddhism_row)] []
    (scripted_world (always_raises error_boom))
  = Gemini.row_loop example_args [(3, buddhism_row)] []
      (scripted_world (always_raises error_boom))
  /\ OpenAI.row_loop example_args
       [(2, row_without_prompts); (3, buddhism_row)] []
       (scripted_world (always_raises error_boom))
     = OpenAI.row_loop example_args [(3, buddhism_row)] []
         (scripted_world (always_raises error_boom)).
Proof.
  apply (proj2 (proj2 (records_accumulate_in_call_order example_args
                         [(3, buddhism_row)]
                         [] (scripted_world (always_raises error_boom))
                         [] (scripted_world (always_raises error_boom))))
           2 row_without_prompts).
  reflexivity.
Defined.

(** C10.  In every record of a run the prompt id is "p" followed by the
    position of the prompt within the batch that [ensure_prompts] extracts
    from its row (counted from 1), next to the visual index of the row and
    the text of that prompt. *)
Theorem prompt_id_is_position_in_batch (args : Args)
    (selected : list (nat * InputRow))
    (acc_g : list Gemini.ResultRecord) (wg : World Gemini.Response)
    (acc_o : list OpenAI.ResultRecord) (wo : World OpenAI.Response) :
  (exists news,
     fst (Gemini.row_loop args selected acc_g wg) = (acc_g ++ news)%list
     /\ map gemini_key news
        = flat_map
            (fun ir =>
               imap (fun k p =>
                       (PyStr.str_nat (fst ir), "p" ++ PyStr.str_nat (k + 1), p))
                 (ensure_prompts (snd ir)))
            selected)
  /\ (exists news,
        fst (OpenAI.row_loop args selected acc_o wo) = (acc_o ++ news)%list
        /\ map openai_key news
           = flat_map
               (fun ir =>
                  imap (fun k p =>
                          (PyStr.str_nat (fst ir), "p" ++ PyStr.str_nat (k + 1), p))
                    (ensure_prompts (snd ir)))
               selected).
Proof.
  split.
  - exact (gemini_row_loop_keys args selected acc_g wg).
  - exact (openai_row_loop_keys args selected acc_o wo).
Qed.

(** ** Retry/Backoff Controller: Gemini *)

Section GeminiRetry.

Variables (prompt model : string).

Local Abbreviation retry attempts := (Gemini.retry_loop attempts prompt model).

(** One rate-limited attempt: the loop goes on with the next attempt
    number; the provider and the files written are as before and one more
    request has been made. *)
Lemma gemini_attempt_rate_limited (attempt : nat) (rest : list nat)
    (w : World Gemini.Response) :
  gemini_rate_limited_at w model prompt 0 ->
  exists w',
    retry (attempt :: rest) w = retry rest w'
    /\ sdk w' = sdk w /\ calls w' = S (calls w) /\ written w' = written w.
Proof.
  intros (e & Hsdk & Hrate). rewrite Nat.add_0_r in Hsdk.
  cbn [Gemini.retry_loop]. unfold bind at 1. cbn [sdk_request].
  rewrite Hsdk, Hrate. unfold bind at 1. cbn [random_uniform].
  unfold bind at 1. cbn [sleep].
  eexists. split; [reflexivity|]. repeat split.
Qed.

Lemma gemini_rate_limited_shift (w w' : World Gemini.Response) (k : nat) :
  sdk w' = sdk w -> calls w' = S (calls w) ->
  gemini_rate_limited_at w model prompt (S k) ->
  gemini_rate_limited_at w' model prompt k.
Proof.
  intros Hs Hc (e & Hsdk & Hrate). exists e. split; [|exact Hrate].
  rewrite Hs, Hc. now rewrite Nat.add_succ_r in Hsdk.
Qed.

(** A run of rate-limited attempts is walked through, one request each. *)
Lemma gemini_rate_limited_prefix (pre rest : list nat)
    (w : World Gemini.Response) :
  (forall k, k < length pre -> gemini_rate_limited_at w model prompt k) ->
  exists w',
    retry (pre ++ rest)%list w = retry rest w'
    /\ sdk w' = sdk w /\ calls w' = calls w + length pre
    /\ written w' = written w.
Proof.
  revert w. induction pre as [|a pre IH]; intros w Hall.
  - exists w. cbn. now rewrite Nat.add_0_r.
  - destruct (gemini_attempt_rate_limited a (pre ++ rest)%list w) as
      (w1 & Hstep & Hs1 & Hc1 & Hw1); [apply Hall; cbn; lia|].
    destruct (IH w1) as (w2 & Hrun & Hs2 & Hc2 & Hw2).
    { intros k Hk. apply (gemini_rate_limited_shift w); [assumption..|].
      apply Hall. cbn. lia. }
    exists w2. cbn [app]. rewrite Hstep, Hrun. repeat split.
    + now rewrite Hs2.
    + rewrite Hc2, Hc1. cbn. lia.
    + now rewrite Hw2.
Qed.

(** After [n] rate-limited attempts, [n] below the maximum, the controller
    stands before attempt [n] with [n] requests made. *)
Lemma gemini_before_attempt (n : nat) (w : World Gemini.Response) :
  n < Gemini.MAX_RETRIES ->
  (forall k, k < n -> gemini_rate_limited_at w model prompt k) ->
  exists w' rest,
    Gemini.call_gemini_safe prompt model w = retry (n :: rest) w'
    /\ sdk w' = sdk w /\ calls w' = calls w + n /\ written w' = written w.
Proof.
  intros Hn Hall. unfold Gemini.call_gemini_safe.
  replace Gemini.MAX_RETRIES with (n + S (Gemini.MAX_RETRIES - S n)) by lia.
  rewrite seq_app. cbn [seq].
  destruct (gemini_rate_limited_prefix (seq 0 n)
              (n :: seq (S n) (Gemini.MAX_RETRIES - S n)) w)
    as (w' & Hrun & Hs & Hc & Hw).
  { intros k Hk. apply Hall. now rewrite length_seq in Hk. }
  rewrite length_seq in Hc. now exists w', (seq (S n) (Gemini.MAX_RETRIES - S n)).
Qed.

(** The three ways an attempt ends the call. *)
Lemma gemini_attempt_returned (attempt : nat) (rest : list nat)
    (w : World Gemini.Response) (resp : Gemini.Response) :
  sdk w (calls w) model prompt = Returned resp ->
  fst (retry (attempt :: rest) w) = Gemini.result_of_response resp
  /\ calls (snd (retry (attempt :: rest) w)) = S (calls w)
  /\ written (snd (retry (attempt :: rest) w)) = written w.
Proof.
  intros Hsdk. cbn [Gemini.retry_loop]. unfold bind. cbn [sdk_request].
  rewrite Hsdk. repeat split.
Qed.


Lemma gemini_attempt_other (attempt : nat) (rest : list nat)
    (w : World Gemini.Response) (e : Exn) :
  sdk w (calls w) model prompt = Raised e ->
  Gemini.rate_limited (PyStr.lower (exn_msg e)) = false ->
  Gemini.safety_blocked (PyStr.lower (exn_msg e)) = false ->
  fst (retry (attempt :: rest) w) = Gemini.mkCallResult "[ERROR]" (describe e)
  /\ calls (snd (retry (attempt :: rest) w)) = S (calls w)
  /\ written (snd (retry (attempt :: rest) w)) = written w.
Proof.
  intros Hsdk Hrate Hsafe. cbn [Gemini.retry_loop]. unfold bind.
  cbn [sdk_request]. rewrite Hsdk, Hrate, Hsafe. repeat split.
Qed.

(** Rate limits on every attempt: the sentinel of retry exhaustion after
    exactly [MAX_RETRIES] requests. *)
Lemma gemini_exhaustion (w : World Gemini.Response) :
  (forall k, k < Gemini.MAX_RETRIES -> gemini_rate_limited_at w model prompt k) ->
  fst (Gemini.call_gemini_safe prompt model w)
  = Gemini.mkCallResult "ERROR: too many retries due to rate limits" EmptyString
  /\ calls (snd (Gemini.call_gemini_safe prompt model w))
     = calls w + Gemini.MAX_RETRIES
  /\ written (snd (Gemini.call_gemini_safe prompt model w)) = written w.
Proof.
  intros Hall. unfold Gemini.call_gemini_safe.
  destruct (gemini_rate_limited_prefix (seq 0 Gemini.MAX_RETRIES) [] w)
    as (w' & Hrun & Hs & Hc & Hw).
  { intros k Hk. apply Hall. now rewrite length_seq in Hk. }
  rewrite app_nil_r in Hrun. rewrite Hrun. cbn [Gemini.retry_loop ret fst snd].
  rewrite length_seq in Hc. repeat split; assumption.
Qed.

End GeminiRetry.

(** ** Retry/Backoff Controller: OpenAI *)

Section OpenAIRetry.

Variables (model prompt : string).

Local Abbreviation retry attempts last_err :=
  (OpenAI.retry_loop attempts last_err model prompt).

Lemma describe_nonempty (e : Exn) : describe e <> EmptyString.
Proof. unfold describe. destruct (exn_type e); discriminate. Qed.

(** A failed attempt, whatever the exception: [last_err] takes its
    description and the loop goes on with the next attempt number. *)
Lemma openai_attempt_failed (attempt : nat) (rest : list nat)
    (last_err : string) (w : World OpenAI.Response) (e : Exn) :
  openai_fails_at w model prompt 0 e ->
  exists w',
    retry (attempt :: rest) last_err w = retry rest (describe e) w'
    /\ sdk w' = sdk w /\ calls w' = S (calls w) /\ written w' = written w.
Proof.
  unfold openai_fails_at. rewrite Nat.add_0_r. intros Hfail.
  cbn [OpenAI.retry_loop]. unfold bind at 1. cbn [sdk_request].
  rewrite Hfail. unfold bind at 1. cbn [sleep].
  eexists. split.
  { unfold describe. destruct (exn_api_error e); reflexivity. }
  repeat split.
Qed.

Lemma openai_fails_shift (w w' : World OpenAI.Response) (k : nat) (e : Exn) :
  sdk w' = sdk w -> calls w' = S (calls w) ->
  openai_fails_at w model prompt (S k) e ->
  openai_fails_at w' model prompt k e.
Proof.
  unfold openai_fails_at. intros -> ->. now rewrite Nat.add_succ_r.
Qed.

(** A run of failed attempts is walked through, one request each; the
    error text carried along is that of the last failure. *)
Lemma openai_failed_prefix (pre rest : list nat) (last_err : string)
    (w : World OpenAI.Response) :
  (forall k, k < length pre -> exists e, openai_fails_at w model prompt k e) ->
  exists w' last_err',
    retry (pre ++ rest)%list last_err w = retry rest last_err' w'
    /\ sdk w' = sdk w /\ calls w' = calls w + length pre
    /\ written w' = written w
    /\ match pre with
       | [] => last_err' = last_err
       | _ :: _ =>
           exists e, openai_fails_at w model prompt (length pre - 1) e
                     /\ last_err' = describe e
       end.
Proof.
  revert last_err w. induction pre as [|a pre IH]; intros last_err w Hall.
  - exists w, last_err. cbn. rewrite Nat.add_0_r. repeat split.
  - destruct (Hall 0) as [e0 He0]; [cbn; lia|].
    destruct (openai_attempt_failed a (pre ++ rest)%list last_err w e0 He0)
      as (w1 & Hstep & Hs1 & Hc1 & Hw1).
    destruct (IH (describe e0) w1) as (w2 & l2 & Hrun & Hs2 & Hc2 & Hw2 & Hlast).
    { intros k Hk. destruct (Hall (S k)) as [e He]; [cbn; lia|].
      exists e. now apply (openai_fails_shift w). }
    exists w2, l2. cbn [app]. rewrite Hstep, Hrun. repeat split.
    + now rewrite Hs2.
    + rewrite Hc2, Hc1. cbn. lia.
    + now rewrite Hw2.
    + destruct pre as [|b pre].
      * subst l2. now exists e0.
      * destruct Hlast as (e & He & ->). exists e. split; [|reflexivity].
        unfold openai_fails_at in *. rewrite Hs1, Hc1 in He. cbn [length] in *.
        replace (calls w + (S (S (length pre)) - 1))
          with (S (calls w) + (S (length pre) - 1)) by lia.
        exact He.
Qed.

Lemma openai_before_attempt (n : nat) (w : World OpenAI.Response) :
  n < OpenAI.RETRIES ->
  (forall k, k < n -> exists e, openai_fails_at w model prompt k e) ->
  exists w' rest last_err,
    OpenAI.call_openai_chat_with_retries model prompt w
    = retry (S n :: rest) last_err w'
    /\ sdk w' = sdk w /\ calls w' = calls w + n /\ written w' = written w.
Proof.
  intros Hn Hall. unfold OpenAI.call_openai_chat_with_retries.
  replace OpenAI.RETRIES with (n + S (OpenAI.RETRIES - S n)) by lia.
  rewrite seq_app. cbn [seq].
  destruct (openai_failed_prefix (seq 1 n)
              (S n :: seq (S (S n)) (OpenAI.RETRIES - S n)) EmptyString w)
    as (w' & l' & Hrun & Hs & Hc & Hw & _).
  { intros k Hk. apply Hall. now rewrite length_seq in Hk. }
  rewrite length_seq in Hc.
  now exists w', (seq (S (S n)) (OpenAI.RETRIES - S n)), l'.
Qed.

Lemma openai_attempt_succeeded (attempt : nat) (rest : list nat)
    (last_err : string) (w : World OpenAI.Response) (res : OpenAI.CallResult) :
  OpenAI.attempt_result (sdk w (calls w) model prompt) = inl res ->
  fst (retry (attempt :: rest) last_err w) = res
  /\ OpenAI.error res = EmptyString
  /\ calls (snd (retry (attempt :: rest) last_err w)) = S (calls w)
  /\ written (snd (retry (attempt :: rest) last_err w)) = written w.
Proof.
  intros Hres. cbn [OpenAI.retry_loop]. unfold bind. cbn [sdk_request].
  rewrite Hres. repeat split. unfold OpenAI.attempt_result in Hres.
  destruct (sdk w (calls w) model prompt) as [r|e]; [|discriminate].
  destruct (OpenAI.choices r); [discriminate|]. now injection Hres as <-.
Qed.

(** Failures on every attempt: the error result after exactly [RETRIES]
    requests, with the description of the last failure. *)
Lemma openai_exhaustion (w : World OpenAI.Response) :
  (forall k, k < OpenAI.RETRIES ->
             exists e, openai_fails_at w model prompt k e) ->
  exists e,
    openai_fails_at w model prompt (OpenAI.RETRIES - 1) e
    /\ fst (OpenAI.call_openai_chat_with_retries model prompt w)
       = OpenAI.mkCallResult "[ERROR]" (Csv.PStr EmptyString)
           (Csv.PStr EmptyString) (Csv.PStr EmptyString) (describe e)
    /\ calls (snd (OpenAI.call_openai_chat_with_retries model prompt w))
       = calls w + OpenAI.RETRIES
    /\ written (snd (OpenAI.call_openai_chat_with_retries model prompt w))
       = written w.
Proof.
  intros Hall. unfold OpenAI.call_openai_chat_with_retries.
  destruct (openai_failed_prefix (seq 1 OpenAI.RETRIES) [] EmptyString w)
    as (w' & l' & Hrun & Hs & Hc & Hw & Hlast).
  { intros k Hk. apply Hall. now rewrite length_seq in Hk. }
  rewrite app_nil_r in Hrun. rewrite length_seq in Hc, Hlast.
  change (seq 1 OpenAI.RETRIES) with [1; 2; 3] in Hlast.
  destruct Hlast as (e & He & ->). exists e. rewrite Hrun. cbn [OpenAI.retry_loop ret fst snd]. repeat split; assumption.
Qed.

Lemma openai_rate_limited_fails (w : World OpenAI.Response) (k : nat) :
  openai_rate_limited_at w model prompt k ->
  exists e, openai_fails_at w model prompt k e
            /\ sdk w (calls w + k) model prompt = Raised e
            /\ exn_type e = "RateLimitError".
Proof.
  intros (e & Hsdk & Hty). exists e. unfold openai_fails_at.
  now rewrite Hsdk.
Qed.

End OpenAIRetry.

(** ** The claims on the Retry/Backoff Controller *)

(** C1 (as the code has it).  When every attempt fails with a
    rate-limit-like error, either controller returns a terminal result
    after exactly its maximum number of requests (6 for Gemini, 3 for
    OpenAI).  The Gemini result carries the sentinel of retry exhaustion
    and an empty error; the OpenAI result carries the sentinel "[ERROR]"
    and, in its error field, the description of the last failure, which is
    never empty. *)
Theorem retry_exhaustion_result (prompt model : string)
    (wg : World Gemini.Response) (wo : World OpenAI.Response) :
  ((forall k, k < Gemini.MAX_RETRIES ->
              gemini_rate_limited_at wg model prompt k) ->
   fst (Gemini.call_gemini_safe prompt model wg)
   = Gemini.mkCallResult "ERROR: too many retries due to rate limits"
       EmptyString
   /\ calls (snd (Gemini.call_gemini_safe prompt model wg))
      = calls wg + Gemini.MAX_RETRIES)
  /\ ((forall k, k < OpenAI.RETRIES ->
                 openai_rate_limited_at wo model prompt k) ->
      exists e,
        sdk wo (calls wo + (OpenAI.RETRIES - 1)) model prompt = Raised e
        /\ fst (OpenAI.call_openai_chat_with_retries model prompt wo)
           = OpenAI.mkCallResult "[ERROR]" (Csv.PStr EmptyString)
               (Csv.PStr EmptyString) (Csv.PStr EmptyString) (describe e)
        /\ describe e <> EmptyString
        /\ calls (snd (OpenAI.call_openai_chat_with_retries model prompt wo))
           = calls wo + OpenAI.RETRIES).
Proof.
  split.
  - intros Hall.
    destruct (gemini_exhaustion prompt model wg Hall) as (Hres & Hcalls & _).
    now split.
  - intros Hall.
    destruct (openai_exhaustion model prompt wo) as (e & Hfail & Hres & Hcalls & _).
    { intros k Hk.
      destruct (openai_rate_limited_fails model prompt wo k (Hall k Hk))
        as (e & He & _).
      now exists e. }
    destruct (openai_rate_limited_fails model prompt wo (OpenAI.RETRIES - 1))
      as (e' & He' & Hsdk & _); [apply Hall; cbv; lia|].
    unfold openai_fails_at in *. rewrite He' in Hfail. injection Hfail as <-.
    exists e'. repeat split; try assumption. apply describe_nonempty.
Qed.

Lemma retry_exhaustion_witness :
  (fst (Gemini.call_gemini_safe "Hva er buddhismen?" "some-model"
          (scripted_world (always_raises error_429)))
   = Gemini.mkCallResult "ERROR: too many retries due to rate limits"
       EmptyString
   /\ calls (snd (Gemini.call_gemini_safe "Hva er buddhismen?" "some-model"
                    (scripted_world (always_raises error_429))))
      = 6)
  /\ exists e,
       e = error_rate_limit
       /\ fst (OpenAI.call_openai_chat_with_retries "some-model"
                 "Hva er buddhismen?"
                 (scripted_world (always_raises error_rate_limit)))
          = OpenAI.mkCallResult "[ERROR]" (Csv.PStr EmptyString)
              (Csv.PStr EmptyString) (Csv.PStr EmptyString) (describe e)
       /\ calls (snd (OpenAI.call_openai_chat_with_retries "some-model"
                        "Hva er buddhismen?"
                        (scripted_world (always_raises error_rate_limit))))
          = 3.
Proof.
  split.
  - apply (proj1 (retry_exhaustion_result "Hva er buddhismen?" "some-model"
                    (scripted_world (always_raises error_429))
                    (scripted_world (always_raises error_rate_limit)))).
    intros k _. exists error_429. split; reflexivity.
  - destruct (proj2 (retry_exhaustion_result "Hva er buddhismen?" "some-model"
                       (scripted_world (always_raises error_429))
                       (scripted_world (always_raises error_rate_limit))))
      as (e & Hsdk & Hres & _ & Hcalls).
    + intros k _. exists error_rate_limit. split; reflexivity.
    + exists e. split; [|split; assumption].
      cbv [scripted_world always_raises sdk] in Hsdk. now injection Hsdk.
Defined.

(** C1 fails as stated: after three rate-limited attempts the OpenAI
    controller returns a result whose error field is not empty. *)
Lemma openai_exhaustion_fills_error :
  (forall k, k < OpenAI.RETRIES ->
             openai_rate_limited_at
               (scripted_world (always_raises error_rate_limit))
               "some-model" "Hva er buddhismen?" k)
  /\ OpenAI.error
       (fst (OpenAI.call_openai_chat_with_retries "some-model"
               "Hva er buddhismen?"
               (scripted_world (always_raises error_rate_limit))))
     = "RateLimitError: Rate limit reached for requests"
  /\ OpenAI.error
       (fst (OpenAI.call_openai_chat_with_retries "some-model"
               "Hva er buddhismen?"
               (scripted_world (always_raises error_rate_limit))))
     <> EmptyString.
Proof.
  split; [|split].
  - intros k _. exists error_rate_limit. split; reflexivity.
  - reflexivity.
  - discriminate.
Qed.

(** C2.  For [1 <= N <=] the maximum number of attempts: when the first
    [N - 1] requests fail with a rate-limit-like error and request [N]
    succeeds, the controller returns the result of that request, with an
    empty error, after exactly [N] requests. *)
Theorem success_on_attempt_n (prompt model : string) (N : nat)
    (wg : World Gemini.Response) (resp : Gemini.Response)
    (wo : World OpenAI.Response) (res : OpenAI.CallResult) :
  (1 <= N <= Gemini.MAX_RETRIES ->
   (forall k, k < N - 1 -> gemini_rate_limited_at wg model prompt k) ->
   sdk wg (calls wg + (N - 1)) model prompt = Returned resp ->
   fst (Gemini.call_gemini_safe prompt model wg) = Gemini.result_of_response resp
   /\ Gemini.error (Gemini.result_of_response resp) = EmptyString
   /\ calls (snd (Gemini.call_gemini_safe prompt model wg)) = calls wg + N)
  /\ (1 <= N <= OpenAI.RETRIES ->
      (forall k, k < N - 1 -> openai_rate_limited_at wo model prompt k) ->
      OpenAI.attempt_result (sdk wo (calls wo + (N - 1)) model prompt) = inl res ->
      fst (OpenAI.call_openai_chat_with_retries model prompt wo) = res
      /\ OpenAI.error res = EmptyString
      /\ calls (snd (OpenAI.call_openai_chat_with_retries model prompt wo))
         = calls wo + N).
Proof.
  split.
  - intros HN Hall Hsdk.
    destruct (gemini_before_attempt prompt model (N - 1) wg)
      as (w' & rest & Hrun & Hs & Hc & _); [lia|exact Hall|].
    rewrite Hrun. rewrite <- Hs, <- Hc in Hsdk.
    destruct (gemini_attempt_returned prompt model (N - 1) rest w' resp Hsdk)
      as (Hres & Hcalls & _).
    split; [exact Hres|]. split.
    + unfold Gemini.result_of_response.
      now destruct (negb _ && Gemini.has_candidates resp).
    + rewrite Hcalls, Hc. lia.
  - intros HN Hall Hres.
    destruct (openai_before_attempt model prompt (N - 1) wo)
      as (w' & rest & l' & Hrun & Hs & Hc & _); [lia| |].
    { intros k Hk.
      destruct (openai_rate_limited_fails model prompt wo k (Hall k Hk))
        as (e & He & _).
      now exists e. }
    rewrite Hrun. rewrite <- Hs, <- Hc in Hres.
    destruct (openai_attempt_succeeded model prompt (S (N - 1)) rest l' w' res Hres)
      as (H1 & H2 & H3 & _).
    split; [exact H1|]. split; [exact H2|]. rewrite H3, Hc. lia.
Qed.

Lemma success_on_attempt_n_witness :
  (fst (Gemini.call_gemini_safe "Hva er buddhismen?" "some-model"
          (scripted_world (raises_once_then error_429 gemini_answer)))
   = Gemini.mkCallResult "Buddhismen er en religion." EmptyString
   /\ calls (snd (Gemini.call_gemini_safe "Hva er buddhismen?" "some-model"
                    (scripted_world (raises_once_then error_429 gemini_answer))))
      = 2)
  /\ (OpenAI.response_text
        (fst (OpenAI.call_openai_chat_with_retries "some-model"
                "Hva er buddhismen?"
                (scripted_world (raises_once_then error_rate_limit openai_answer))))
      = "Buddhismen er en religion."
      /\ calls (snd (OpenAI.call_openai_chat_with_retries "some-model"
                       "Hva er buddhismen?"
                       (scripted_world
                          (raises_once_then error_rate_limit openai_answer))))
         = 2).
Proof.
  split.
  - destruct (proj1 (success_on_attempt_n "Hva er buddhismen?" "some-model" 2
                       (scripted_world (raises_once_then error_429 gemini_answer))
                       gemini_answer
                       (scripted_world
                          (raises_once_then error_rate_limit openai_answer))
                       (OpenAI.mkCallResult "Buddhismen er en religion."
                          (Csv.PInt 40) (Csv.PInt 25) (Csv.PInt 65) EmptyString)))
      as (Hres & _ & Hcalls).
    + cbv [Gemini.MAX_RETRIES]. lia.
    + intros k Hk. assert (k = 0) as -> by lia.
      exists error_429. split; reflexivity.
    + reflexivity.
    + split; [exact Hres|exact Hcalls].
  - destruct (proj2 (success_on_attempt_n "Hva er buddhismen?" "some-model" 2
                       (scripted_world (raises_once_then error_429 gemini_answer))
                       gemini_answer
                       (scripted_world
                          (raises_once_then error_rate_limit openai_answer))
                       (OpenAI.mkCallResult "Buddhismen er en religion."
                          (Csv.PInt 40) (Csv.PInt 25) (Csv.PInt 65) EmptyString)))
      as (Hres & _ & Hcalls).
    + cbv [OpenAI.RETRIES]. lia.
    + intros k Hk. assert (k = 0) as -> by lia.
      exists error_rate_limit. split; reflexivity.
    + reflexivity.
    + split; [now rewrite Hres|exact Hcalls].
Defined.

(** C3 (as the code has it).  Gemini: a failure whose message holds
    neither a rate-limit indicator nor a block indicator ends the call at
    once, whatever the attempt it happens on: the result is "[ERROR]" with
    the description of the failure in the error field, and no further
    request is made.  OpenAI: a failed attempt, whatever the exception, is
    followed by the next attempt while there is one; only when all of the
    [RETRIES] attempts have failed is the result "[ERROR]" with the
    description of the last failure in the error field. *)
Theorem unknown_failure_outcome (prompt model : string) (n : nat)
    (wg : World Gemini.Response) (e : Exn)
    (wo : World OpenAI.Response) (res : OpenAI.CallResult) :
  (n < Gemini.MAX_RETRIES ->
   (forall k, k < n -> gemini_rate_limited_at wg model prompt k) ->
   sdk wg (calls wg + n) model prompt = Raised e ->
   Gemini.rate_limited (PyStr.lower (exn_msg e)) = false ->
   Gemini.safety_blocked (PyStr.lower (exn_msg e)) = false ->
   fst (Gemini.call_gemini_safe prompt model wg)
   = Gemini.mkCallResult "[ERROR]" (describe e)
   /\ describe e <> EmptyString
   /\ calls (snd (Gemini.call_gemini_safe prompt model wg)) = calls wg + n + 1)
  /\ (n < OpenAI.RETRIES ->
      (forall k, k < n -> exists e', openai_fails_at wo model prompt k e') ->
      OpenAI.attempt_result (sdk wo (calls wo + n) model prompt) = inl res ->
      fst (OpenAI.call_openai_chat_with_retries model prompt wo) = res
      /\ calls (snd (OpenAI.call_openai_chat_with_retries model prompt wo))
         = calls wo + n + 1)
  /\ ((forall k, k < OpenAI.RETRIES ->
                 exists e', openai_fails_at wo model prompt k e') ->
      exists e',
        openai_fails_at wo model prompt (OpenAI.RETRIES - 1) e'
        /\ fst (OpenAI.call_openai_chat_with_retries model prompt wo)
           = OpenAI.mkCallResult "[ERROR]" (Csv.PStr EmptyString)
               (Csv.PStr EmptyString) (Csv.PStr EmptyString) (describe e')
        /\ describe e' <> EmptyString
        /\ calls (snd (OpenAI.call_openai_chat_with_retries model prompt wo))
           = calls wo + OpenAI.RETRIES).
Proof.
  split; [|split].
  - intros Hn Hall Hsdk Hrate Hsafe.
    destruct (gemini_before_attempt prompt model n wg Hn Hall)
      as (w' & rest & Hrun & Hs & Hc & _).
    rewrite Hrun. rewrite <- Hs, <- Hc in Hsdk.
    destruct (gemini_attempt_other prompt model n rest w' e Hsdk Hrate Hsafe)
      as (Hres & Hcalls & _).
    split; [exact Hres|]. split; [apply describe_nonempty|].
    rewrite Hcalls, Hc. lia.
  - intros Hn Hall Hres.
    destruct (openai_before_attempt model prompt n wo Hn Hall)
      as (w' & rest & l' & Hrun & Hs & Hc & _).
    rewrite Hrun. rewrite <- Hs, <- Hc in Hres.
    destruct (openai_attempt_succeeded model prompt (S n) rest l' w' res Hres)
      as (H1 & _ & H3 & _).
    split; [exact H1|]. rewrite H3, Hc. lia.
  - intros Hall.
    destruct (openai_exhaustion model prompt wo Hall)
      as (e' & Hfail & Hres & Hcalls & _).
    exists e'. repeat split; try assumption. apply describe_nonempty.
Qed.

Lemma unknown_failure_witness :
  fst (Gemini.call_gemini_safe "Hva er buddhismen?" "some-model"
         (scripted_world (always_raises error_boom)))
  = Gemini.mkCallResult "[ERROR]" "ValueError: boom"
  /\ calls (snd (Gemini.call_gemini_safe "Hva er buddhismen?" "some-model"
                   (scripted_world (always_raises error_boom))))
     = 1
  /\ fst (OpenAI.call_openai_chat_with_retries "some-model"
            "Hva er buddhismen?" boom_then_answer)
     = OpenAI.mkCallResult "Buddhismen er en religion."
         (Csv.PInt 40) (Csv.PInt 25) (Csv.PInt 65) EmptyString
  /\ OpenAI.error
       (fst (OpenAI.call_openai_chat_with_retries "some-model"
               "Hva er buddhismen?" (scripted_world (always_raises error_boom))))
     = "ValueError: boom".
Proof.
  destruct (proj1 (unknown_failure_outcome "Hva er buddhismen?" "some-model" 0
                     (scripted_world (always_raises error_boom)) error_boom
                     boom_then_answer
                     (OpenAI.mkCallResult "Buddhismen er en religion."
                        (Csv.PInt 40) (Csv.PInt 25) (Csv.PInt 65) EmptyString)))
    as (Hres & _ & Hcalls).
  { cbv [Gemini.MAX_RETRIES]. lia. }
  { intros k Hk. lia. }
  { reflexivity. }
  { reflexivity. }
  { reflexivity. }
  split; [exact Hres|]. split; [exact Hcalls|].
  split.
  - apply (proj1 (proj2 (unknown_failure_outcome "Hva er buddhismen?"
                           "some-model" 1
                           (scripted_world (always_raises error_boom)) error_boom
                           boom_then_answer
                           (OpenAI.mkCallResult "Buddhismen er en religion."
                              (Csv.PInt 40) (Csv.PInt 25) (Csv.PInt 65)
                              EmptyString)))).
    + cbv [OpenAI.RETRIES]. lia.
    + intros k Hk. assert (k = 0) as -> by lia. exists error_boom. reflexivity.
    + reflexivity.
  - destruct (proj2 (proj2 (unknown_failure_outcome "Hva er buddhismen?"
                              "some-model" 0
                              (scripted_world (always_raises error_429))
                              error_boom
                              (scripted_world (always_raises error_boom))
                              (OpenAI.mkCallResult "x" (Csv.PInt 0) (Csv.PInt 0)
                                 (Csv.PInt 0) EmptyString))))
      as (e' & Hfail & Hres' & _).
    + intros k _. exists error_boom. reflexivity.
    + rewrite Hres'. cbv in Hfail. injection Hfail as <-. reflexivity.
Defined.

(** C3 fails as stated for OpenAI: a [ValueError] with the message "boom"
    (no rate-limit indicator, no block indicator) on the first attempt is
    not recorded; a second request is made and its answer is returned with
    an empty error field. *)
Lemma openai_unknown_failure_is_retried :
  sdk boom_then_answer (calls boom_then_answer) "some-model"
    "Hva er buddhismen?" = Raised error_boom
  /\ Gemini.rate_limited (PyStr.lower (exn_msg error_boom)) = false
  /\ Gemini.safety_blocked (PyStr.lower (exn_msg error_boom)) = false
  /\ OpenAI.error
       (fst (OpenAI.call_openai_chat_with_retries "some-model"
               "Hva er buddhismen?" boom_then_answer))
     = EmptyString
  /\ calls (snd (OpenAI.call_openai_chat_with_retries "some-model"
                   "Hva er buddhismen?" boom_then_answer))
     = calls boom_then_answer + 2.
Proof. repeat split; reflexivity. Qed.

(** ** Provider Call Adapter: blocked and empty responses *)



Lemma append_cons (c : ascii) (a b : string) :
  String c a ++ b = String c (a ++ b).
Proof. reflexivity. Qed.

Lemma append_empty_l (b : string) : EmptyString ++ b = b.
Proof. reflexivity. Qed.



Lemma or_else_empty (s : string) : PyStr.or_else s EmptyString = s.
Proof. now destruct s. Qed.






(** ** Start-up checks *)

(** C7 (as the code has it).  Without its credential variable the OpenAI
    script leaves through [sys.exit(2)], status 2, while the Gemini script
    raises [SystemExit] with a message, which is status 1.  With the
    credential set, either script leaves with status 3 when the input file
    has no data row.  In all four cases no file has been written and no
    request has been made. *)
Theorem startup_exit_codes (args : Args)
    (wg : World Gemini.Response) (wo : World OpenAI.Response) :
  (environ wg !! "GOOGLE_API_KEY" = None ->
   fst (Gemini.main args wg)
   = SysExitMessage "Missing GOOGLE_API_KEY environment variable."
   /\ exit_status (fst (Gemini.main args wg)) = 1
   /\ written (snd (Gemini.main args wg)) = written wg
   /\ calls (snd (Gemini.main args wg)) = calls wg)
  /\ (environ wo !! "OPENAI_API_KEY" = None ->
      fst (OpenAI.main args wo) = SysExitCode 2
      /\ exit_status (fst (OpenAI.main args wo)) = 2
      /\ written (snd (OpenAI.main args wo)) = written wo
      /\ calls (snd (OpenAI.main args wo)) = calls wo)
  /\ (forall key,
        environ wg !! "GOOGLE_API_KEY" = Some key -> key <> EmptyString ->
        csv_files wg (arg_input args) = [] ->
        fst (Gemini.main args wg) = SysExitCode 3
        /\ exit_status (fst (Gemini.main args wg)) = 3
        /\ written (snd (Gemini.main args wg)) = written wg
        /\ calls (snd (Gemini.main args wg)) = calls wg)
  /\ (forall key,
        environ wo !! "OPENAI_API_KEY" = Some key -> key <> EmptyString ->
        csv_files wo (arg_input args) = [] ->
        fst (OpenAI.main args wo) = SysExitCode 3
        /\ exit_status (fst (OpenAI.main args wo)) = 3
        /\ written (snd (OpenAI.main args wo)) = written wo
        /\ calls (snd (OpenAI.main args wo)) = calls wo).
Proof.
  split; [|split; [|split]].
  - intros Hkey. unfold Gemini.main, Gemini.require_key, bind, getenv, ret.
    rewrite Hkey. now cbn.
  - intros Hkey. unfold OpenAI.main, bind, getenv, ret.
    rewrite Hkey. now cbn.
  - intros key Hkey Hne Hrows.
    unfold Gemini.main, Gemini.require_key, bind, getenv, ret, read_csv_rows.
    rewrite Hkey. destruct key as [|c key]; [congruence|]. rewrite Hrows. now cbn.
  - intros key Hkey Hne Hrows.
    unfold OpenAI.main, bind, getenv, ret, read_csv_rows.
    rewrite Hkey. destruct key as [|c key]; [congruence|]. rewrite Hrows. now cbn.
Qed.

Lemma startup_exit_codes_witness :
  exit_status
    (fst (Gemini.main example_args
            (world_with (always_raises error_boom) ∅ [buddhism_row]))) = 1
  /\ exit_status
       (fst (OpenAI.main example_args
               (world_with (always_raises error_boom) ∅ [buddhism_row]))) = 2
  /\ exit_status
       (fst (Gemini.main example_args
               (world_with (always_raises error_boom)
                  (<["GOOGLE_API_KEY" := "secret"]> ∅) []))) = 3
  /\ exit_status
       (fst (OpenAI.main example_args
               (world_with (always_raises error_boom)
                  (<["OPENAI_API_KEY" := "secret"]> ∅) []))) = 3.
Proof.
  split; [|split; [|split]].
  - apply (proj1 (startup_exit_codes example_args
                    (world_with (always_raises error_boom) ∅ [buddhism_row])
                    (world_with (always_raises error_boom) ∅ [buddhism_row]))).
    reflexivity.
  - apply (proj1 (proj2 (startup_exit_codes example_args
                    (world_with (always_raises error_boom) ∅ [buddhism_row])
                    (world_with (always_raises error_boom) ∅ [buddhism_row])))).
    reflexivity.
  - apply (proj1 (proj2 (proj2 (startup_exit_codes example_args
                    (world_with (always_raises error_boom)
                       (<["GOOGLE_API_KEY" := "secret"]> ∅) [])
                    (world_with (always_raises error_boom) ∅ []))))
             "secret");
      [reflexivity|discriminate|reflexivity].
  - apply (proj2 (proj2 (proj2 (startup_exit_codes example_args
                    (world_with (always_raises error_boom) ∅ [])
                    (world_with (always_raises error_boom)
                       (<["OPENAI_API_KEY" := "secret"]> ∅) []))))
             "secret");
      [reflexivity|discriminate|reflexivity].
Defined.

(** C7 fails as stated for Gemini: with [GOOGLE_API_KEY] absent the
    process ends with status 1, not 2. *)
Lemma gemini_missing_key_exits_with_1 :
  environ (@world_with Gemini.Response (always_raises error_boom) ∅
             [buddhism_row])
    !! "GOOGLE_API_KEY" = None
  /\ exit_status
       (fst (Gemini.main example_args
               (world_with (always_raises error_boom) ∅ [buddhism_row]))) = 1
  /\ exit_status
       (fst (Gemini.main example_args
               (world_with (always_raises error_boom) ∅ [buddhism_row]))) <> 2.
Proof. split; [reflexivity|]. split; [reflexivity|discriminate]. Qed.

(** ** Result Writer: reading the file back *)

Section ReaderByCharacter.

Variable d : Csv.Dialect.

Lemma append_assoc (a b c : string) : (a ++ b) ++ c = a ++ (b ++ c).
Proof.
  induction a as [|x a IH]; [reflexivity|].
  now rewrite !append_cons, IH.
Qed.

Lemma append_empty_r (a : string) : a ++ EmptyString = a.
Proof.
  induction a as [|x a IH]; [reflexivity|]. now rewrite append_cons, IH.
Qed.

Lemma truthy_append_char (a : string) (c : ascii) :
  PyStr.truthy (a ++ String c EmptyString) = true.
Proof. now destruct a. Qed.

Lemma feed_chars_snoc (r rc : Csv.Reader) (cur : string) (c : ascii) :
  feed_chars d r cur = Some rc ->
  feed_chars d r (cur ++ String c EmptyString)
  = Csv.parse_process_char d rc (Some c).
Proof.
  revert r. induction cur as [|x cur IH]; intros r.
  - cbn. intros [= ->]. rewrite append_empty_l. cbn.
    now destruct (Csv.parse_process_char d rc (Some c)).
  - rewrite append_cons. cbn [feed_chars].
    destruct (Csv.parse_process_char d r (Some x)); [apply IH|discriminate].
Qed.

Lemma process_line_feed (r rc : Csv.Reader) (line : string) :
  feed_chars d r line = Some rc ->
  Csv.process_line d r line = Csv.parse_process_char d rc None.
Proof.
  revert r. induction line as [|x line IH]; intros r.
  - cbn. now intros [= ->].
  - cbn [feed_chars Csv.process_line].
    destruct (Csv.parse_process_char d r (Some x)); [apply IH|discriminate].
Qed.

(** A complete line in front of the remaining lines. *)
Lemma reader_rows_line (r rc : Csv.Reader) (line : string)
    (lines : list string) :
  feed_chars d r line = Some rc ->
  Csv.reader_rows d r (line :: lines)
  = at_line_end d rc (fun r' => Csv.reader_rows d r' lines).
Proof.
  intros Hfeed. cbn [Csv.reader_rows]. rewrite (process_line_feed _ _ _ Hfeed).
  reflexivity.
Qed.

Lemma at_line_end_mono (r : Csv.Reader)
    (k1 k2 : Csv.Reader -> option (list (list string)))
    (rows : list (list string)) :
  (forall r' rows', k1 r' = Some rows' -> k2 r' = Some rows') ->
  at_line_end d r k1 = Some rows -> at_line_end d r k2 = Some rows.
Proof.
  intros Hk. unfold at_line_end.
  destruct (Csv.parse_process_char d r None) as [r'|]; [|discriminate].
  destruct (Csv.in_start_record r').
  - destruct (k1 Csv.parse_reset) as [rows1|] eqn:H1; [|discriminate].
    now rewrite (Hk _ _ H1).
  - apply Hk.
Qed.

(** What the machine yields character by character, the reader yields line
    by line. *)
Lemma reader_run_sound (n : nat) :
  forall (text : string) (r rc : Csv.Reader) (cur : string)
         (rows : list (list string)),
    String.length text <= n ->
    feed_chars d r cur = Some rc ->
    reader_run d rc (PyStr.truthy cur) text = Some rows ->
    Csv.reader_rows d r (Csv.readlines_from cur text) = Some rows.
Proof.
  induction n as [|n IH]; intros text r rc cur rows Hlen Hfeed Hrun.
  - destruct text; [|cbn in Hlen; lia].
    cbn [reader_run Csv.readlines_from] in *.
    destruct cur as [|x cur]; cbn [PyStr.truthy] in *.
    + cbn in Hfeed. injection Hfeed as ->. exact Hrun.
    + rewrite (reader_rows_line _ _ _ _ Hfeed). exact Hrun.
  - destruct text as [|c rest].
    { apply (IH EmptyString r rc cur rows); [cbn; lia|assumption..]. }
    cbn [String.length] in Hlen.
    cbn [reader_run Csv.readlines_from] in *.
    pose proof (feed_chars_snoc r rc cur c Hfeed) as Hsnoc.
    destruct (Csv.parse_process_char d rc (Some c)) as [r1|]; [|discriminate].
    assert (forall text' r' rows',
              String.length text' <= n ->
              reader_run d r' false text' = Some rows' ->
              Csv.reader_rows d r' (Csv.readlines_from EmptyString text')
              = Some rows') as Hfresh.
    { intros text' r' rows' Hl Hr.
      now apply (IH text' r' r' EmptyString rows'). }
    destruct (Ascii.eqb c Csv.LF).
    { rewrite (reader_rows_line _ _ _ _ Hsnoc).
      apply (at_line_end_mono r1 _ _ rows (fun r' rows' => Hfresh rest r' rows' ltac:(lia))).
      exact Hrun. }
    destruct (Ascii.eqb c Csv.CR).
    + destruct rest as [|c2 rest2].
      * rewrite (reader_rows_line _ _ _ _ Hsnoc).
        apply (at_line_end_mono r1 _ _ rows
                 (fun r' rows' => Hfresh EmptyString r' rows' ltac:(cbn; lia))).
        exact Hrun.
      * cbn [String.length] in Hlen. destruct (Ascii.eqb c2 Csv.LF).
        -- pose proof (feed_chars_snoc r r1 _ c2 Hsnoc) as Hsnoc2.
           destruct (Csv.parse_process_char d r1 (Some c2)) as [r2|];
             [|discriminate].
           rewrite (reader_rows_line _ _ _ _ Hsnoc2).
           apply (at_line_end_mono r2 _ _ rows
                    (fun r' rows' => Hfresh rest2 r' rows' ltac:(lia))).
           exact Hrun.
        -- rewrite (reader_rows_line _ _ _ _ Hsnoc).
           apply (at_line_end_mono r1 _ _ rows
                    (fun r' rows' =>
                       Hfresh (String c2 rest2) r' rows' ltac:(cbn; lia))).
           exact Hrun.
    + apply (IH rest r r1 (cur ++ String c EmptyString) rows); [lia|exact Hsnoc|].
      now rewrite truthy_append_char.
Qed.

Lemma reader_output_of_run (text : string) (rows : list (list string)) :
  reader_run d Csv.parse_reset false text = Some rows ->
  Csv.reader_output d text = Some rows.
Proof.
  intros Hrun. unfold Csv.reader_output, Csv.readlines.
  now apply (reader_run_sound (String.length text) text
               Csv.parse_reset Csv.parse_reset EmptyString rows).
Qed.

End ReaderByCharacter.

(** *** The writer under the dialect of the result files *)

Section ResultsDialect.

Local Abbreviation rd := Gemini.results_dialect.
Local Abbreviation in_quoted f fs := (Csv.mkReader Csv.IN_QUOTED_FIELD f fs).

Lemma join_append_data_results (s : string) :
  Csv.join_append_data rd s = Some (escape_field s).
Proof.
  induction s as [|c s IH]; [reflexivity|].
  cbn [Csv.join_append_data escape_field]. rewrite IH.
  unfold Gemini.results_dialect, Csv.is_escapechar.
  cbn [Csv.delimiter Csv.quotechar Csv.escapechar Csv.doublequote
       Csv.lineterminator Csv.occurs].
  destruct (Ascii.eqb c Csv.DQUOTE), (Ascii.eqb c "\"), (Ascii.eqb c ";"),
    (Ascii.eqb c Csv.CR), (Ascii.eqb c Csv.LF); reflexivity.
Qed.

Lemma join_append_results (s : string) :
  Csv.join_append rd s = Some (quoted_field s).
Proof. unfold Csv.join_append. now rewrite join_append_data_results. Qed.

Lemma join_fields_results (cells : list string) :
  Csv.join_fields rd cells = Some (line_of cells).
Proof.
  induction cells as [|f rest IH]; [reflexivity|].
  cbn [Csv.join_fields line_of]. rewrite join_append_results, IH.
  now destruct rest.
Qed.

Lemma writerows_results (table : list (list Csv.PyVal)) :
  Csv.writerows rd table = Some (text_of (map (map Csv.field_text) table)).
Proof.
  induction table as [|row rest IH]; [reflexivity|].
  cbn [Csv.writerows map text_of]. unfold Csv.writerow.
  now rewrite join_fields_results, IH.
Qed.

Lemma dictwriter_output_results (fieldnames : list string)
    (table : list (list Csv.PyVal)) :
  Csv.dictwriter_output rd fieldnames table
  = Some (text_of (fieldnames :: map (map Csv.field_text) table)).
Proof.
  unfold Csv.dictwriter_output, Csv.writerow.
  rewrite join_fields_results, writerows_results. cbn [text_of].
  rewrite map_map. cbn [Csv.field_text]. now rewrite map_id.
Qed.

(** *** The reader on what the writer wrote *)










Lemma quoted_field_append (f t : string) :
  quoted_field f ++ t
  = String Csv.DQUOTE (escape_field f ++ String Csv.DQUOTE t).
Proof.
  unfold quoted_field.
  now rewrite append_cons, append_assoc, append_cons, append_empty_l.
Qed.




End ResultsDialect.

(** *** The encoding of the file *)

Lemma utf8_decode_char (c : ascii) (bytes : list Byte.byte) :
  Csv.utf8_decode (Csv.utf8_char c ++ bytes)%list
  = match Csv.utf8_decode bytes with
    | Some s => Some (String c s)
    | None => None
    end.
Proof. destruct c as [[] [] [] [] [] [] [] []]; reflexivity. Qed.

Lemma utf8_decode_encode (txt : string) :
  Csv.utf8_decode (Csv.utf8_encode txt) = Some txt.
Proof.
  induction txt as [|c txt IH]; [reflexivity|].
  cbn [Csv.utf8_encode]. now rewrite utf8_decode_char, IH.
Qed.

Lemma decode_encode_utf8_sig (txt : string) :
  Csv.decode_utf8_sig (Csv.encode_utf8_sig txt) = Some txt.
Proof.
  change (Csv.decode_utf8_sig (Csv.encode_utf8_sig txt))
    with (Csv.utf8_decode (Csv.utf8_encode txt)).
  apply utf8_decode_encode.
Qed.


(** ** Examples *)

Example python_string_examples :
  PyStr.strip "  Hva er buddhismen?  " = "Hva er buddhismen?"
  /\ PyStr.strip "   " = EmptyString
  /\ PyStr.lower "Resource EXHAUSTED" = "resource exhausted"
  /\ PyStr.contains "rate" "moderate" = true
  /\ PyStr.contains "429" "http 42" = false
  /\ PyStr.str_nat 0 = "0" /\ PyStr.str_nat 12 = "12".
Proof. repeat split; reflexivity. Qed.

(** The end-to-end example of the specification: one data row whose second
    prompt column is empty, mode [first].  The run ends normally after two
    requests and writes one file with two records, both with row index 2;
    the prompt of the third column has the id p2. *)
Example end_to_end_first_row :
  fst (Gemini.main example_args end_to_end_world) = Finished
  /\ calls (snd (Gemini.main example_args end_to_end_world)) = 2
  /\ match written (snd (Gemini.main example_args end_to_end_world)) with
     | [(path, bytes)] =>
         path = "responses.csv"
         /\ read_results Gemini.results_dialect bytes
            = Some
                [Gemini.fieldnames;
                 ["2025-10-01T12:00:00+00:00"; "gemini"; "some-model"; "2";
                  "Buddhism"; EmptyString; "Buddhisme"; EmptyString; "p1";
                  "Hva er buddhismen?"; "Buddhismen er en religion.";
                  EmptyString];
                 ["2025-10-01T12:00:00+00:00"; "gemini"; "some-model"; "2";
                  "Buddhism"; EmptyString; "Buddhisme"; EmptyString; "p2";
                  "Hvordan praktiseres buddhismen?";
                  "Buddhismen er en religion."; EmptyString]]
     | _ => False
     end.
Proof. vm_compute. repeat split; reflexivity. Qed.

(** A row whose first prompt column is blank: the prompts of the second
    and third column get the ids p1 and p2. *)
Example blank_first_prompt_ids :
  batch_keys 3 (ensure_prompts blank_first_row)
  = [("3", "p1", "Hva er islam?"); ("3", "p2", "Hvordan praktiseres islam?")].
Proof. reflexivity. Qed.

(** Values with a delimiter, quote characters, a backslash and a line
    break come back unchanged under the dialect of the writer.  A reader
    that is given the delimiter but not the escape character returns the
    backslash doubled. *)
Example tricky_values_read_back :
  (exists txt,
     Gemini.results_text [tricky_record] = Some txt
     /\ Csv.reader_output Gemini.results_dialect txt
        = Some [Gemini.fieldnames; gemini_cells tricky_record]
     /\ Csv.reader_output dialect_without_escapechar txt
        = Some
            [Gemini.fieldnames;
             ["2025-10-01T12:00:00+00:00"; "gemini"; "some-model"; "2";
              "a;b"; String Csv.DQUOTE "quoted" ++ String Csv.DQUOTE EmptyString;
              "back\\slash"; String Csv.CR (String Csv.LF "next line");
              "p1"; "Hva er buddhismen?"; "Buddhismen; en religion.";
              EmptyString]]).
Proof. eexists. split; [reflexivity|]. split; reflexivity. Qed.

(** The rate-limit test comes first: a block message that also holds a
    rate-limit indicator is retried like a rate limit, six requests in
    all. *)
Example block_message_with_rate_indicator :
  Gemini.safety_blocked (PyStr.lower (exn_msg error_blocked_moderate)) = true
  /\ Gemini.rate_limited (PyStr.lower (exn_msg error_blocked_moderate)) = true
  /\ fst (Gemini.call_gemini_safe "Hva er buddhismen?" "some-model"
            (scripted_world (always_raises error_blocked_moderate)))
     = Gemini.mkCallResult "ERROR: too many retries due to rate limits"
         EmptyString
  /\ calls (snd (Gemini.call_gemini_safe "Hva er buddhismen?" "some-model"
                   (scripted_world (always_raises error_blocked_moderate))))
     = 6.
Proof. repeat split; reflexivity. Qed.

(** * Further properties of the code *)

(** ** The controllers under any provider *)

Lemma same_outside_refl {R : Type} (w : World R) : same_outside w w.
Proof. repeat split. Qed.

Lemma same_outside_trans {R : Type} (w1 w2 w3 : World R) :
  same_outside w1 w2 -> same_outside w2 w3 -> same_outside w1 w3.
Proof.
  unfold same_outside.
  intros (A1 & A2 & A3 & A4 & A5 & A6) (B1 & B2 & B3 & B4 & B5 & B6).
  repeat split; congruence.
Qed.

Lemma gemini_result_of_response_text (resp : Gemini.Response) :
  Gemini.response_text (Gemini.result_of_response resp) <> EmptyString
  /\ Gemini.error (Gemini.result_of_response resp) = EmptyString.
Proof.
  unfold Gemini.result_of_response.
  destruct (negb _ && Gemini.has_candidates resp); cbn.
  - split; [discriminate|reflexivity].
  - split; [|reflexivity]. unfold PyStr.or_else.
    destruct (PyStr.strip _); cbn; discriminate.
Qed.

(** The Gemini loop over any attempt numbers: it ends on some attempt [k]
    counted from 0 with [k + 1] requests made, or runs out after one
    request per attempt; it has slept once per rate-limited attempt, never
    longer than the cap. *)
Lemma gemini_retry_loop_outcome (prompt model : string) (attempts : list nat) :
  forall (w w' : World Gemini.Response) (res : Gemini.CallResult),
    Gemini.retry_loop attempts prompt model w = (res, w') ->
    same_outside w w'
    /\ Gemini.response_text res <> EmptyString
    /\ (Gemini.error res <> EmptyString -> Gemini.response_text res = "[ERROR]")
    /\ exists (k : nat) (news : list Q),
         slept w' = (slept w ++ news)%list
         /\ length news = k
         /\ Forall (fun q => (q <= Gemini.backoff_cap)%Q) news
         /\ (k < length attempts /\ calls w' = calls w + k + 1
             \/ k = length attempts /\ calls w' = calls w + k
                /\ res = Gemini.mkCallResult
                           "ERROR: too many retries due to rate limits"
                           EmptyString).
Proof.
  induction attempts as [|a rest IH]; intros w w' res Hrun.
  - cbn in Hrun. injection Hrun as <- <-.
    split; [apply same_outside_refl|]. split; [discriminate|].
    split; [intros H; now contradiction H|].
    exists 0, []. rewrite app_nil_r, Nat.add_0_r. repeat split; auto.
  - cbn [Gemini.retry_loop] in Hrun. unfold bind at 1 in Hrun.
    cbn [sdk_request] in Hrun.
    destruct (sdk w (calls w) model prompt) as [resp|e].
    + cbn [ret] in Hrun. injection Hrun as <- <-. split; [repeat split|].
      destruct (gemini_result_of_response_text resp) as [Ht He].
      split; [exact Ht|]. split; [intros H; now rewrite He in H|].
      exists 0, []. cbn [slept calls length]. rewrite app_nil_r.
      repeat split; auto. left. split; lia.
    + destruct (Gemini.rate_limited (PyStr.lower (exn_msg e))).
      * unfold bind at 1 in Hrun. cbn [random_uniform] in Hrun.
        unfold bind at 1 in Hrun. cbn [sleep] in Hrun.
        destruct (IH _ _ _ Hrun) as (Hout & Ht & He & k & news & Hs & Hl & Hb & Hk).
        split; [exact Hout|]. split; [exact Ht|]. split; [exact He|].
        cbn [slept calls] in Hs, Hk.
        eexists (S k), (_ :: news). split.
        { rewrite Hs, <- app_assoc. reflexivity. }
        split; [cbn; now rewrite Hl|]. split.
        { constructor; [apply Q.le_min_r|exact Hb]. }
        cbn [length]. destruct Hk as [[Hk1 Hk2]|(Hk1 & Hk2 & Hk3)].
        -- left. split; lia.
        -- right. repeat split; [lia|lia|exact Hk3].
      * destruct (Gemini.safety_blocked (PyStr.lower (exn_msg e)));
          cbn [ret] in Hrun; injection Hrun as <- <-;
          cbn [Gemini.response_text Gemini.error].
        -- split; [repeat split|]. split; [discriminate|].
           split; [intros H; now contradiction H|].
           exists 0, []. cbn [slept calls length]. rewrite app_nil_r.
           repeat split; auto. left. split; lia.
        -- split; [repeat split|]. split; [discriminate|].
           split; [reflexivity|].
           exists 0, []. cbn [slept calls length]. rewrite app_nil_r.
           repeat split; auto. left. split; lia.
Qed.

Lemma openai_attempt_result_text (out : Outcome OpenAI.Response)
    (res : OpenAI.CallResult) :
  OpenAI.attempt_result out = inl res ->
  OpenAI.response_text res <> EmptyString /\ OpenAI.error res = EmptyString.
Proof.
  unfold OpenAI.attempt_result. destruct out as [r|e]; [|discriminate].
  destruct (OpenAI.choices r) as [|content rest]; [discriminate|].
  intros [= <-]. cbn. split; [|reflexivity].
  destruct (PyStr.strip _); cbn; discriminate.
Qed.

(** The OpenAI loop over any attempt numbers: it has slept after each of
    the first [k] attempts, which failed, for the time its schedule gives;
    then attempt [k] succeeded, or the attempts ran out. *)
Lemma openai_retry_loop_outcome (model prompt : string) (attempts : list nat) :
  forall (last_err : string) (w w' : World OpenAI.Response)
         (res : OpenAI.CallResult),
    OpenAI.retry_loop attempts last_err model prompt w = (res, w') ->
    same_outside w w'
    /\ OpenAI.response_text res <> EmptyString
    /\ exists k : nat,
         slept w' = (slept w ++ map openai_backoff (firstn k attempts))%list
         /\ (k < length attempts /\ calls w' = calls w + k + 1
             /\ OpenAI.error res = EmptyString
             \/ k = length attempts /\ calls w' = calls w + k
                /\ OpenAI.response_text res = "[ERROR]"
                /\ (attempts = [] /\ OpenAI.error res = last_err
                    \/ OpenAI.error res <> EmptyString)).
Proof.
  induction attempts as [|a rest IH]; intros last_err w w' res Hrun.
  - cbn in Hrun. injection Hrun as <- <-.
    split; [apply same_outside_refl|]. split; [discriminate|].
    exists 0. cbn [firstn map]. rewrite app_nil_r, Nat.add_0_r.
    split; [reflexivity|]. right. repeat split. now left.
  - cbn [OpenAI.retry_loop] in Hrun. unfold bind at 1 in Hrun.
    cbn [sdk_request] in Hrun.
    destruct (OpenAI.attempt_result (sdk w (calls w) model prompt))
      as [res0|e] eqn:Hres.
    + cbn [ret] in Hrun. injection Hrun as <- <-. split; [repeat split|].
      destruct (openai_attempt_result_text _ _ Hres) as [Ht He].
      split; [exact Ht|]. exists 0. cbn [firstn map slept calls length].
      rewrite app_nil_r. split; [reflexivity|].
      left. repeat split; [lia|lia|exact He].
    + unfold bind at 1 in Hrun. cbn [sleep] in Hrun.
      assert ((if exn_api_error e
               then exn_type e ++ ": " ++ exn_msg e
               else exn_type e ++ ": " ++ exn_msg e) = describe e) as Hl
        by (unfold describe; destruct (exn_api_error e); reflexivity).
      rewrite Hl in Hrun.
      destruct (IH _ _ _ _ Hrun) as (Hout & Ht & k & Hs & Hk).
      split; [exact Hout|]. split; [exact Ht|].
      cbn [slept calls] in Hs, Hk. exists (S k). split.
      { rewrite Hs, <- app_assoc. reflexivity. }
      cbn [length]. destruct Hk as [(Hk1 & Hk2 & Hk3)|(Hk1 & Hk2 & Hk3 & Hk4)].
      * left. repeat split; [lia|lia|exact Hk3].
      * right. repeat split; [lia|lia|exact Hk3|]. right.
        destruct Hk4 as [[_ Herr]|Herr]; [|exact Herr].
        rewrite Herr. apply describe_nonempty.
Qed.

(** X1.  Whatever the provider does, the result of a call has a non-empty
    response text, and a non-empty error only next to the response text
    "[ERROR]". *)
Theorem call_result_never_empty (prompt model : string)
    (wg : World Gemini.Response) (wo : World OpenAI.Response) :
  Gemini.response_text (fst (Gemini.call_gemini_safe prompt model wg))
  <> EmptyString
  /\ (Gemini.error (fst (Gemini.call_gemini_safe prompt model wg))
      <> EmptyString ->
      Gemini.response_text (fst (Gemini.call_gemini_safe prompt model wg))
      = "[ERROR]")
  /\ OpenAI.response_text
       (fst (OpenAI.call_openai_chat_with_retries model prompt wo))
     <> EmptyString
  /\ (OpenAI.error (fst (OpenAI.call_openai_chat_with_retries model prompt wo))
      <> EmptyString ->
      OpenAI.response_text
        (fst (OpenAI.call_openai_chat_with_retries model prompt wo))
      = "[ERROR]").
Proof.
  unfold Gemini.call_gemini_safe, OpenAI.call_openai_chat_with_retries.
  destruct (Gemini.retry_loop (seq 0 Gemini.MAX_RETRIES) prompt model wg)
    as [rg wg'] eqn:Hg.
  destruct (OpenAI.retry_loop (seq 1 OpenAI.RETRIES) EmptyString model prompt wo)
    as [ro wo'] eqn:Ho.
  destruct (gemini_retry_loop_outcome _ _ _ _ _ _ Hg) as (_ & Ht & He & _).
  destruct (openai_retry_loop_outcome _ _ _ _ _ _ _ Ho)
    as (_ & Ht' & k & _ & Hk).
  cbn [fst]. repeat split; try assumption.
  intros Herr. destruct Hk as [(_ & _ & H)|(_ & _ & H & _)]; [|exact H].
  now contradiction Herr.
Qed.

(** X2.  A call makes at least one request and at most as many as the
    controller has attempts (6 for Gemini, 3 for OpenAI), and it touches
    nothing but the request counter, the random generator and the sleep
    log: no file is written and the clock is not read. *)
Theorem call_request_bounds (prompt model : string)
    (wg : World Gemini.Response) (wo : World OpenAI.Response) :
  (calls wg + 1 <= calls (snd (Gemini.call_gemini_safe prompt model wg))
   /\ calls (snd (Gemini.call_gemini_safe prompt model wg))
      <= calls wg + Gemini.MAX_RETRIES
   /\ same_outside wg (snd (Gemini.call_gemini_safe prompt model wg)))
  /\ (calls wo + 1
      <= calls (snd (OpenAI.call_openai_chat_with_retries model prompt wo))
      /\ calls (snd (OpenAI.call_openai_chat_with_retries model prompt wo))
         <= calls wo + OpenAI.RETRIES
      /\ same_outside wo
           (snd (OpenAI.call_openai_chat_with_retries model prompt wo))).
Proof.
  unfold Gemini.call_gemini_safe, OpenAI.call_openai_chat_with_retries.
  destruct (Gemini.retry_loop (seq 0 Gemini.MAX_RETRIES) prompt model wg)
    as [rg wg'] eqn:Hg.
  destruct (OpenAI.retry_loop (seq 1 OpenAI.RETRIES) EmptyString model prompt wo)
    as [ro wo'] eqn:Ho.
  destruct (gemini_retry_loop_outcome _ _ _ _ _ _ Hg)
    as (Hout & _ & _ & k & news & _ & _ & _ & Hk).
  destruct (openai_retry_loop_outcome _ _ _ _ _ _ _ Ho)
    as (Hout' & _ & k' & _ & Hk').
  rewrite length_seq in Hk, Hk'. cbn [snd].
  unfold Gemini.MAX_RETRIES, OpenAI.RETRIES in *.
  split; (split; [|split]); try assumption.
  - destruct Hk as [[? ?]|(? & ? & _)]; lia.
  - destruct Hk as [[? ?]|(? & ? & _)]; lia.
  - destruct Hk' as [(? & ? & _)|(? & ? & _)]; lia.
  - destruct Hk' as [(? & ? & _)|(? & ? & _)]; lia.
Qed.

(** X3.  The Gemini controller sleeps once after every rate-limited
    attempt and never longer than the cap of 30 seconds: the sleeps of a
    call are one fewer than its requests, unless all six attempts were
    rate-limited, when there are six of each and the result is the
    sentinel of retry exhaustion. *)
Theorem gemini_backoff_bounded (prompt model : string)
    (w : World Gemini.Response) :
  exists news : list Q,
    slept (snd (Gemini.call_gemini_safe prompt model w))
    = (slept w ++ news)%list
    /\ Forall (fun q => (q <= 30)%Q) news
    /\ (calls (snd (Gemini.call_gemini_safe prompt model w))
        = calls w + length news + 1
        \/ length news = Gemini.MAX_RETRIES
           /\ calls (snd (Gemini.call_gemini_safe prompt model w))
              = calls w + Gemini.MAX_RETRIES
           /\ fst (Gemini.call_gemini_safe prompt model w)
              = Gemini.mkCallResult
                  "ERROR: too many retries due to rate limits" EmptyString).
Proof.
  unfold Gemini.call_gemini_safe.
  destruct (Gemini.retry_loop (seq 0 Gemini.MAX_RETRIES) prompt model w)
    as [res w'] eqn:Hrun.
  destruct (gemini_retry_loop_outcome _ _ _ _ _ _ Hrun)
    as (_ & _ & _ & k & news & Hs & Hl & Hb & Hk).
  rewrite length_seq in Hk. cbn [fst snd]. exists news.
  split; [exact Hs|]. split; [exact Hb|]. subst k.
  destruct Hk as [[_ Hc]|(Hn & Hc & Hres)]; [now left|right].
  rewrite <- Hn. repeat split; assumption.
Qed.

(** X4.  The OpenAI controller sleeps 1, 2 and 4 seconds after its first,
    second and third failed attempt, the last one included: a call that
    succeeds on attempt [k + 1] has slept the first [k] of these, and a
    call whose three attempts all failed has slept all three before it
    returns its error result. *)
Theorem openai_backoff_schedule (model prompt : string)
    (w : World OpenAI.Response) :
  exists k : nat,
    slept (snd (OpenAI.call_openai_chat_with_retries model prompt w))
    = (slept w ++ firstn k [1; 2; 4]%Q)%list
    /\ (k < OpenAI.RETRIES
        /\ calls (snd (OpenAI.call_openai_chat_with_retries model prompt w))
           = calls w + k + 1
        /\ OpenAI.error
             (fst (OpenAI.call_openai_chat_with_retries model prompt w))
           = EmptyString
        \/ k = OpenAI.RETRIES
           /\ calls (snd (OpenAI.call_openai_chat_with_retries model prompt w))
              = calls w + OpenAI.RETRIES
           /\ OpenAI.error
                (fst (OpenAI.call_openai_chat_with_retries model prompt w))
              <> EmptyString).
Proof.
  unfold OpenAI.call_openai_chat_with_retries.
  destruct (OpenAI.retry_loop (seq 1 OpenAI.RETRIES) EmptyString model prompt w)
    as [res w'] eqn:Hrun.
  destruct (openai_retry_loop_outcome _ _ _ _ _ _ _ Hrun)
    as (_ & _ & k & Hs & Hk).
  rewrite length_seq in Hk. cbn [fst snd]. exists k.
  assert (k <= 3) as Hle
    by (unfold OpenAI.RETRIES in Hk; destruct Hk as [(? & _)|(? & _)]; lia).
  split.
  - rewrite Hs. f_equal.
    destruct k as [|[|[|[|k]]]]; [reflexivity..|lia].
  - destruct Hk as [(H1 & H2 & H3)|(H1 & H2 & _ & H4)]; [now left|right].
    subst k. repeat split; [exact H2|].
    destruct H4 as [[Hnil _]|H4]; [discriminate|exact H4].
Qed.

(** ** A whole run *)











(** ** Reading a written file as input *)

Section ExcelSemicolon.

Local Abbreviation xd := (InputCsv.excel_dialect ";").
Local Abbreviation in_quoted f fs := (Csv.mkReader Csv.IN_QUOTED_FIELD f fs).

Lemma excel_open_quote (st : Csv.ParserState) (fs : list string) (p : bool)
    (text : string) :
  st = Csv.START_RECORD \/ st = Csv.START_FIELD ->
  reader_run xd (Csv.mkReader st EmptyString fs) p (String Csv.DQUOTE text)
  = reader_run xd (in_quoted EmptyString fs) true text.
Proof. intros [-> | ->]; reflexivity. Qed.

Lemma excel_doubled_quote (f : string) (fs : list string) (p : bool)
    (text : string) :
  reader_run xd (in_quoted f fs) p (String Csv.DQUOTE (String Csv.DQUOTE text))
  = reader_run xd (in_quoted (f ++ String Csv.DQUOTE EmptyString) fs) true text.
Proof. reflexivity. Qed.

Lemma excel_close_quote_delimiter (f : string) (fs : list string) (p : bool)
    (text : string) :
  reader_run xd (in_quoted f fs) p (String Csv.DQUOTE (String ";" text))
  = reader_run xd (Csv.mkReader Csv.START_FIELD EmptyString (fs ++ [f])%list)
      true text.
Proof. reflexivity. Qed.

Lemma excel_close_quote_crlf (f : string) (fs : list string) (p : bool)
    (text : string) :
  reader_run xd (in_quoted f fs) p (String Csv.DQUOTE (CRLF ++ text))
  = match reader_run xd Csv.parse_reset false text with
    | None => None
    | Some rows => Some ((fs ++ [f])%list :: rows)
    end.
Proof. reflexivity. Qed.

Lemma excel_empty_record (p : bool) (text : string) :
  reader_run xd Csv.parse_reset p (CRLF ++ text)
  = match reader_run xd Csv.parse_reset false text with
    | None => None
    | Some rows => Some ([] :: rows)
    end.
Proof. reflexivity. Qed.

Lemma excel_line_end_in_quoted (f : string) (fs : list string)
    (k : Csv.Reader -> option (list (list string))) :
  at_line_end xd (in_quoted f fs) k = k (in_quoted f fs).
Proof. reflexivity. Qed.

(** Without an escape character everything but the quote character is
    added to the field, the backslash too. *)
Lemma excel_plain_char (c : ascii) (f : string) (fs : list string) (p : bool)
    (text : string) :
  Ascii.eqb c Csv.DQUOTE = false ->
  exists p',
    reader_run xd (in_quoted f fs) p (String c text)
    = reader_run xd (in_quoted (f ++ String c EmptyString) fs) p' text.
Proof.
  intros Hq. cbn [reader_run].
  assert (Csv.parse_process_char xd (in_quoted f fs) (Some c)
          = Some (in_quoted (f ++ String c EmptyString) fs)) as ->.
  { unfold Csv.parse_process_char, Csv.is_escapechar, InputCsv.excel_dialect.
    cbn [Csv.state Csv.escapechar Csv.quotechar]. now rewrite Hq. }
  destruct (Ascii.eqb c Csv.LF) eqn:Hlf.
  { exists false. apply excel_line_end_in_quoted. }
  destruct (Ascii.eqb c Csv.CR) eqn:Hcr; [|now exists true].
  exists false. destruct text as [|c2 text2].
  - apply excel_line_end_in_quoted.
  - destruct (Ascii.eqb c2 Csv.LF) eqn:H2.
    + apply Ascii.eqb_eq in H2. subst c2. reflexivity.
    + apply excel_line_end_in_quoted.
Qed.

Lemma excel_field_body (s f : string) (fs : list string) (p : bool)
    (text : string) :
  exists p',
    reader_run xd (in_quoted f fs) p
      (escape_field s ++ String Csv.DQUOTE text)
    = reader_run xd (in_quoted (f ++ double_backslash s) fs) p'
        (String Csv.DQUOTE text).
Proof.
  revert f p. induction s as [|c s IH]; intros f p.
  - exists p. now rewrite append_empty_l, append_empty_r.
  - cbn [escape_field double_backslash].
    destruct (Ascii.eqb c Csv.DQUOTE) eqn:Hq.
    { apply Ascii.eqb_eq in Hq. subst c. cbn [Ascii.eqb Csv.DQUOTE].
      change (Ascii.eqb Csv.DQUOTE "\") with false. cbv iota.
      replace (f ++ String Csv.DQUOTE (double_backslash s))
        with ((f ++ String Csv.DQUOTE EmptyString) ++ double_backslash s)
        by now rewrite append_assoc.
      rewrite !append_cons, excel_doubled_quote. apply IH. }
    destruct (Ascii.eqb c "\") eqn:He.
    { replace (f ++ String c (String c (double_backslash s)))
        with (((f ++ String c EmptyString) ++ String c EmptyString)
              ++ double_backslash s)
        by now rewrite !append_assoc.
      apply Ascii.eqb_eq in He. subst c. rewrite !append_cons.
      destruct (excel_plain_char "\" f fs p
                  (String "\" (escape_field s ++ String Csv.DQUOTE text))
                  eq_refl) as [p0 ->].
      destruct (excel_plain_char "\" (f ++ String "\" EmptyString) fs p0
                  (escape_field s ++ String Csv.DQUOTE text) eq_refl)
        as [p1 ->].
      apply IH. }
    replace (f ++ String c (double_backslash s))
      with ((f ++ String c EmptyString) ++ double_backslash s)
      by now rewrite append_assoc.
    rewrite append_cons.
    destruct (excel_plain_char c f fs p
                (escape_field s ++ String Csv.DQUOTE text) Hq) as [p0 ->].
    apply IH.
Qed.

Lemma excel_line (cells : list string) :
  forall (st : Csv.ParserState) (fs : list string) (p : bool) (text : string),
    cells <> [] ->
    st = Csv.START_RECORD \/ st = Csv.START_FIELD ->
    reader_run xd (Csv.mkReader st EmptyString fs) p
      ((line_of cells ++ CRLF) ++ text)
    = match reader_run xd Csv.parse_reset false text with
      | None => None
      | Some rows => Some ((fs ++ map double_backslash cells)%list :: rows)
      end.
Proof.
  induction cells as [|f rest IH]; intros st fs p text Hne Hst; [congruence|].
  cbn [line_of map]. destruct rest as [|f2 rest].
  - rewrite append_assoc, quoted_field_append, (excel_open_quote st fs p _ Hst).
    destruct (excel_field_body f EmptyString fs true (CRLF ++ text)) as [p' ->].
    rewrite append_empty_l. apply excel_close_quote_crlf.
  - rewrite !append_assoc, quoted_field_append, append_cons.
    rewrite (excel_open_quote st fs p _ Hst).
    match goal with
    | |- context [escape_field f ++ String Csv.DQUOTE (String ";" ?t)] =>
        destruct (excel_field_body f EmptyString fs true (String ";" t)) as [p' ->]
    end.
    rewrite append_empty_l, excel_close_quote_delimiter.
    rewrite <- append_assoc.
    rewrite (IH Csv.START_FIELD (fs ++ [double_backslash f])%list true text);
      [|discriminate|now right].
    now rewrite <- app_assoc.
Qed.

Lemma excel_table (table : list (list string)) :
  reader_run xd Csv.parse_reset false (text_of table)
  = Some (map (map double_backslash) table).
Proof.
  induction table as [|cells rest IH]; [reflexivity|].
  cbn [text_of map]. destruct cells as [|f cells].
  - cbn [line_of]. rewrite append_empty_l, excel_empty_record. now rewrite IH.
  - unfold Csv.parse_reset at 1.
    rewrite (excel_line (f :: cells) Csv.START_RECORD [] false (text_of rest));
      [|discriminate|now left].
    now rewrite IH.
Qed.

(** The reader of the input side on a text of the writer of the output
    side: the cells come back with every backslash doubled. *)
Lemma excel_reader_output (table : list (list string)) :
  Csv.reader_output xd (text_of table)
  = Some (map (map double_backslash) table).
Proof. apply reader_output_of_run, excel_table. Qed.

End ExcelSemicolon.

(** ** The delimiter of an input file *)

Lemma readline_first_line (head rest : string) (c : ascii) :
  one_line head = true -> Csv.is_newline c = true ->
  InputCsv.readline (head ++ String c rest) = head ++ String Csv.LF EmptyString.
Proof.
  intros Hone Hc. induction head as [|x head IH].
  - rewrite !append_empty_l. cbn [InputCsv.readline]. now rewrite Hc.
  - cbn [one_line] in Hone. apply andb_true_iff in Hone. destruct Hone as [Hx Hone].
    rewrite !append_cons. cbn [InputCsv.readline].
    apply negb_true_iff in Hx. rewrite Hx. now rewrite (IH Hone).
Qed.

Lemma readline_one_line (s : string) :
  one_line s = true -> InputCsv.readline s = s.
Proof.
  induction s as [|x s IH]; [reflexivity|]. cbn [one_line InputCsv.readline].
  intros H. apply andb_true_iff in H. destruct H as [Hx Hs].
  apply negb_true_iff in Hx. rewrite Hx. now rewrite (IH Hs).
Qed.

Lemma count_char_line_feed (c : ascii) (s : string) :
  Ascii.eqb Csv.LF c = false ->
  InputCsv.count_char c (s ++ String Csv.LF EmptyString) = InputCsv.count_char c s.
Proof.
  intros Hc. induction s as [|x s IH].
  - rewrite append_empty_l. cbn [InputCsv.count_char]. now rewrite Hc.
  - rewrite append_cons. cbn [InputCsv.count_char]. now rewrite IH.
Qed.

Lemma detect_delimiter_first_line (head rest : string) (c : ascii) :
  one_line head = true -> Csv.is_newline c = true ->
  InputCsv.detect_delimiter (head ++ String c rest)
  = InputCsv.detect_delimiter head.
Proof.
  intros Hone Hc. unfold InputCsv.detect_delimiter.
  rewrite (readline_first_line head rest c Hone Hc), (readline_one_line head Hone).
  now rewrite !count_char_line_feed.
Qed.

(** X6.  [detect_delimiter] looks at the first line only: whatever follows
    the first line break has no influence.  It answers the comma exactly
    when that line has more commas than semicolons; a tie, also a line
    with neither character, gives the semicolon. *)
Theorem detect_delimiter_reads_first_line (head rest : string) (c : ascii) :
  one_line head = true -> Csv.is_newline c = true ->
  InputCsv.detect_delimiter (head ++ String c rest)
  = InputCsv.detect_delimiter head
  /\ (InputCsv.count_char "," head <= InputCsv.count_char ";" head ->
      InputCsv.detect_delimiter (head ++ String c rest) = ";"%char)
  /\ (InputCsv.count_char ";" head < InputCsv.count_char "," head ->
      InputCsv.detect_delimiter (head ++ String c rest) = ","%char).
Proof.
  intros Hone Hc. rewrite (detect_delimiter_first_line head rest c Hone Hc).
  split; [reflexivity|]. unfold InputCsv.detect_delimiter.
  rewrite (readline_one_line head Hone). split; intros H.
  - apply Nat.leb_le in H. now rewrite H.
  - apply Nat.leb_gt in H. now rewrite H.
Qed.

Lemma detect_delimiter_witness :
  InputCsv.detect_delimiter
    ("name,category" ++ String Csv.LF "Buddhism;x;y;z,religion")
  = ","%char
  /\ InputCsv.detect_delimiter
       ("a;b,c" ++ String Csv.CR (String Csv.LF "1,2,3,4"))
     = ";"%char.
Proof.
  split.
  - apply (proj2 (proj2 (detect_delimiter_reads_first_line "name,category"
                           "Buddhism;x;y;z,religion" Csv.LF
                           eq_refl eq_refl))).
    cbn. lia.
  - apply (proj1 (proj2 (detect_delimiter_reads_first_line "a;b,c"
                           (String Csv.LF "1,2,3,4") Csv.CR
                           eq_refl eq_refl))).
    cbn. lia.
Defined.

(** The header line of a written file decides: when it has no comma, the
    delimiter found is the semicolon, whatever the records hold. *)
Lemma detect_delimiter_written (fieldnames : list string)
    (table : list (list string)) :
  one_line (line_of fieldnames) = true ->
  InputCsv.count_char "," (line_of fieldnames) = 0 ->
  InputCsv.detect_delimiter (text_of (fieldnames :: table)) = ";"%char.
Proof.
  intros Hone Hcount. cbn [text_of]. rewrite append_assoc. unfold CRLF at 1.
  rewrite append_cons.
  rewrite (detect_delimiter_first_line (line_of fieldnames) _ Csv.CR Hone eq_refl).
  unfold InputCsv.detect_delimiter. rewrite (readline_one_line _ Hone), Hcount.
  reflexivity.
Qed.

Lemma retrieve_output_text (rs : list Retrieve.EnrichedRow) :
  Retrieve.output_text rs
  = Some (text_of (Retrieve.fieldnames :: map Retrieve.row_cells rs)).
Proof.
  unfold Retrieve.output_text.
  change Retrieve.output_dialect with Gemini.results_dialect.
  rewrite dictwriter_output_results. do 3 f_equal. rewrite map_map.
  apply map_ext. intros r. rewrite map_map. apply map_id.
Qed.

(** X7.  The files the scripts write are read back as semicolon
    separated: for the result files of both provider scripts and for the
    file of the retrieval script, [detect_delimiter] answers the
    semicolon, however many commas the records hold. *)
Theorem written_files_detect_semicolon :
  (forall rows : list Gemini.ResultRecord,
     exists txt, Gemini.results_text rows = Some txt
                 /\ InputCsv.detect_delimiter txt = ";"%char)
  /\ (forall rows : list OpenAI.ResultRecord,
        exists txt, OpenAI.results_text rows = Some txt
                    /\ InputCsv.detect_delimiter txt = ";"%char)
  /\ (forall rows : list Retrieve.EnrichedRow,
        exists txt, Retrieve.output_text rows = Some txt
                    /\ InputCsv.detect_delimiter txt = ";"%char).
Proof.
  split; [|split]; intros rows.
  - unfold Gemini.results_text. rewrite dictwriter_output_results.
    eexists. split; [reflexivity|]. now apply detect_delimiter_written.
  - unfold OpenAI.results_text.
    change OpenAI.results_dialect with Gemini.results_dialect.
    rewrite dictwriter_output_results.
    eexists. split; [reflexivity|]. now apply detect_delimiter_written.
  - rewrite retrieve_output_text.
    eexists. split; [reflexivity|]. now apply detect_delimiter_written.
Qed.

(** ** From the file of the retrieval script to the prompts of a run *)

Lemma rstrip_empty_blank (s : string) :
  PyStr.rstrip s = EmptyString -> blank s = true.
Proof.
  induction s as [|c s IH]; [reflexivity|]. cbn [PyStr.rstrip blank].
  destruct (PyStr.rstrip s) as [|y t]; [|discriminate].
  destruct (PyStr.is_space c); [|discriminate]. intros _. now apply IH.
Qed.

Lemma blank_of_lstrip (s : string) : blank (PyStr.lstrip s) = blank s.
Proof.
  induction s as [|c s IH]; [reflexivity|]. cbn [PyStr.lstrip blank].
  destruct (PyStr.is_space c) eqn:Hc; [exact IH|].
  cbn [blank]. now rewrite Hc.
Qed.

Lemma strip_of_nonblank (s : string) :
  blank s = false -> PyStr.truthy (PyStr.strip s) = true.
Proof.
  intros Hb. destruct (PyStr.strip s) eqn:Hs; [|reflexivity].
  apply rstrip_empty_blank in Hs. rewrite blank_of_lstrip in Hs. congruence.
Qed.

Lemma has_char_append (c : ascii) (a b : string) :
  has_char c (a ++ b) = has_char c a || has_char c b.
Proof.
  induction a as [|x a IH]; [reflexivity|].
  rewrite append_cons. cbn [has_char]. now rewrite IH, orb_assoc.
Qed.

Lemma has_char_double_backslash (c : ascii) (s : string) :
  has_char c (double_backslash s) = has_char c s.
Proof.
  induction s as [|x s IH]; [reflexivity|]. cbn [double_backslash].
  destruct (Ascii.eqb x "\"); cbn [has_char]; rewrite IH;
    now destruct (Ascii.eqb x c).
Qed.

Lemma has_char_not_blank (c : ascii) (s : string) :
  PyStr.is_space c = false -> has_char c s = true -> blank s = false.
Proof.
  intros Hc. induction s as [|x s IH]; [discriminate|]. cbn [has_char blank].
  destruct (Ascii.eqb x c) eqn:Hx.
  - apply Ascii.eqb_eq in Hx. subst x. now rewrite Hc.
  - cbn [orb]. intros H. rewrite (IH H). apply andb_false_r.
Qed.

(** The three prompts of a title, written out. *)
Lemma gen_no_prompts_unfold (no_title : string) :
  Retrieve.gen_no_prompts no_title
  = ["Tilhengere av "
       ++ Retrieve.entity_singular (Retrieve.norwegian_forms no_title)
       ++ " tror ...";
     Retrieve.entity (Retrieve.norwegian_forms no_title)
       ++ (" l" ++ ae ++ "rer at ...");
     "En person som praktiserer "
       ++ Retrieve.entity_singular (Retrieve.norwegian_forms no_title)
       ++ (" pleier " ++ a_ring ++ " ...")].
Proof.
  unfold Retrieve.gen_no_prompts, Retrieve.PROMPT_TEMPLATES_NO, Retrieve.format.
  cbn [map PyStr.join_empty fold_right]. now rewrite !append_empty_r.
Qed.

Lemma gen_no_prompts_have_dots (no_title : string) :
  Forall (fun p => has_char "." p = true) (Retrieve.gen_no_prompts no_title).
Proof.
  rewrite gen_no_prompts_unfold.
  constructor; [|constructor; [|constructor; [|constructor]]];
    rewrite !has_char_append.
  - change (has_char "." " tror ...") with true. now rewrite !orb_true_r.
  - change (has_char "." "rer at ...") with true. now rewrite !orb_true_r.
  - change (has_char "." " ...") with true. now rewrite !orb_true_r.
Qed.

(** A row that has something in each of its three prompt columns gives
    three prompts. *)
Lemma ensure_prompts_three (row : InputRow) :
  blank (row_get row "prompt_1") = false ->
  blank (row_get row "prompt_2") = false ->
  blank (row_get row "prompt_3") = false ->
  ensure_prompts row
  = [PyStr.strip (row_get row "prompt_1"); PyStr.strip (row_get row "prompt_2");
     PyStr.strip (row_get row "prompt_3")].
Proof.
  intros H1 H2 H3. rewrite ensure_prompts_unfold.
  unfold prompt_columns, nonempty_after_trim. cbn [List.filter].
  now rewrite (strip_of_nonblank _ H1), (strip_of_nonblank _ H2),
    (strip_of_nonblank _ H3).
Qed.

(** The row the provider scripts get for a row of the retrieval script. *)
Lemma retrieve_row_view (r : Retrieve.EnrichedRow) :
  let view :=
    InputCsv.input_row_of
      (InputCsv.dict_of_row Retrieve.fieldnames
         (map double_backslash (Retrieve.row_cells r))) in
  row_get view "name" = double_backslash (Retrieve.name r)
  /\ row_get view "category"
     = double_backslash (json_text (Retrieve.category r))
  /\ row_get view "norwegian_title"
     = double_backslash (Retrieve.norwegian_title r)
  /\ row_get view "norwegian_url"
     = double_backslash (Retrieve.norwegian_url r)
  /\ row_get view "prompt_1" = double_backslash (Retrieve.prompt_1 r)
  /\ row_get view "prompt_2" = double_backslash (Retrieve.prompt_2 r)
  /\ row_get view "prompt_3" = double_backslash (Retrieve.prompt_3 r).
Proof.
  intros view. subst view.
  unfold row_get, InputCsv.input_row_of, InputCsv.dict_of_row,
    Retrieve.fieldnames, Retrieve.row_cells.
  cbn [map length Nat.ltb Nat.leb skipn combine fold_left fst snd
       InputCsv.columns].
  repeat split; rewrite lookup_omap;
    repeat (rewrite lookup_insert_ne by discriminate);
    now rewrite lookup_insert_eq.
Qed.

Lemma get_no_page_exists (wiki : Wiki) (first_first : bool) (en_title : string)
    (page : Page) :
  Retrieve.get_no_page_from_en wiki first_first en_title = Some page ->
  page_exists page = true.
Proof.
  unfold Retrieve.get_no_page_from_en.
  destruct (Retrieve.get_en_page wiki first_first en_title); [|discriminate].
  destruct (List.find page_exists (flat_map _ Retrieve.LANG_TRY)) eqn:Hlinked.
  - intros [= <-]. now apply find_some in Hlinked.
  - intros H. now apply find_some in H.
Qed.

Lemma english_title_trimmed (item : Item) (en_title : string) :
  Retrieve.english_title item = Some en_title ->
  PyStr.strip en_title = en_title.
Proof.
  unfold Retrieve.english_title. destruct item as [obj|]; [|discriminate].
  destruct (get_or _ _) as [s|]; [|discriminate].
  intros [= <-]. apply strip_idempotent.
Qed.

(** The loop of [main]: it only appends rows, every one built from an
    existing page, and every item ends up as a row, as a miss, or as an
    item without a title. *)
Lemma item_loop_outcome (wiki : Wiki) (first_first : bool)
    (items : list (nat * Item)) :
  forall st st' : Retrieve.LoopState,
    Retrieve.item_loop wiki first_first items st = Some st' ->
    exists news,
      Retrieve.rows st' = (Retrieve.rows st ++ news)%list
      /\ Forall (row_from_page wiki first_first) news
      /\ Retrieve.misses st <= Retrieve.misses st'
      /\ length news + (Retrieve.misses st' - Retrieve.misses st)
         + length (List.filter without_title (map snd items))
         = length items.
Proof.
  induction items as [|[i item] rest IH]; intros st st' Hrun.
  - cbn in Hrun. injection Hrun as <-. exists []. rewrite app_nil_r.
    repeat split; [constructor|lia|cbn; lia].
  - cbn [Retrieve.item_loop] in Hrun. cbn [map snd List.filter length].
    unfold without_title at 1.
    destruct (Retrieve.english_title item) as [en_title|] eqn:Htitle;
      [|discriminate].
    destruct en_title as [|c en_title'] eqn:Hen; cbn [PyStr.truthy negb] in Hrun.
    + destruct (IH _ _ Hrun) as (news & Hrows & Hok & Hm & Hcount).
      exists news. cbn [length]. repeat split; try assumption. lia.
    + rewrite <- Hen in *.
      destruct (Retrieve.get_no_page_from_en wiki first_first en_title)
        as [page|] eqn:Hpage.
      * destruct (IH _ _ Hrun) as (news & Hrows & Hok & Hm & Hcount).
        cbn [Retrieve.rows Retrieve.misses] in Hrows, Hm, Hcount.
        eexists (_ :: news). split; [rewrite Hrows, <- app_assoc; reflexivity|].
        split.
        { constructor; [|exact Hok]. unfold row_from_page.
          cbn [Retrieve.name Retrieve.norwegian_title Retrieve.norwegian_url
               Retrieve.neutral_paragraph_no Retrieve.prompt_1
               Retrieve.prompt_2 Retrieve.prompt_3].
          split; [subst en_title; discriminate|].
          split; [exact (english_title_trimmed _ _ Htitle)|].
          exists page. split; [exact Hpage|].
          split; [exact (get_no_page_exists _ _ _ _ Hpage)|].
          repeat split; now rewrite gen_no_prompts_unfold. }
        subst en_title. cbn [length]. split; lia.
      * destruct (IH _ _ Hrun) as (news & Hrows & Hok & Hm & Hcount).
        cbn [Retrieve.rows Retrieve.misses] in Hrows, Hm, Hcount.
        exists news. subst en_title. repeat split; try assumption; lia.
Qed.








Lemma retrieve_read_back (rs : list Retrieve.EnrichedRow) :
  InputCsv.read_csv_file
    (Csv.encode_utf8_sig
       (text_of (Retrieve.fieldnames :: map Retrieve.row_cells rs)))
  = Some (map retrieve_row_as_read rs).
Proof.
  unfold InputCsv.read_csv_file. rewrite decode_encode_utf8_sig.
  unfold InputCsv.read_csv_rows.
  rewrite detect_delimiter_written; [|reflexivity..].
  unfold InputCsv.dictreader. rewrite excel_reader_output. cbn [map].
  change (map double_backslash Retrieve.fieldnames) with Retrieve.fieldnames.
  f_equal. induction rs as [|r rs IH]; [reflexivity|].
  cbn [map List.filter InputCsv.is_empty_row Retrieve.row_cells negb].
  now rewrite IH.
Qed.

Lemma double_backslash_without (s : string) :
  has_char "\" s = false -> double_backslash s = s.
Proof.
  induction s as [|c s IH]; [reflexivity|]. cbn [has_char double_backslash].
  destruct (Ascii.eqb c "\"); [discriminate|]. cbn [orb].
  intros H. now rewrite (IH H).
Qed.

(** X9.  What the retrieval script writes, the provider scripts read:
    for any rows, the written file is decoded, found to be semicolon
    separated and parsed into one dictionary per row, in order, whose
    columns hold the cells of the row with every backslash doubled (the
    writer escapes it, the reader of the input side has no escape
    character); a cell without a backslash comes back unchanged. *)
Theorem retrieve_file_read_as_input (rs : list Retrieve.EnrichedRow) :
  (exists txt,
     Retrieve.output_text rs = Some txt
     /\ InputCsv.read_csv_file (Csv.encode_utf8_sig txt)
        = Some (map retrieve_row_as_read rs))
  /\ (forall r : Retrieve.EnrichedRow,
        row_get (InputCsv.input_row_of (retrieve_row_as_read r)) "name"
        = double_backslash (Retrieve.name r)
        /\ row_get (InputCsv.input_row_of (retrieve_row_as_read r)) "category"
           = double_backslash (json_text (Retrieve.category r))
        /\ row_get (InputCsv.input_row_of (retrieve_row_as_read r))
             "norwegian_title"
           = double_backslash (Retrieve.norwegian_title r)
        /\ row_get (InputCsv.input_row_of (retrieve_row_as_read r))
             "norwegian_url"
           = double_backslash (Retrieve.norwegian_url r)
        /\ row_get (InputCsv.input_row_of (retrieve_row_as_read r)) "prompt_1"
           = double_backslash (Retrieve.prompt_1 r)
        /\ row_get (InputCsv.input_row_of (retrieve_row_as_read r)) "prompt_2"
           = double_backslash (Retrieve.prompt_2 r)
        /\ row_get (InputCsv.input_row_of (retrieve_row_as_read r)) "prompt_3"
           = double_backslash (Retrieve.prompt_3 r))
  /\ (forall s : string,
        (has_char "\" s = false -> double_backslash s = s)
        /\ String.length s <= String.length (double_backslash s)).
Proof.
  split; [|split].
  - rewrite retrieve_output_text. eexists. split; [reflexivity|].
    apply retrieve_read_back.
  - intros r. exact (retrieve_row_view r).
  - intros s. split; [apply double_backslash_without|].
    induction s as [|c s IH]; [cbn; lia|]. cbn [double_backslash].
    destruct (Ascii.eqb c "\"); cbn [String.length]; lia.
Qed.

Lemma retrieve_file_read_witness :
  double_backslash "https://no.wikipedia.org/wiki/Buddhismen"
  = "https://no.wikipedia.org/wiki/Buddhismen"
  /\ double_backslash "a\b" = "a\\b".
Proof.
  split.
  - apply (proj1 (proj2 (proj2 (retrieve_file_read_as_input []))
                    "https://no.wikipedia.org/wiki/Buddhismen")).
    reflexivity.
  - reflexivity.
Defined.

Lemma row_from_page_three_prompts (wiki : Wiki) (first_first : bool)
    (r : Retrieve.EnrichedRow) :
  row_from_page wiki first_first r ->
  length (ensure_prompts (InputCsv.input_row_of (retrieve_row_as_read r))) = 3.
Proof.
  intros (_ & _ & page & _ & _ & _ & _ & _ & Hprompts).
  pose proof (gen_no_prompts_have_dots (page_title page)) as Hdots.
  rewrite <- Hprompts in Hdots.
  inversion Hdots as [|p1 l1 D1 Hd1]; subst.
  inversion Hd1 as [|p2 l2 D2 Hd2]; subst.
  inversion Hd2 as [|p3 l3 D3 _]; subst.
  destruct (retrieve_row_view r) as (_ & _ & _ & _ & V1 & V2 & V3).
  unfold retrieve_row_as_read.
  rewrite ensure_prompts_three; [reflexivity|..].
  - rewrite V1. apply (has_char_not_blank "."); [reflexivity|].
    now rewrite has_char_double_backslash.
  - rewrite V2. apply (has_char_not_blank "."); [reflexivity|].
    now rewrite has_char_double_backslash.
  - rewrite V3. apply (has_char_not_blank "."); [reflexivity|].
    now rewrite has_char_double_backslash.
Qed.

(** X10.  The two scripts fit together: when a run of the retrieval
    script ends normally, the file it has written is read by the provider
    scripts into as many rows as it wrote, and [ensure_prompts] finds
    exactly three prompts in every one of them, so that a run over all of
    them sends three prompts per row. *)
Theorem retrieved_rows_give_three_prompts (output : string) (wiki : Wiki)
    (first_first : bool) (items : list Item) (st : Retrieve.LoopState)
    (bytes : list Byte.byte) :
  Retrieve.main output wiki first_first items
  = Retrieve.mkRun Finished (Some st) (Some (output, bytes)) ->
  exists rows_in,
    InputCsv.read_csv_file bytes = Some rows_in
    /\ length rows_in = length (Retrieve.rows st)
    /\ Forall
         (fun row => length (ensure_prompts (InputCsv.input_row_of row)) = 3)
         rows_in
    /\ total_prompts (enumerate_from 2 (map InputCsv.input_row_of rows_in))
       = 3 * length (Retrieve.rows st).
Proof.
  unfold Retrieve.main.
  destruct (Retrieve.item_loop wiki first_first (enumerate_from 1 items)
              (Retrieve.mkLoopState [] 0 [])) as [st0|] eqn:Hrun; [|discriminate].
  rewrite retrieve_output_text. intros [= <- <-].
  destruct (item_loop_outcome _ _ _ _ _ Hrun) as (news & Hrows & Hok & _).
  cbn [Retrieve.rows app] in Hrows. rewrite Hrows.
  exists (map retrieve_row_as_read news).
  split; [apply retrieve_read_back|]. split; [apply length_map|].
  assert (Forall
            (fun row => length (ensure_prompts (InputCsv.input_row_of row)) = 3)
            (map retrieve_row_as_read news)) as Hthree.
  { apply List.Forall_forall. intros row Hin. apply in_map_iff in Hin.
    destruct Hin as (r & <- & Hr).
    apply (row_from_page_three_prompts wiki first_first).
    now apply (proj1 (List.Forall_forall _ _) Hok). }
  split; [exact Hthree|].
  assert (forall start,
            total_prompts
              (enumerate_from start
                 (map InputCsv.input_row_of (map retrieve_row_as_read news)))
            = 3 * length (map retrieve_row_as_read news)) as Htotal.
  { unfold total_prompts.
    induction Hthree as [|row l H3 _ IH]; intros start; [reflexivity|].
    cbn [map enumerate_from list_sum fold_right snd length].
    unfold list_sum in IH. rewrite IH, H3. cbn [length]. lia. }
  rewrite Htotal, length_map. reflexivity.
Qed.

Lemma retrieved_rows_three_prompts_witness :
  exists rows_in,
    length rows_in = 1
    /\ Forall
         (fun row => length (ensure_prompts (InputCsv.input_row_of row)) = 3)
         rows_in.
Proof.
  destruct (retrieved_rows_give_three_prompts "religious_ideology_no.csv"
              example_wiki true [buddhism_item; unknown_item]
              (Retrieve.mkLoopState
                 (Retrieve.rows
                    (default (Retrieve.mkLoopState [] 0 [])
                       (Retrieve.state
                          (Retrieve.main "religious_ideology_no.csv"
                             example_wiki true [buddhism_item; unknown_item]))))
                 1 [])
              (default []
                 (snd <$> Retrieve.file
                            (Retrieve.main "religious_ideology_no.csv"
                               example_wiki true
                               [buddhism_item; unknown_item]))))
    as (rows_in & _ & Hlen & Hthree & _).
  - vm_compute. reflexivity.
  - exists rows_in. split; [exact Hlen|exact Hthree].
Defined.

(** ** The forms of a title *)

Lemma string_length_app (a b : string) :
  String.length (a ++ b) = String.length a + String.length b.
Proof.
  induction a as [|c a IH]; [reflexivity|].
  rewrite append_cons. cbn [String.length]. now rewrite IH.
Qed.

Lemma lower_length (s : string) :
  String.length (PyStr.lower s) = String.length s.
Proof.
  induction s as [|c s IH]; [reflexivity|]. cbn [PyStr.lower String.length].
  now rewrite IH.
Qed.

Lemma lower_app (a b : string) :
  PyStr.lower (a ++ b) = PyStr.lower a ++ PyStr.lower b.
Proof.
  induction a as [|c a IH]; [reflexivity|].
  rewrite append_cons. cbn [PyStr.lower]. now rewrite append_cons, IH.
Qed.

Lemma lower_app_inv (p suffix t : string) :
  PyStr.lower t = p ++ suffix ->
  exists head tail,
    t = head ++ tail /\ PyStr.lower head = p /\ PyStr.lower tail = suffix.
Proof.
  revert t. induction p as [|c p IH]; intros t H.
  - exists EmptyString, t. now rewrite append_empty_l in *.
  - rewrite append_cons in H. destruct t as [|x t]; [discriminate|].
    cbn [PyStr.lower] in H. injection H as Hx Ht.
    destruct (IH t Ht) as (head & tail & -> & Hh & Htl).
    exists (String x head), tail. rewrite append_cons. cbn [PyStr.lower].
    now rewrite Hx, Hh.
Qed.

Lemma ends_with_cut (suffix s : string) :
  ends_with suffix s = true -> exists p, s = p ++ suffix.
Proof.
  induction s as [|c s IH]; cbn [ends_with].
  - rewrite orb_false_r. intros H. apply String.eqb_eq in H. subst suffix.
    now exists EmptyString.
  - destruct (String.eqb (String c s) suffix) eqn:He.
    + apply String.eqb_eq in He. subst suffix. intros _. now exists EmptyString.
    + cbn [orb]. intros H. destruct (IH H) as (p & ->).
      exists (String c p). now rewrite append_cons.
Qed.

Lemma ends_with_app (p suffix : string) : ends_with suffix (p ++ suffix) = true.
Proof.
  induction p as [|c p IH].
  - rewrite append_empty_l. destruct suffix; cbn [ends_with];
      now rewrite String.eqb_refl.
  - rewrite append_cons. cbn [ends_with]. rewrite IH. apply orb_true_r.
Qed.

Lemma substring_prefix (head tail : string) :
  String.substring 0 (String.length head) (head ++ tail) = head.
Proof.
  induction head as [|c head IH].
  - rewrite append_empty_l. now destruct tail.
  - rewrite append_cons. cbn [String.length String.substring]. now rewrite IH.
Qed.

Lemma drop_last_app (head tail : string) :
  drop_last (String.length tail) (head ++ tail) = head.
Proof.
  unfold drop_last. rewrite string_length_app.
  replace (String.length head + String.length tail - String.length tail)
    with (String.length head) by lia.
  apply substring_prefix.
Qed.

(** A title whose lower-case form ends in [suffix] loses, with its last
    [length suffix] characters, a tail that reads [suffix] in lower case. *)
Lemma drop_last_cut (title p suffix : string) :
  PyStr.lower title = p ++ suffix ->
  exists tail,
    cut_as title (drop_last (String.length suffix) title) tail
    /\ PyStr.lower tail = suffix
    /\ PyStr.lower (drop_last (String.length suffix) title) = p.
Proof.
  intros H. destruct (lower_app_inv _ _ _ H) as (head & tail & -> & Hh & Htl).
  exists tail. rewrite <- Htl, lower_length, drop_last_app.
  now repeat split.
Qed.

(** X11.  The forms of a title: the entity is the trimmed title, and the
    singular is the entity without a tail that reads, in lower case, er or
    ar (two characters are cut), or men (three characters are cut from a
    title in ismen, so that the singular ends in is); any other title is
    its own singular.  The export script for local files computes the same
    forms. *)
Theorem norwegian_forms_cut (no_title : string) :
  let forms := Retrieve.norwegian_forms no_title in
  let lower := PyStr.lower (PyStr.strip no_title) in
  Retrieve.entity forms = PyStr.strip no_title
  /\ LocalJson.norwegian_forms no_title = forms
  /\ exists tail,
       cut_as (Retrieve.entity forms) (Retrieve.entity_singular forms) tail
       /\ (PyStr.lower tail = "er"
           \/ PyStr.lower tail = "ar"
           \/ (PyStr.lower tail = "men"
               /\ ends_with "ismen" lower = true
               /\ ends_with "is"
                    (PyStr.lower (Retrieve.entity_singular forms)) = true)
           \/ (tail = EmptyString
               /\ ends_with "er" lower = false
               /\ ends_with "ar" lower = false
               /\ ends_with "ismen" lower = false)).
Proof.
  cbv zeta. split; [|split; [reflexivity|]].
  - unfold Retrieve.norwegian_forms.
    destruct (ends_with "er" (PyStr.lower (PyStr.strip no_title))
              || ends_with "ar" (PyStr.lower (PyStr.strip no_title)));
      [reflexivity|].
    now destruct (ends_with "ismen" (PyStr.lower (PyStr.strip no_title))).
  - unfold Retrieve.norwegian_forms.
    destruct (ends_with "er" (PyStr.lower (PyStr.strip no_title))) eqn:Her.
    { cbn [orb Retrieve.entity Retrieve.entity_singular].
      destruct (ends_with_cut _ _ Her) as (p & Hp).
      destruct (drop_last_cut _ _ _ Hp) as (tail & Hcut & Htail & _).
      exists tail. split; [exact Hcut|]. now left. }
    destruct (ends_with "ar" (PyStr.lower (PyStr.strip no_title))) eqn:Har.
    { cbn [orb Retrieve.entity Retrieve.entity_singular].
      destruct (ends_with_cut _ _ Har) as (p & Hp).
      destruct (drop_last_cut _ _ _ Hp) as (tail & Hcut & Htail & _).
      exists tail. split; [exact Hcut|]. right. now left. }
    cbn [orb].
    destruct (ends_with "ismen" (PyStr.lower (PyStr.strip no_title))) eqn:Hism.
    { cbn [Retrieve.entity Retrieve.entity_singular].
      destruct (ends_with_cut _ _ Hism) as (p & Hp).
      change (p ++ "ismen") with (p ++ ("is" ++ "men")) in Hp.
      rewrite <- append_assoc in Hp.
      destruct (drop_last_cut _ _ _ Hp) as (tail & Hcut & Htail & Hhead).
      exists tail. split; [exact Hcut|]. right. right. left.
      split; [exact Htail|]. split; [reflexivity|].
      change (String.length "men") with 3 in Hhead. rewrite Hhead.
      apply ends_with_app. }
    cbn [Retrieve.entity Retrieve.entity_singular].
    exists EmptyString. split; [unfold cut_as; now rewrite append_empty_r|].
    right. right. right. now repeat split.
Qed.

(** ** The first paragraph *)

Lemma has_char_lstrip (c : ascii) (s : string) :
  has_char c s = false -> has_char c (PyStr.lstrip s) = false.
Proof.
  induction s as [|x s IH]; [reflexivity|]. cbn [PyStr.lstrip].
  destruct (PyStr.is_space x); [|easy].
  cbn [has_char]. intros H. apply orb_false_elim in H. now apply IH.
Qed.

Lemma has_char_rstrip (c : ascii) (s : string) :
  has_char c s = false -> has_char c (PyStr.rstrip s) = false.
Proof.
  induction s as [|x s IH]; [reflexivity|]. cbn [has_char PyStr.rstrip].
  intros H. apply orb_false_elim in H. destruct H as [Hx Hs].
  specialize (IH Hs). destruct (PyStr.rstrip s) as [|y t].
  - destruct (PyStr.is_space x); [reflexivity|].
    cbn [has_char]. now rewrite Hx.
  - cbn [has_char] in *. now rewrite Hx, IH.
Qed.

Lemma first_line_no_line_feed (s : string) :
  has_char Csv.LF (first_line s) = false.
Proof.
  induction s as [|c s IH]; [reflexivity|]. cbn [first_line].
  destruct (Ascii.eqb c Csv.LF) eqn:Hc; [reflexivity|].
  cbn [has_char]. now rewrite Hc, IH.
Qed.

Lemma first_line_app (head rest : string) :
  has_char Csv.LF head = false ->
  first_line (head ++ String Csv.LF rest) = head.
Proof.
  induction head as [|c head IH].
  - intros _. rewrite append_empty_l. cbn [first_line].
    now rewrite Ascii.eqb_refl.
  - cbn [has_char]. intros H. apply orb_false_elim in H. destruct H as [Hc Hh].
    rewrite append_cons. cbn [first_line]. now rewrite Hc, (IH Hh).
Qed.

Lemma first_line_whole (s : string) :
  has_char Csv.LF s = false -> first_line s = s.
Proof.
  induction s as [|c s IH]; [reflexivity|]. cbn [has_char first_line].
  intros H. apply orb_false_elim in H. destruct H as [Hc Hs].
  now rewrite Hc, (IH Hs).
Qed.

(** X12.  The first paragraph of a page has no line feed in it and no
    white space around it; it is the trimmed text of the summary before
    its first line feed (whatever follows is dropped), and the trimmed
    summary when that has no line feed.  Both export scripts compute
    it alike. *)
Theorem first_paragraph_is_first_line (page : Page) :
  let para := Retrieve.first_paragraph page in
  has_char Csv.LF para = false
  /\ PyStr.strip para = para
  /\ LocalJson.first_paragraph_from_summary page = para
  /\ (forall head rest : string,
        has_char Csv.LF head = false ->
        page_summary page = head ++ String Csv.LF rest ->
        para = PyStr.strip head)
  /\ (has_char Csv.LF (page_summary page) = false ->
      para = PyStr.strip (page_summary page)).
Proof.
  cbv zeta. unfold Retrieve.first_paragraph. rewrite or_else_empty.
  split; [|split; [|split; [|split]]].
  - unfold PyStr.strip. apply has_char_rstrip, has_char_lstrip,
      first_line_no_line_feed.
  - apply strip_idempotent.
  - unfold LocalJson.first_paragraph_from_summary. now rewrite or_else_empty.
  - intros head rest Hhead ->. now rewrite first_line_app.
  - intros H. now rewrite first_line_whole.
Qed.

Lemma first_paragraph_witness :
  Retrieve.first_paragraph buddhism_no = "Buddhismen er en religion.".
Proof.
  rewrite (proj1 (proj2 (proj2 (proj2 (first_paragraph_is_first_line buddhism_no))))
             "Buddhismen er en religion." "Den oppstod i India.");
    reflexivity.
Defined.

(** ** The prompts of the two export scripts *)

(** X13.  The export script for local files has the templates without
    the three dots and adds them when it fills the row; the three prompt
    cells it writes for a title are those of the retrieval script, and its
    list of prompts always has three elements, so that the padding with
    empty strings never shows. *)
Theorem local_prompt_cells_agree (no_title : string) :
  LocalJson.prompt_cells no_title = Retrieve.gen_no_prompts no_title
  /\ length (LocalJson.generate_norwegian_prompts no_title) = 3
  /\ Forall2 (fun short long => long = short ++ "...")
       (LocalJson.generate_norwegian_prompts no_title)
       (Retrieve.gen_no_prompts no_title).
Proof.
  rewrite gen_no_prompts_unfold.
  unfold LocalJson.prompt_cells, LocalJson.generate_norwegian_prompts,
    LocalJson.PROMPT_TEMPLATES_NO, Retrieve.format.
  change (LocalJson.norwegian_forms no_title)
    with (Retrieve.norwegian_forms no_title).
  cbn [map PyStr.join_empty fold_right app firstn nth repeat length].
  rewrite !append_empty_r, !append_assoc.
  split; [reflexivity|]. split; [reflexivity|].
  repeat constructor; now rewrite !append_assoc.
Qed.

(** ** The title and the address of an item *)

Lemma truthy_strip_blank (s : string) :
  PyStr.truthy (PyStr.strip s) = negb (blank s).
Proof.
  destruct (blank s) eqn:Hb.
  - unfold PyStr.strip. rewrite <- blank_of_lstrip in Hb.
    induction (PyStr.lstrip s) as [|c t IH]; [reflexivity|].
    cbn [blank] in Hb. apply andb_prop in Hb. destruct Hb as [Hc Ht].
    cbn [PyStr.rstrip]. specialize (IH Ht).
    destruct (PyStr.rstrip t); [now rewrite Hc|discriminate].
  - now apply strip_of_nonblank.
Qed.

Lemma first_text_found (keys : list string) (obj : gmap string Json)
    (s : string) :
  LocalJson.first_text keys obj = Some s <->
  exists pre k post v,
    keys = (pre ++ k :: post)%list
    /\ Forall (fun k' => LocalJson.usable obj k' = false) pre
    /\ obj !! k = Some (JStr v)
    /\ blank v = false
    /\ s = PyStr.strip v.
Proof.
  induction keys as [|k keys IH].
  - split; [discriminate|]. intros (pre & k & post & v & H & _).
    now destruct pre.
  - cbn [LocalJson.first_text]. split.
    + destruct (obj !! k) as [[v|truth text]|] eqn:Hk.
      * destruct (PyStr.truthy (PyStr.strip v)) eqn:Hv.
        -- intros [= <-]. exists [], k, keys, v.
           rewrite truthy_strip_blank in Hv.
           repeat split; [constructor|exact Hk|now destruct (blank v)].
        -- intros H. apply IH in H.
           destruct H as (pre & k' & post & v' & -> & Hpre & Hrest).
           exists (k :: pre), k', post, v'. split; [reflexivity|].
           split; [|exact Hrest]. constructor; [|exact Hpre].
           unfold LocalJson.usable. now rewrite Hk.
      * intros H. apply IH in H.
        destruct H as (pre & k' & post & v' & -> & Hpre & Hrest).
        exists (k :: pre), k', post, v'. split; [reflexivity|].
        split; [|exact Hrest]. constructor; [|exact Hpre].
        unfold LocalJson.usable. now rewrite Hk.
      * intros H. apply IH in H.
        destruct H as (pre & k' & post & v' & -> & Hpre & Hrest).
        exists (k :: pre), k', post, v'. split; [reflexivity|].
        split; [|exact Hrest]. constructor; [|exact Hpre].
        unfold LocalJson.usable. now rewrite Hk.
    + intros (pre & k' & post & v & Hkeys & Hpre & Hk' & Hv & ->).
      destruct pre as [|k0 pre].
      * cbn [app] in Hkeys. injection Hkeys as -> ->. rewrite Hk'.
        now rewrite truthy_strip_blank, Hv.
      * cbn [app] in Hkeys. injection Hkeys as -> ->.
        inversion Hpre as [|? ? Hk0 Hpre']; subst.
        assert (LocalJson.first_text (pre ++ k' :: post)%list obj
                = Some (PyStr.strip v)) as Hrest.
        { apply IH. now exists pre, k', post, v. }
        unfold LocalJson.usable in Hk0.
        destruct (obj !! k0) as [[v0|truth text]|]; [|exact Hrest..].
        now rewrite Hk0.
Qed.

Lemma first_text_none (keys : list string) (obj : gmap string Json) :
  LocalJson.first_text keys obj = None <->
  Forall (fun k => LocalJson.usable obj k = false) keys.
Proof.
  induction keys as [|k keys IH]; [split; [constructor|reflexivity]|].
  cbn [LocalJson.first_text]. split.
  - intros H. constructor.
    + unfold LocalJson.usable.
      destruct (obj !! k) as [[v|truth text]|]; [|reflexivity..].
      now destruct (PyStr.truthy (PyStr.strip v)).
    + apply IH. destruct (obj !! k) as [[v|truth text]|]; [|exact H..].
      now destruct (PyStr.truthy (PyStr.strip v)).
  - intros H. inversion H as [|? ? Hk Hrest]; subst.
    apply IH in Hrest. unfold LocalJson.usable in Hk.
    destruct (obj !! k) as [[v|truth text]|]; [|exact Hrest..].
    now rewrite Hk.
Qed.

Lemma strip_nonblank_nonempty (v : string) :
  blank v = false -> PyStr.strip v <> EmptyString.
Proof.
  intros Hv. apply truthy_true_iff. now rewrite truthy_strip_blank, Hv.
Qed.

(** X14.  The title and the address that the export script for local
    files takes from an item: each is the trimmed value of the first of its
    candidate keys under which the object has a string that is not blank,
    so it is never empty and has no white space around it; there is none
    exactly when no candidate key has such a string.  An object that has a
    title and a name (and neither of the two keys tried before them) is
    exported under its title, while the retrieval script takes its
    name. *)
Theorem extract_entity_and_url_first_usable (obj : gmap string Json) :
  let extracted := LocalJson.extract_entity_and_url obj in
  (forall s : string,
     LocalJson.entity extracted = Some s <->
     exists pre k post v,
       LocalJson.CANDIDATE_ENTITY_KEYS = (pre ++ k :: post)%list
       /\ Forall (fun k' => LocalJson.usable obj k' = false) pre
       /\ obj !! k = Some (JStr v) /\ blank v = false /\ s = PyStr.strip v)
  /\ (forall s : string,
        LocalJson.url extracted = Some s <->
        exists pre k post v,
          LocalJson.CANDIDATE_URL_KEYS = (pre ++ k :: post)%list
          /\ Forall (fun k' => LocalJson.usable obj k' = false) pre
          /\ obj !! k = Some (JStr v) /\ blank v = false /\ s = PyStr.strip v)
  /\ (forall s : string,
        LocalJson.entity extracted = Some s \/ LocalJson.url extracted = Some s ->
        s <> EmptyString /\ PyStr.strip s = s)
  /\ (LocalJson.entity extracted = None <->
      Forall (fun k => LocalJson.usable obj k = false)
        LocalJson.CANDIDATE_ENTITY_KEYS)
  /\ (forall title name : string,
        LocalJson.usable obj "entity" = false ->
        LocalJson.usable obj "english_title" = false ->
        obj !! "title" = Some (JStr title) -> blank title = false ->
        obj !! "name" = Some (JStr name) -> blank name = false ->
        LocalJson.entity extracted = Some (PyStr.strip title)
        /\ Retrieve.english_title (ItemDict obj) = Some (PyStr.strip name)).
Proof.
  cbv zeta. unfold LocalJson.extract_entity_and_url.
  cbn [LocalJson.entity LocalJson.url].
  split; [intros s; apply first_text_found|].
  split; [intros s; apply first_text_found|].
  split; [|split; [apply first_text_none|]].
  - intros s [H|H]; apply first_text_found in H;
      destruct H as (_ & _ & _ & v & _ & _ & _ & Hv & ->);
      (split; [now apply strip_nonblank_nonempty|apply strip_idempotent]).
  - intros title name He Het Ht Hbt Hn Hbn. split.
    + apply first_text_found.
      exists ["entity"; "english_title"], "title", ["name"; "wiki_title"], title.
      split; [reflexivity|]. split; [|now repeat split].
      now repeat constructor.
    + unfold Retrieve.english_title, get_or. rewrite Hn.
      cbn [json_truthy]. destruct name as [|c name]; [discriminate|].
      reflexivity.
Qed.

Lemma extract_entity_and_url_witness :
  LocalJson.entity (LocalJson.extract_entity_and_url titled_and_named)
  = Some "Buddhism_(religion)"
  /\ Retrieve.english_title (ItemDict titled_and_named) = Some "Buddhism".
Proof.
  exact (proj2 (proj2 (proj2 (proj2
           (extract_entity_and_url_first_usable titled_and_named))))
           "Buddhism_(religion)" " Buddhism "
           eq_refl eq_refl eq_refl eq_refl eq_refl eq_refl).
Defined.

(** ** The Norwegian page of an English title *)

Lemma replace_char_absent (a b : ascii) (s : string) :
  has_char a s = false -> replace_char a b s = s.
Proof.
  induction s as [|c s IH]; [reflexivity|]. cbn [has_char replace_char].
  intros H. apply orb_false_elim in H. destruct H as [Hc Hs].
  now rewrite Hc, (IH Hs).
Qed.

Lemma title_variants_members (first_first : bool) (title t : string) :
  In t (Retrieve.title_variants first_first title) ->
  t = title \/ t = replace_char "_" " " title.
Proof.
  unfold Retrieve.title_variants.
  destruct (String.eqb title (replace_char "_" " " title)), first_first;
    cbn [In]; intuition auto.
Qed.

Lemma find_none_all {A : Type} (f : A -> bool) (l : list A) :
  Forall (fun x => f x = false) l -> List.find f l = None.
Proof.
  induction 1 as [|x l Hx _ IH]; [reflexivity|]. cbn [List.find].
  now rewrite Hx.
Qed.

(** X15.  The Norwegian page of an English title.  A page that is
    returned exists.  Nothing is returned when no English page exists
    under the title or under the title with spaces for underscores,
    whatever the Norwegian editions hold: they are only asked once an
    English page is found.  When the English page links to an existing
    page of the edition no, that page is returned, whatever it links to
    in nb and nn.  For a title without an underscore the order in which
    the set of spellings is walked does not matter. *)
Theorem get_no_page_from_en_priority (wiki : Wiki) (first_first : bool)
    (en_title : string) :
  (forall page : Page,
     Retrieve.get_no_page_from_en wiki first_first en_title = Some page ->
     page_exists page = true)
  /\ (page_exists (wiki "en" en_title) = false ->
      page_exists (wiki "en" (replace_char "_" " " en_title)) = false ->
      Retrieve.get_no_page_from_en wiki first_first en_title = None)
  /\ (forall (page_en : Page) (no_title : string),
        Retrieve.get_en_page wiki first_first en_title = Some page_en ->
        page_langlinks page_en !! "no" = Some no_title ->
        page_exists (wiki "no" no_title) = true ->
        Retrieve.get_no_page_from_en wiki first_first en_title
        = Some (wiki "no" no_title))
  /\ (has_char "_" en_title = false ->
      Retrieve.get_no_page_from_en wiki first_first en_title
      = Retrieve.get_no_page_from_en wiki (negb first_first) en_title).
Proof.
  split; [|split; [|split]].
  - intros page. apply get_no_page_exists.
  - intros H1 H2. unfold Retrieve.get_no_page_from_en, Retrieve.get_en_page.
    rewrite find_none_all; [reflexivity|].
    apply List.Forall_forall. intros p Hp. apply in_map_iff in Hp.
    destruct Hp as (t & <- & Ht).
    now destruct (title_variants_members _ _ _ Ht) as [-> | ->].
  - intros page_en no_title Hen Hlink Hexists.
    unfold Retrieve.get_no_page_from_en. rewrite Hen.
    unfold Retrieve.LANG_TRY. cbn [flat_map]. rewrite Hlink.
    cbn [app List.find]. now rewrite Hexists.
  - intros H. unfold Retrieve.get_no_page_from_en, Retrieve.get_en_page,
      Retrieve.title_variants.
    rewrite (replace_char_absent _ _ _ H), String.eqb_refl. reflexivity.
Qed.

Lemma get_no_page_from_en_witness :
  Retrieve.get_no_page_from_en example_wiki true "Buddhism" = Some buddhism_no
  /\ Retrieve.get_no_page_from_en example_wiki true "Buddhismen" = None.
Proof.
  split.
  - exact (proj1 (proj2 (proj2
             (get_no_page_from_en_priority example_wiki true "Buddhism")))
             buddhism_en "Buddhismen" eq_refl eq_refl eq_refl).
  - exact (proj1 (proj2
             (get_no_page_from_en_priority example_wiki true "Buddhismen"))
             eq_refl eq_refl).
Defined.
